(** * openpile: pile, soil profile, model springs and axial capacity

    A shallow embedding of [openpile.construct] (Pile, SoilProfile, Model),
    [openpile.calculate] (axial capacity engine) and the helper
    [repeat_inner] of [openpile.compute].

    Python floats are idealised as exact rationals ([Q]); [math.pi] is the
    rational value of the binary64 constant.  Where the code hands a tuple
    to a method, the values are numbers or tuples ([pyvalue]).  Python
    exceptions are values of [exn] carried by the [result] monad.  numpy
    arrays updated by index are lists updated with stdpp's [<[i:=x]>]. *)

From Stdlib Require Import QArith Qabs Qround Lqa Lia List String DecimalString Bool.
From Stdlib Require Import Permutation Sorted.
From stdpp Require Import list.
Import ListNotations.

Local Open Scope string_scope.
Local Open Scope Q_scope.

(** Rational arithmetic stays folded under [simpl]. *)
#[local] Arguments Qplus : simpl never.
#[local] Arguments Qminus : simpl never.
#[local] Arguments Qmult : simpl never.
#[local] Arguments Qopp : simpl never.
#[local] Arguments Qdiv : simpl never.
#[local] Arguments Qinv : simpl never.
#[local] Arguments Qabs : simpl never.
#[local] Arguments Qpower : simpl never.
#[local] Arguments Qle_bool : simpl never.
#[local] Arguments Qeq_bool : simpl never.

(* ===================================================================== *)
(** * Python run-time: exceptions and the result monad                    *)
(* ===================================================================== *)

Inductive exn : Type :=
| TypeError (msg : string)
| ValueError (msg : string)
| IndexError (msg : string)
| AttributeError (msg : string)
| NameError (msg : string)
| UnboundLocalError (var : string)
| Exception (msg : string).

Inductive result (A : Type) : Type :=
| Ok (a : A)
| Raise (e : exn).

Arguments Ok {A} a.
Arguments Raise {A} e.

(** Sequencing: an exception raised by [r] skips the continuation. *)
#[global] Instance result_bind : MBind result :=
  fun A B (k : A -> result B) (r : result A) =>
    match r with
    | Ok a => k a
    | Raise e => Raise e
    end.

#[global] Instance result_ret : MRet result := fun A a => Ok a.

Definition is_ok {A : Type} (r : result A) : bool :=
  match r with Ok _ => true | Raise _ => false end.

(** Decimal rendering of an index inside an f-string. *)
Definition show_nat (n : nat) : string :=
  NilEmpty.string_of_uint (Nat.to_uint n).

(* ===================================================================== *)
(** * Numbers                                                             *)
(* ===================================================================== *)

(** [math.pi]: the binary64 value 0x400921FB54442D18, as an exact fraction. *)
Definition m_pi : Q := 884279719003555 # 281474976710656.

Definition Qlt_bool (a b : Q) : bool := negb (Qle_bool b a).

Definition Qsum (l : list Q) : Q := fold_right Qplus 0 l.

(** [math.isclose(a, b, rel_tol=1e-09, abs_tol=abs_tol)] on finite values. *)
Definition rel_tol_default : Q := 1 # 1000000000.

Definition isclose (a b abs_tol : Q) : bool :=
  if Qeq_bool a b then true
  else
    let diff := Qabs (b - a) in
    Qle_bool diff (Qabs (rel_tol_default * b))
    || Qle_bool diff (Qabs (rel_tol_default * a))
    || Qle_bool diff abs_tol.

(** [sorted(l, key=key)]: stable, ascending in the key. *)
Section Sorted.
Context {A : Type} (key : A -> Q).

Fixpoint insert_by (x : A) (l : list A) : list A :=
    match l with
    | [] => [x]
    | y :: l' =>
        if Qle_bool (key x) (key y) then x :: y :: l' else y :: insert_by x l'
    end.

Definition sorted_by (l : list A) : list A :=
    fold_right insert_by [] l.
End Sorted.

(* ===================================================================== *)
(** * construct.py: pile sections and the pile                            *)
(* ===================================================================== *)

(** [CircularPileSection] after its validators ran: [thickness] is set
    ([diameter / 2] for a solid section). *)
Record CircularPileSection : Type := {
  top_elevation : Q;
  bottom_elevation : Q;
  diameter : Q;
  thickness : Q
}.

Definition get_top_elevation (s : CircularPileSection) : Q := top_elevation s.
Definition get_bottom_elevation (s : CircularPileSection) : Q := bottom_elevation s.
Definition get_length (s : CircularPileSection) : Q :=
  top_elevation s - bottom_elevation s.
Definition get_area (s : CircularPileSection) : Q :=
  (diameter s ^ 2 - (diameter s - 2 * thickness s) ^ 2) * m_pi / 4.
Definition get_footprint (s : CircularPileSection) : Q :=
  diameter s ^ 2 * m_pi / 4.
Definition get_width (s : CircularPileSection) : Q := diameter s.

Record PileMaterial : Type := {
  unitweight : Q;
  young : Q;
  shear_modulus : Q
}.

Record Pile : Type := {
  pile_name : string;
  pile_sections : list CircularPileSection;
  material : PileMaterial
}.

(** The loop of [Pile.pile_sections_must_not_overlap] from index [i] on,
    [previous] being [pile_sections[i-1]]. *)
Fixpoint sections_connect (i : nat) (previous : CircularPileSection)
    (rest : list CircularPileSection) : result unit :=
  match rest with
  | [] => Ok tt
  | segment :: rest' =>
      if negb (Qeq_bool (top_elevation segment) (bottom_elevation previous))
      then Raise (ValueError
             ("Pile sections are not consistent. Pile section No. "
              ++ show_nat i ++ " and No. " ++ show_nat (i - 1)
              ++ " do not connect."))
      else sections_connect (S i) segment rest'
  end.

(** [Pile.pile_sections_must_not_overlap]: sorts the sections by descending
    top elevation, then checks every section against the previous one. *)
Definition pile_sections_must_not_overlap (sections : list CircularPileSection)
  : result (list CircularPileSection) :=
  let sorted := sorted_by (fun x => - get_top_elevation x) sections in
  match sorted with
  | [] => Ok sorted
  | first :: rest => _ ← sections_connect 1 first rest; Ok sorted
  end.

(** The [material] argument of [Pile]: a name or a [PileMaterial]. *)
Inductive MaterialArg : Type :=
| Steel
| Concrete
| Custom (m : PileMaterial).

Section PileInit.
  (** [PileMaterial.steel()] and [PileMaterial.concrete()] of
      [openpile.materials]. *)
Variables PileMaterial_steel PileMaterial_concrete : PileMaterial.

Definition check_materials (m : MaterialArg) : PileMaterial :=
    match m with
    | Steel => PileMaterial_steel
    | Concrete => PileMaterial_concrete
    | Custom pm => pm
    end.

  (** [Pile(name=..., pile_sections=..., material=...)]. *)
Definition Pile_init (name : string) (sections : list CircularPileSection)
      (m : MaterialArg) : result Pile :=
    sorted ← pile_sections_must_not_overlap sections;
    Ok {| pile_name := name;
          pile_sections := sorted;
          material := check_materials m |}.
End PileInit.

Definition last_section (p : Pile) : result CircularPileSection :=
  match last (pile_sections p) with
  | Some s => Ok s
  | None => Raise (IndexError "list index out of range")
  end.

(** [Pile.bottom_elevation], [Pile.tip_area], [Pile.tip_footprint]. *)
Definition pile_bottom_elevation (p : Pile) : result Q :=
  s ← last_section p; Ok (get_bottom_elevation s).
Definition tip_area (p : Pile) : result Q :=
  s ← last_section p; Ok (get_area s).
Definition tip_footprint (p : Pile) : result Q :=
  s ← last_section p; Ok (get_footprint s).

(* ===================================================================== *)
(** * construct.py: constitutive models, layers and the soil profile      *)
(* ===================================================================== *)

(** numpy arrays of any rank. *)
#[warnings="-register-all"] Inductive ndarray : Type :=
| Num (x : Q)
| Axis (items : list ndarray).

(** The value of [unit_shaft_signature(So, Si)]: a dict with the keys
    ["out"] and ["in"]. *)
Record ShaftSignature : Type := {
  sig_out : Q;
  sig_in : Q
}.

(** A Python number, where being an [int] or a [float] decides what [*]
    does with a tuple; the value is exact in both cases. *)
Inductive number : Type :=
| PyInt (n : Z)
| PyFloat (x : Q).

Definition number_value (n : number) : Q :=
  match n with
  | PyInt z => inject_Z z
  | PyFloat x => x
  end.

Definition number_mul (a b : number) : number :=
  match a, b with
  | PyInt x, PyInt y => PyInt (x * y)
  | _, _ => PyFloat (number_value a * number_value b)
  end.

(** What [unit_tip_resistance] is given as [sig] and what it returns: a
    number or a tuple of numbers. *)
Inductive pyvalue : Type :=
| Number (n : number)
| Tuple (items : list number).

(** [items * k] for a tuple and an [int]: the tuple repeated [k] times, and
    empty for [k <= 0]. *)
Definition tuple_repeat (items : list number) (k : Z) : list number :=
  concat (repeat items (Z.to_nat k)).

(** [a * b] for a value [a] and a number [b]. *)
Definition py_mul (a : pyvalue) (b : number) : result pyvalue :=
  match a, b with
  | Number x, _ => Ok (Number (number_mul x b))
  | Tuple items, PyInt k => Ok (Tuple (tuple_repeat items k))
  | Tuple _, PyFloat _ =>
      Raise (TypeError "can't multiply sequence by non-int of type 'float'")
  end.

(** [+a]. *)
Definition py_pos (a : pyvalue) : result pyvalue :=
  match a with
  | Number x => Ok (Number x)
  | Tuple _ => Raise (TypeError "bad operand type for unary +: 'tuple'")
  end.

(** [a - b] and [a < b] for a value [a] and a float [b]. *)
Definition py_sub (a : pyvalue) (b : Q) : result Q :=
  match a with
  | Number x => Ok (number_value x - b)
  | Tuple _ =>
      Raise (TypeError "unsupported operand type(s) for -: 'tuple' and 'float'")
  end.
Definition py_lt (a : pyvalue) (b : Q) : result bool :=
  match a with
  | Number x => Ok (Qlt_bool (number_value x) b)
  | Tuple _ =>
      Raise (TypeError
        "'<' not supported between instances of 'tuple' and 'float'")
  end.

(** The capability object [AxialModel]; the three methods take
    [sig], [depth_from_top_of_layer], [layer_height] (resp. the two
    surfaces).  [unit_tip_resistance] is the one method that is not called
    with a float for [sig], so it takes a value and may raise. *)
Record AxialModel : Type := {
  unit_shaft_friction : Q -> Q -> Q -> Q;
  unit_shaft_signature : Q -> Q -> ShaftSignature;
  unit_tip_resistance : pyvalue -> Q -> Q -> result pyvalue;
  t_multiplier : Q;
  Q_multiplier : number
}.

(** Keyword arguments of the four spring functions of a lateral model. *)
Record SpringArgs : Type := {
  arg_sig : Q;
  arg_X : Q;
  arg_layer_height : Q;
  arg_depth_from_top_of_layer : Q;
  arg_D : Q;
  arg_L : Q;
  arg_below_water_table : bool;
  arg_output_length : nat
}.

(** The capability object [LateralModel].  [spring_signature] is indexed
    [0] p-y, [1] Hb, [2] m-t, [3] Mb; a spring function returns the pair
    that the caller unpacks. *)
Record LateralModel : Type := {
  spring_signature : nat -> bool;
  py_spring_fct : SpringArgs -> ndarray * ndarray;
  mt_spring_fct : SpringArgs -> ndarray * ndarray;
  Hb_spring_fct : SpringArgs -> ndarray * ndarray;
  Mb_spring_fct : SpringArgs -> ndarray * ndarray
}.

Module Layer.
Record t : Type := {
    name : string;
    top : Q;
    bottom : Q;
    weight : Q;
    lateral_model : option LateralModel;
    axial_model : option AxialModel
  }.
End Layer.

Module SoilProfile.
Record t : Type := {
    name : string;
    top_elevation : Q;
    water_line : Q;
    layers : list Layer.t
  }.

  (** [SoilProfile.bottom_elevation]. *)
Definition bottom_elevation (sp : t) : Q :=
    top_elevation sp
    - Qsum (map (fun x => Qabs (Layer.top x - Layer.bottom x)) (layers sp)).
End SoilProfile.

(** [np.argsort(a)]: the indices of [a] in ascending order of the values.
    numpy does not fix the order of equal values; here they keep the order
    of their indices. *)
Definition argsort (a : list Q) : list nat :=
  sorted_by (fun i => nth i a 0) (seq 0 (length a)).

(** [a[idx]] for an index array [idx]. *)
Definition take_indices (a : list Q) (idx : list nat) : list Q :=
  map (fun i => nth i a 0) idx.

(** [for x in xs: body(x)] where the body may raise. *)
Fixpoint for_each {A : Type} (xs : list A) (body : A -> result unit)
  : result unit :=
  match xs with
  | [] => Ok tt
  | x :: xs' => _ ← body x; for_each xs' body
  end.

(** A loop that threads a state and may raise. *)
Fixpoint foldM {S A : Type} (body : S -> A -> result S) (xs : list A) (s : S)
  : result S :=
  match xs with
  | [] => Ok s
  | x :: xs' => s' ← body s x; foldM body xs' s'
  end.

Definition abs_tol_layers : Q := 1 # 1000.

(** The arrays [top_sorted] and [bottom_sorted] of
    [check_layers_elevations]: the layers by descending top elevation. *)
Definition top_sorted (sp : SoilProfile.t) : list Q :=
  let top_elevations := map Layer.top (SoilProfile.layers sp) in
  let idx_sort := argsort top_elevations in
  rev (take_indices top_elevations idx_sort).

Definition bottom_sorted (sp : SoilProfile.t) : list Q :=
  let top_elevations := map Layer.top (SoilProfile.layers sp) in
  let bottom_elevations := map Layer.bottom (SoilProfile.layers sp) in
  let idx_sort := argsort top_elevations in
  rev (take_indices bottom_elevations idx_sort).

(** [SoilProfile.check_layers_elevations]. *)
Definition check_layers_elevations (sp : SoilProfile.t) : result unit :=
  match top_sorted sp with
  | [] => Raise (IndexError "index 0 is out of bounds for axis 0 with size 0")
  | top0 :: _ =>
      if negb (Qeq_bool top0 (SoilProfile.top_elevation sp))
      then Raise (ValueError
             "top_elevation not matching uppermost layer's elevations.")
      else
        for_each (seq 0 (length (top_sorted sp) - 1)) (fun i =>
          if negb (isclose (nth (i + 1) (top_sorted sp) 0)
                           (nth i (bottom_sorted sp) 0) abs_tol_layers)
          then Raise (ValueError "Layers' elevations overlap.")
          else Ok tt)
  end.

(** [SoilProfile(...)]: the elevation validator decides; the validator of
    the multipliers only inspects the lateral models and never raises. *)
Definition SoilProfile_init (name : string) (top_elevation water_line : Q)
    (layers : list Layer.t) : result SoilProfile.t :=
  let sp := {| SoilProfile.name := name;
               SoilProfile.top_elevation := top_elevation;
               SoilProfile.water_line := water_line;
               SoilProfile.layers := layers |} in
  _ ← check_layers_elevations sp; Ok sp.

(* ===================================================================== *)
(** * The mesh/property mapper                                            *)
(* ===================================================================== *)

(** One row of the soil table ([soil_properties]). *)
Record SoilRow : Type := {
  x_top : Q;
  x_bottom : Q;
  xg_top : Q;
  xg_bottom : Q;
  sigma_v_top : Q;
  sigma_v_bottom : Q
}.

(** One row of the structural table ([element_properties]). *)
Record ElementRow : Type := {
  elem_x_top : Q;
  elem_x_bottom : Q;
  Diameter : Q;
  Wall_thickness : Q;
  Area : Q
}.

(** Modelled from the spec: [openpile.core._model_build.get_all_properties]
    is not part of the sources.  Its contract is that the soil table and the
    structural table are aligned by a shared 0-based element index, ordered
    from pile top to pile bottom; a [MeshRow] is the join of the two tables
    at one index, so the list position is the pandas index. *)
Record MeshRow : Type := {
  soil_row : SoilRow;
  elem_row : ElementRow
}.

Definition Mapper : Type :=
  Pile -> option SoilProfile.t -> option (list Q) -> Q -> list MeshRow.

(** [np.zeros(n)]. *)
Definition zeros (n : nat) : list Q := repeat 0 n.

(** [df.loc[mask].index]: the positions of the rows that satisfy [mask]. *)
Definition index_where {A : Type} (mask : A -> bool) (rows : list A)
  : list nat :=
  List.filter
    (fun i => match rows !! i with Some r => mask r | None => false end)
    (seq 0 (length rows)).

(** The rows whose span lies within the extent of the layer. *)
Definition in_layer (layer : Layer.t) (r : MeshRow) : bool :=
  Qle_bool (x_top (soil_row r)) (Layer.top layer)
  && Qle_bool (Layer.bottom layer) (x_bottom (soil_row r)).

Definition elements_for_layer (rows : list MeshRow) (layer : Layer.t)
  : list nat :=
  index_where (in_layer layer) rows.

(** [soil.<attribute>] when [soil] may be [None]. *)
Definition soil_attr (soil : option SoilProfile.t) : result SoilProfile.t :=
  match soil with
  | Some sp => Ok sp
  | None => Raise (AttributeError "'NoneType' object has no attribute 'layers'")
  end.

(* ===================================================================== *)
(** * calculate.py: the axial capacity engine                             *)
(* ===================================================================== *)

Definition uw_water : Q := 10.

(** Element length, from the structural table. *)
Definition elem_L (r : MeshRow) : Q :=
  elem_x_top (elem_row r) - elem_x_bottom (elem_row r).

Definition perimeter_outside (r : MeshRow) : Q := Diameter (elem_row r) * m_pi.
Definition perimeter_inside (r : MeshRow) : Q :=
  (Diameter (elem_row r) - 2 * Wall_thickness (elem_row r)) * m_pi.
Definition area_inside (r : MeshRow) : Q :=
  (Diameter (elem_row r) - 2 * Wall_thickness (elem_row r)) ^ 2 * m_pi / 4.

(** Vertical effective stress and depth below ground used for an element. *)
Definition sigveff (r : MeshRow) : Q :=
  (1 # 2) * (sigma_v_top (soil_row r) + sigma_v_bottom (soil_row r)).
Definition depth_from_ground (r : MeshRow) : Q :=
  (Qabs (xg_top (soil_row r)) + Qabs (xg_bottom (soil_row r))) / 2.
(** Element mid-point elevation, from the soil table. *)
Definition elevation (r : MeshRow) : Q :=
  (1 # 2) * (x_top (soil_row r) + x_bottom (soil_row r)).

(** The body of the inner loop of [entrapped_soil_weight] at element [i]. *)
Definition soil_weight_at (water_line : Q) (layer : Layer.t) (Vi el : list Q)
    (i : nat) : Q :=
  if Qle_bool (nth i el 0) water_line
  then Layer.weight layer * nth i Vi 0
  else (Layer.weight layer - uw_water) * nth i Vi 0.

(** [for i in idxs: a[i] = value(i)]. *)
Definition scatter (value : nat -> Q) (idxs : list nat) (a : list Q)
  : list Q :=
  fold_left (fun a i => <[i := value i]> a) idxs a.

(** One turn of [for layer in soil.layers] in [entrapped_soil_weight]. *)
Definition soil_weight_pass (rows : list MeshRow) (water_line : Q)
    (Vi el : list Q) (element_sw : list Q) (layer : Layer.t) : list Q :=
  scatter (soil_weight_at water_line layer Vi el)
          (elements_for_layer rows layer) element_sw.

(** The body of the inner loops of [shaft_resistance] at element [i]:
    the outer and the inner value. *)
Definition shaft_out_at (layer : Layer.t) (am : AxialModel) (r : MeshRow)
    (So Si : Q) : Q :=
  unit_shaft_friction am (sigveff r) (depth_from_ground r)
                      (Layer.top layer - Layer.bottom layer)
  * sig_out (unit_shaft_signature am So Si)
  * So
  * t_multiplier am.

Definition shaft_in_at (layer : Layer.t) (am : AxialModel) (r : MeshRow)
    (So Si : Q) : Q :=
  unit_shaft_friction am (sigveff r) (depth_from_ground r)
                      (Layer.top layer - Layer.bottom layer)
  * sig_in (unit_shaft_signature am So Si)
  * Si
  * t_multiplier am.

Definition default_row : MeshRow :=
  {| soil_row := {| x_top := 0; x_bottom := 0; xg_top := 0; xg_bottom := 0;
                    sigma_v_top := 0; sigma_v_bottom := 0 |};
     elem_row := {| elem_x_top := 0; elem_x_bottom := 0; Diameter := 0;
                    Wall_thickness := 0; Area := 0 |} |}.

(** One turn of [for layer in soil.layers] in [shaft_resistance]; the state
    is the pair of rows [element_fs[0]], [element_fs[1]]. *)
Definition shaft_pass (rows : list MeshRow) (So Si : list Q)
    (element_fs : list Q * list Q) (layer : Layer.t) : list Q * list Q :=
  match Layer.axial_model layer with
  | None => element_fs
  | Some am =>
      fold_left
        (fun fs i =>
           let r := nth i rows default_row in
           (<[i := shaft_out_at layer am r (nth i So 0) (nth i Si 0)]> (fst fs),
            <[i := shaft_in_at layer am r (nth i So 0) (nth i Si 0)]> (snd fs)))
        (elements_for_layer rows layer) element_fs
  end.

(** The arrays computed by [_pile_element_surface] and
    [_pile_inside_volume] from the structural table. *)
Definition surface_outside (rows : list MeshRow) : list Q :=
  map (fun r => perimeter_outside r * elem_L r) rows.
Definition surface_inside (rows : list MeshRow) : list Q :=
  map (fun r => perimeter_inside r * elem_L r) rows.
Definition inside_volume (rows : list MeshRow) : list Q :=
  map (fun r => area_inside r * elem_L r) rows.

(** The contribution of one layer to [entrapped_soil_weight] on a given
    mesh: the sum of the entries its turn of the loop writes. *)
Definition layer_soil_weight (rows : list MeshRow) (water_line : Q)
    (layer : Layer.t) : Q :=
  Qsum (soil_weight_pass rows water_line (inside_volume rows)
          (map elevation rows) (zeros (length rows)) layer).

(** The contribution of one layer to [shaft_resistance] on a given mesh. *)
Definition layer_shaft_resistance (rows : list MeshRow)
    (outer_shaft inner_shaft : bool) (layer : Layer.t) : Q :=
  let n := length rows in
  let element_fs :=
    shaft_pass rows (surface_outside rows) (surface_inside rows)
               (zeros n, zeros n) layer in
  Qsum (if outer_shaft then fst element_fs else zeros n)
  + Qsum (if inner_shaft then snd element_fs else zeros n).

(** The elements of a layer whose unit weight gets the reduction by
    [uw_water] in [entrapped_soil_weight]. *)
Definition reduced_elements (rows : list MeshRow) (water_line : Q)
    (layer : Layer.t) : list nat :=
  List.filter (fun i => negb (Qle_bool (nth i (map elevation rows) 0) water_line))
              (elements_for_layer rows layer).

(** A layer with another unit weight, resp. another friction multiplier. *)
Definition with_weight (w : Q) (layer : Layer.t) : Layer.t :=
  {| Layer.name := Layer.name layer;
     Layer.top := Layer.top layer;
     Layer.bottom := Layer.bottom layer;
     Layer.weight := w;
     Layer.lateral_model := Layer.lateral_model layer;
     Layer.axial_model := Layer.axial_model layer |}.

Definition with_t_multiplier (t : Q) (am : AxialModel) : AxialModel :=
  {| unit_shaft_friction := unit_shaft_friction am;
     unit_shaft_signature := unit_shaft_signature am;
     unit_tip_resistance := unit_tip_resistance am;
     t_multiplier := t;
     Q_multiplier := Q_multiplier am |}.

Definition with_axial_model (am : option AxialModel) (layer : Layer.t)
  : Layer.t :=
  {| Layer.name := Layer.name layer;
     Layer.top := Layer.top layer;
     Layer.bottom := Layer.bottom layer;
     Layer.weight := Layer.weight layer;
     Layer.lateral_model := Layer.lateral_model layer;
     Layer.axial_model := am |}.

Section Calculate.

(** The mesh/property mapper and [math.sqrt] are taken as given. *)
Variable get_all_properties : Mapper.
Variable m_sqrt : Q -> Q.

Definition mesh (pile : Pile) (soil : option SoilProfile.t) : list MeshRow :=
  get_all_properties pile soil None (1 # 10).

(** [_pile_element_surface]: outer and inner surface of every element. *)
Definition _pile_element_surface (pile : Pile) (soil : option SoilProfile.t)
  : list Q * list Q :=
  let element_properties := mesh pile soil in
  (surface_outside element_properties, surface_inside element_properties).

(** [_pile_inside_volume]: inner volume of every element. *)
Definition _pile_inside_volume (pile : Pile) (soil : option SoilProfile.t)
  : list Q :=
  inside_volume (mesh pile soil).

(** [effective_pile_weight]. *)
Definition effective_pile_weight (pile : Pile) (soil : option SoilProfile.t)
  : result Q :=
  let element_properties := mesh pile soil in
  match soil with
  | Some sp =>
      let W := map (fun r =>
                 let V := elem_L r * Area (elem_row r) in
                 if Qlt_bool (elem_x_bottom (elem_row r))
                             (SoilProfile.water_line sp)
                 then V * (unitweight (material pile) - 10)
                 else V * unitweight (material pile))
               element_properties in
      Ok (Qsum W)
  | None =>
      Raise (Exception
        "Model must be linked to a soil profile, use `openpile.construct.Pile.weight instead.`")
  end.

(** One turn of [for layer in soil.layers] in [unit_end_bearing]; [q] is
    [None] while the local variable is unbound.  [sig_v_tip] is the 1-tuple
    [(x,)] of the last entry [x] of the column, as the trailing comma of the
    source makes it. *)
Definition end_bearing_step (pile : Pile) (sp : SoilProfile.t)
    (soil_properties : list MeshRow) (q : option pyvalue) (layer : Layer.t)
  : result (option pyvalue) :=
  match Layer.axial_model layer with
  | None => Ok (Some (Number (PyFloat 0)))
  | Some am =>
      pb ← pile_bottom_elevation pile;
      if Qle_bool pb (Layer.top layer) && Qle_bool (Layer.bottom layer) pb
      then
        match last soil_properties with
        | None => Raise (IndexError "single positional indexer is out-of-bounds")
        | Some r =>
            let sig_v_tip := Tuple [PyFloat (sigma_v_bottom (soil_row r))] in
            tip ← unit_tip_resistance am sig_v_tip
                    (SoilProfile.top_elevation sp
                     - SoilProfile.bottom_elevation sp)
                    (Layer.top layer - Layer.bottom layer);
            q ← py_mul tip (Q_multiplier am);
            Ok (Some q)
        end
      else Ok q
  end.

(** [unit_end_bearing]. *)
Definition unit_end_bearing (pile : Pile) (soil : option SoilProfile.t)
  : result pyvalue :=
  let soil_properties := mesh pile soil in
  sp ← soil_attr soil;
  q ← foldM (end_bearing_step pile sp soil_properties)
            (SoilProfile.layers sp) None;
  match q with
  | Some v => Ok v
  | None => Raise (UnboundLocalError "q")
  end.

(** [entrapped_soil_weight]. *)
Definition entrapped_soil_weight (pile : Pile) (soil : option SoilProfile.t)
  : result Q :=
  let rows := mesh pile soil in
  let Vi := _pile_inside_volume pile soil in
  let el := map elevation rows in
  let elem_number := length rows in
  sp ← soil_attr soil;
  let element_sw :=
    fold_left (soil_weight_pass rows (SoilProfile.water_line sp) Vi el)
              (SoilProfile.layers sp) (zeros elem_number) in
  Ok (Qsum element_sw).

(** [shaft_resistance]. *)
Definition shaft_resistance (pile : Pile) (soil : option SoilProfile.t)
    (outer_shaft inner_shaft : bool) : result Q :=
  let rows := mesh pile soil in
  let elem_number := length rows in
  let '(So, Si) := _pile_element_surface pile soil in
  sp ← soil_attr soil;
  let element_fs :=
    fold_left (shaft_pass rows So Si) (SoilProfile.layers sp)
              (zeros elem_number, zeros elem_number) in
  let fs0 := if outer_shaft then fst element_fs else zeros elem_number in
  let fs1 := if inner_shaft then snd element_fs else zeros elem_number in
  Ok (Qsum fs0 + Qsum fs1).

(** [isplugged(pile, soil, method, kind)], the body. *)
Definition isplugged (pile : Pile) (soil : option SoilProfile.t)
    (method kind : string) : result bool :=
  if (method =? "API-87")%string then
    if (kind =? "compression")%string then
      q ← unit_end_bearing pile soil;
      footprint ← tip_footprint pile;
      area ← tip_area pile;
      lhs ← py_mul q (PyFloat (footprint - area));
      sr ← shaft_resistance pile soil false true;
      esw ← entrapped_soil_weight pile soil;
      py_lt lhs (sr - esw)
    else if (kind =? "tension")%string then
      esw ← entrapped_soil_weight pile soil;
      sr ← shaft_resistance pile soil false true;
      Ok (Qlt_bool esw sr)
    else Raise (UnboundLocalError "answer")
  else if (method =? "ICP-05")%string then
    footprint ← tip_footprint pile;
    let pile_tip_criterion := m_sqrt (4 * footprint / m_pi) in
    Ok (if Qlt_bool pile_tip_criterion (14 # 10) then true else false)
  else Raise (Exception "Method not implemented").

(** A call of [isplugged]: the signature is
    [isplugged(pile, soil, method: str, kind: str = "compression")], so
    [method] has no default and a call that does not pass it raises before
    the body runs. *)
Definition call_isplugged (pile : Pile) (soil : option SoilProfile.t)
    (method kind : option string) : result bool :=
  match method with
  | None =>
      Raise (TypeError
        "isplugged() missing 1 required positional argument: 'method'")
  | Some m => isplugged pile soil m (default "compression" kind)
  end.

(** The two branches of [compressioncapacity].  The assignment to [Q] ends
    with its line; the next line is an expression statement of its own,
    evaluated and dropped. *)
Definition compression_branch (pile : Pile) (soil : option SoilProfile.t)
    (plugged : bool) : result Q :=
  if plugged then
    Q ← shaft_resistance pile soil true false;
    _ ← (q ← unit_end_bearing pile soil;
         q ← py_pos q;
         footprint ← tip_footprint pile;
         gross ← py_mul q (PyFloat footprint);
         esw ← entrapped_soil_weight pile soil;
         py_sub gross esw);
    Ok Q
  else
    Q ← shaft_resistance pile soil true true;
    _ ← (q ← unit_end_bearing pile soil;
         q ← py_pos q;
         area ← tip_area pile;
         py_mul q (PyFloat area));
    Ok Q.

(** [compressioncapacity]. *)
Definition compressioncapacity (pile : Pile) (soil : option SoilProfile.t)
  : result Q :=
  plugged ← call_isplugged pile soil None (Some "compression");
  compression_branch pile soil plugged.

(** The two branches of [tensilecapacity]. *)
Definition tension_branch (pile : Pile) (soil : option SoilProfile.t)
    (plugged : bool) : result Q :=
  if plugged then
    sr ← shaft_resistance pile soil true false;
    esw ← entrapped_soil_weight pile soil;
    Ok (sr + esw)
  else
    shaft_resistance pile soil true true.

(** [tensilecapacity]. *)
Definition tensilecapacity (pile : Pile) (soil : option SoilProfile.t)
  : result Q :=
  plugged ← call_isplugged pile soil None (Some "tension");
  tension_branch pile soil plugged.

End Calculate.

(* ===================================================================== *)
(** * construct.py: the model and its springs                             *)
(* ===================================================================== *)

(** [np.zeros(shape)]. *)
Fixpoint np_zeros (shape : list nat) : ndarray :=
  match shape with
  | [] => Num 0
  | n :: shape' => Axis (repeat (np_zeros shape') n)
  end.

(** [a[idx] = v] for an index tuple within the bounds of [a] (every index
    tuple of the model is); the value is stored as it is returned. *)
Fixpoint setitem (idx : list nat) (v : ndarray) (a : ndarray) : ndarray :=
  match idx with
  | [] => v
  | i :: idx' =>
      match a with
      | Num _ => a
      | Axis items =>
          match items !! i with
          | Some sub => Axis (<[i := setitem idx' v sub]> items)
          | None => a
          end
      end
  end.

(** [a.shape] and the elements of [a] in C order. *)
Fixpoint shape (a : ndarray) : list nat :=
  match a with
  | Num _ => []
  | Axis items =>
      length items :: match items with
                      | [] => []
                      | sub :: _ => shape sub
                      end
  end.

Fixpoint ravel (a : ndarray) : list Q :=
  match a with
  | Num x => [x]
  | Axis items => flat_map ravel items
  end.

(** [a.reshape(rows, cols)] as a list of rows. *)
Fixpoint chunks (rows cols : nat) (l : list Q) : list (list Q) :=
  match rows with
  | O => []
  | S rows' => firstn cols l :: chunks rows' cols (skipn cols l)
  end.

Definition reshape2 (rows cols : nat) (a : ndarray) : list (list Q) :=
  chunks rows cols (ravel a).

Inductive ElementType : Type :=
| Timoshenko
| EulerBernoulli.

Module Model.
Record t : Type := {
  name : string;
  pile : Pile;
  soil : option SoilProfile.t;
  element_type : ElementType;
  x2mesh : list Q;
  coarseness : Q;
  distributed_lateral : bool;
  distributed_moment : bool;
  base_shear : bool;
  base_moment : bool;
  distributed_axial : bool;
  base_axial : bool
}.
End Model.

(** An evaluation of a spring function of a lateral model. *)
Inductive SpringCall : Type :=
| PyCall (args : SpringArgs)
| MtCall (args : SpringArgs)
| HbCall (args : SpringArgs)
| MbCall (args : SpringArgs).

Definition is_py_call (c : SpringCall) : bool :=
  match c with PyCall _ => true | _ => false end.
Definition is_mt_call (c : SpringCall) : bool :=
  match c with MtCall _ => true | _ => false end.
Definition is_Hb_call (c : SpringCall) : bool :=
  match c with HbCall _ => true | _ => false end.
Definition is_Mb_call (c : SpringCall) : bool :=
  match c with MbCall _ => true | _ => false end.

(** The local state of [create_springs]: the five arrays, the local
    variable [pile_width] ([None] while unbound), the evaluations of spring
    functions so far and the lines printed. *)
Record Springs : Type := {
  py : ndarray;
  mt : ndarray;
  Hb : ndarray;
  Mb : ndarray;
  tz : ndarray;
  pile_width : option Q;
  calls : list SpringCall;
  printed : list string
}.

Definition spring_dim : nat := 15.

Definition set_py (a : ndarray) (c : SpringCall) (st : Springs) : Springs :=
  {| py := a; mt := mt st; Hb := Hb st; Mb := Mb st; tz := tz st;
     pile_width := pile_width st; calls := calls st ++ [c];
     printed := printed st |}.
Definition set_mt (a : ndarray) (c : SpringCall) (st : Springs) : Springs :=
  {| py := py st; mt := a; Hb := Hb st; Mb := Mb st; tz := tz st;
     pile_width := pile_width st; calls := calls st ++ [c];
     printed := printed st |}.
Definition set_Hb (a : ndarray) (c : SpringCall) (st : Springs) : Springs :=
  {| py := py st; mt := mt st; Hb := a; Mb := Mb st; tz := tz st;
     pile_width := pile_width st; calls := calls st ++ [c];
     printed := printed st |}.
Definition set_Mb (a : ndarray) (c : SpringCall) (st : Springs) : Springs :=
  {| py := py st; mt := mt st; Hb := Hb st; Mb := a; tz := tz st;
     pile_width := pile_width st; calls := calls st ++ [c];
     printed := printed st |}.
Definition set_pile_width (w : Q) (st : Springs) : Springs :=
  {| py := py st; mt := mt st; Hb := Hb st; Mb := Mb st; tz := tz st;
     pile_width := Some w; calls := calls st; printed := printed st |}.
Definition print (line : string) (st : Springs) : Springs :=
  {| py := py st; mt := mt st; Hb := Hb st; Mb := Mb st; tz := tz st;
     pile_width := pile_width st; calls := calls st;
     printed := printed st ++ [line] |}.

(** [(a[idx + (1,)], a[idx + (0,)]) = ret]. *)
Definition unpack_into (idx : list nat) (ret : ndarray * ndarray)
    (a : ndarray) : ndarray :=
  setitem (idx ++ [0%nat]) (snd ret) (setitem (idx ++ [1%nat]) (fst ret) a).

(** The keyword arguments of a p-y or m-t spring function at end [j] of an
    element ([j = 0] top, [j = 1] bottom). *)
Definition end_args (sp : SoilProfile.t) (layer : Layer.t) (r : MeshRow)
    (pile_width pile_bottom : Q) (j : nat) : SpringArgs :=
  let sig_v := match j with O => sigma_v_top (soil_row r)
                          | _ => sigma_v_bottom (soil_row r) end in
  let elevation_j := match j with O => x_top (soil_row r)
                                | _ => x_bottom (soil_row r) end in
  let depth_j := match j with O => Qabs (xg_top (soil_row r))
                            | _ => Qabs (xg_bottom (soil_row r)) end in
  {| arg_sig := sig_v;
     arg_X := depth_j;
     arg_layer_height := Layer.top layer - Layer.bottom layer;
     arg_depth_from_top_of_layer := Layer.top layer - elevation_j;
     arg_D := pile_width;
     arg_L := SoilProfile.top_elevation sp - pile_bottom;
     arg_below_water_table := Qle_bool elevation_j (SoilProfile.water_line sp);
     arg_output_length := spring_dim |}.

(** The keyword arguments of the Hb and Mb spring functions. *)
Definition toe_args (sp : SoilProfile.t) (layer : Layer.t) (sig_v_tip : Q)
    (pile_width pile_bottom : Q) : SpringArgs :=
  {| arg_sig := sig_v_tip;
     arg_X := SoilProfile.top_elevation sp - SoilProfile.bottom_elevation sp;
     arg_layer_height := Layer.top layer - Layer.bottom layer;
     arg_depth_from_top_of_layer := Layer.top layer - pile_bottom;
     arg_D := pile_width;
     arg_L := SoilProfile.top_elevation sp - pile_bottom;
     arg_below_water_table := Qle_bool pile_bottom (SoilProfile.water_line sp);
     arg_output_length := spring_dim |}.

(** [for i in elements_for_layer: ...], the body at element [i]. *)
Definition element_springs (m : Model.t) (sp : SoilProfile.t)
    (layer : Layer.t) (lm : LateralModel) (rows : list MeshRow)
    (st : Springs) (i : nat) : result Springs :=
  let r := nth i rows default_row in
  let width := Diameter (elem_row r) in
  let st := set_pile_width width st in
  st ← (if spring_signature lm 0 && Model.distributed_lateral m
        then foldM (fun st j =>
                      pb ← pile_bottom_elevation (Model.pile m);
                      let args := end_args sp layer r width pb j in
                      Ok (set_py (unpack_into [i; j] (py_spring_fct lm args)
                                              (py st))
                                 (PyCall args) st))
                   [0%nat; 1%nat] st
        else Ok st);
  if spring_signature lm 2 && Model.distributed_moment m
  then foldM (fun st j =>
                pb ← pile_bottom_elevation (Model.pile m);
                let args := end_args sp layer r width pb j in
                Ok (set_mt (unpack_into [i; j] (mt_spring_fct lm args) (mt st))
                           (MtCall args) st))
             [0%nat; 1%nat] st
  else Ok st.

(** The read of the local variable [pile_width]. *)
Definition read_pile_width (st : Springs) : result Q :=
  match pile_width st with
  | Some w => Ok w
  | None => Raise (UnboundLocalError "pile_width")
  end.

(** The block under [# check if pile tip is within layer]. *)
Definition toe_springs (m : Model.t) (sp : SoilProfile.t) (layer : Layer.t)
    (lm : LateralModel) (rows : list MeshRow) (st : Springs)
  : result Springs :=
  pb ← pile_bottom_elevation (Model.pile m);
  if Qle_bool pb (Layer.top layer) && Qle_bool (Layer.bottom layer) pb
  then
    sig_v_tip ← match last rows with
                | Some r => Ok (sigma_v_bottom (soil_row r))
                | None => Raise (IndexError
                            "single positional indexer is out-of-bounds")
                end;
    st ← (if spring_signature lm 1 && Model.base_shear m
          then width ← read_pile_width st;
               let args := toe_args sp layer sig_v_tip width pb in
               Ok (set_Hb (unpack_into [0%nat; 0%nat] (Hb_spring_fct lm args)
                                       (Hb st))
                          (HbCall args) st)
          else Ok st);
    if spring_signature lm 3 && Model.base_moment m
    then width ← read_pile_width st;
         let args := toe_args sp layer sig_v_tip width pb in
         Ok (set_Mb (unpack_into [0%nat; 0%nat] (Mb_spring_fct lm args) (Mb st))
                    (MbCall args) st)
    else Ok st
  else Ok st.

(** One turn of [for layer in self.soil.layers] in [create_springs]. *)
Definition layer_springs (m : Model.t) (sp : SoilProfile.t)
    (rows : list MeshRow) (st : Springs) (layer : Layer.t) : result Springs :=
  match Layer.lateral_model layer with
  | None => Ok st
  | Some lm =>
      st ← foldM (element_springs m sp layer lm rows)
                 (elements_for_layer rows layer) st;
      toe_springs m sp layer lm rows st
  end.

(** The arrays allocated at the start of [create_springs]. *)
Definition allocate (element_number : nat) : Springs :=
  {| py := np_zeros [element_number; 2; 2; spring_dim]%nat;
     mt := np_zeros [element_number; 2; 2; spring_dim; spring_dim]%nat;
     Hb := np_zeros [1; 1; 2; spring_dim]%nat;
     Mb := np_zeros [1; 1; 2; spring_dim]%nat;
     tz := np_zeros [element_number; 2; 2; 15]%nat;
     pile_width := None; calls := []; printed := [] |}.

Definition pisa_hint : string :=
  "if using PISA type springs, this can be due to parameters behind out of the parameter space. Please check that: 2 < L/D < 6.".

(** The name [check_springs] at the end of [create_springs]: the module
    neither defines nor imports it, so looking it up raises [NameError]. *)
Definition check_springs : result (ndarray -> bool) :=
  Raise (NameError "name 'check_springs' is not defined").

Definition diagnose (what : string) (a : ndarray) (st : Springs)
  : result Springs :=
  check_springs ≫= fun check : ndarray -> bool =>
  if check a
  then Ok (print pisa_hint (print (what ++ " negative or NaN values.") st))
  else Ok st.

(** The four checks that close [create_springs]. *)
Definition check_all (st : Springs) : result Springs :=
  st ← diagnose "py springs have" (py st) st;
  st ← diagnose "mt springs have" (mt st) st;
  st ← diagnose "Hb spring has" (Hb st) st;
  diagnose "Mb spring has" (Mb st) st.

(** The allocation and the loop [for layer in self.soil.layers] of
    [create_springs], for a model whose attributes [soil_properties] and
    [element_properties] hold the mesh [rows] and whose [element_number] is
    the number of rows. *)
Definition spring_loop (m : Model.t) (rows : list MeshRow) : result Springs :=
  let st := allocate (length rows) in
  sp ← soil_attr (Model.soil m);
  foldM (layer_springs m sp rows) (SoilProfile.layers sp) st.

(** [create_springs] of [Model.model_post_init]. *)
Definition create_springs (m : Model.t) (rows : list MeshRow)
  : result Springs :=
  st ← spring_loop m rows;
  check_all st.

(** The fields that the class [Model] declares. *)
Definition Model_fields : list string :=
  [ "name"; "pile"; "soil"; "element_type"; "x2mesh"; "coarseness";
    "distributed_lateral"; "distributed_moment"; "base_shear"; "base_moment";
    "distributed_axial"; "base_axial" ].

Definition dq : string := String (Ascii.ascii_of_nat 34) EmptyString.

(** [self.<name> = value] on a model: the class is configured with
    [extra='forbid'], so pydantic sets a name that starts with an underscore
    on the object and refuses any other name that is not a declared field. *)
Definition Model_setattr (name : string) : result unit :=
  if String.prefix "_" name then Ok tt
  else if existsb (String.eqb name) Model_fields then Ok tt
  else Raise (ValueError (dq ++ "Model" ++ dq ++ " object has no field "
                          ++ dq ++ name ++ dq)).

(** The attributes of a model that [model_post_init] assigns and the
    spring tables read. *)
Record BuiltModel : Type := {
  config : Model.t;
  properties : list MeshRow;
  element_number : nat;
  _py_springs : ndarray;
  _mt_springs : ndarray;
  _Hb_spring : ndarray;
  _Mb_spring : ndarray;
  _tz_springs : ndarray;
  evaluated : list SpringCall
}.

(** [Model.soil_and_pile_bottom_elevation_match]. *)
Definition soil_and_pile_bottom_elevation_match (m : Model.t) : result unit :=
  match Model.soil m with
  | None => Ok tt
  | Some sp =>
      pb ← pile_bottom_elevation (Model.pile m);
      if Qlt_bool pb (SoilProfile.bottom_elevation sp)
      then Raise (ValueError "The pile ends deeper than the soil profile.")
      else Ok tt
  end.

Section ModelBuild.

(** The mapper is taken as given. *)
Variable get_all_properties : Mapper.

(** [Model.model_post_init]: the tables of the mapper are assigned to four
    attributes of the model, then [element_number], the five spring arrays
    and the three tables of the boundary conditions. *)
Definition model_post_init (m : Model.t) : result BuiltModel :=
  let rows := get_all_properties (Model.pile m) (Model.soil m)
                                 (Some (Model.x2mesh m)) (Model.coarseness m) in
  _ ← Model_setattr "soil_properties";
  _ ← Model_setattr "element_properties";
  _ ← Model_setattr "nodes_coordinates";
  _ ← Model_setattr "element_coordinates";
  _ ← Model_setattr "element_number";
  st ← create_springs m rows;
  _ ← Model_setattr "_py_springs";
  _ ← Model_setattr "_mt_springs";
  _ ← Model_setattr "_Hb_spring";
  _ ← Model_setattr "_Mb_spring";
  _ ← Model_setattr "_tz_springs";
  _ ← Model_setattr "global_forces";
  _ ← Model_setattr "global_disp";
  _ ← Model_setattr "global_restrained";
  Ok {| config := m; properties := rows; element_number := length rows;
        _py_springs := py st; _mt_springs := mt st;
        _Hb_spring := Hb st; _Mb_spring := Mb st; _tz_springs := tz st;
        evaluated := calls st |}.

(** [Model(...)]: pydantic runs [model_post_init] when the fields are set
    and the validator of mode "after" on the resulting object. *)
Definition Model_init (m : Model.t) : result BuiltModel :=
  b ← model_post_init m;
  _ ← soil_and_pile_bottom_elevation_match m;
  Ok b.

End ModelBuild.

(** The table returned by [get_Hb_spring] and [get_Mb_spring]. *)
Record SpringTable : Type := {
  Node_no : list nat;
  Elevation_m : list Q;
  type_ : list string;
  columns : list string;
  VAL : list (list Q)
}.

(** [a.shape[-1]]. *)
Definition shape_last (a : ndarray) : result nat :=
  match last (shape a) with
  | Some n => Ok n
  | None => Raise (IndexError "tuple index out of range")
  end.

(** [Model.get_Hb_spring]. *)
Definition get_Hb_spring (b : BuiltModel) : result (option SpringTable) :=
  match Model.soil (config b) with
  | None => Ok None
  | Some _ =>
      spring_dim ← shape_last (_Hb_spring b);
      let column_values_spring :=
        map (fun i => "VAL " ++ show_nat i) (seq 0 spring_dim) in
      pb ← pile_bottom_elevation (Model.pile (config b));
      Ok (Some {| Node_no := [element_number b + 1; element_number b + 1]%nat;
                  Elevation_m := [pb; pb];
                  type_ := ["Hb"; "y"];
                  columns := column_values_spring;
                  VAL := reshape2 2 spring_dim (_Hb_spring b) |})
  end.

(** [Model.get_Mb_spring]. *)
Definition get_Mb_spring (b : BuiltModel) : result (option SpringTable) :=
  match Model.soil (config b) with
  | None => Ok None
  | Some _ =>
      spring_dim ← shape_last (_Hb_spring b);
      let column_values_spring :=
        map (fun i => "VAL " ++ show_nat i) (seq 0 spring_dim) in
      pb ← pile_bottom_elevation (Model.pile (config b));
      Ok (Some {| Node_no := [element_number b + 1; element_number b + 1]%nat;
                  Elevation_m := [pb; pb];
                  type_ := ["Mb"; "t"];
                  columns := column_values_spring;
                  VAL := reshape2 2 spring_dim (_Hb_spring b) |})
  end.

(** The numeric part of a table that was returned. *)
Definition spring_values (r : result (option SpringTable))
  : option (list (list Q)) :=
  match r with
  | Ok (Some t) => Some (VAL t)
  | _ => None
  end.

Definition with_Mb_spring (a : ndarray) (b : BuiltModel) : BuiltModel :=
  {| config := config b; properties := properties b;
     element_number := element_number b;
     _py_springs := _py_springs b; _mt_springs := _mt_springs b;
     _Hb_spring := _Hb_spring b; _Mb_spring := a;
     _tz_springs := _tz_springs b; evaluated := evaluated b |}.

Definition with_Hb_spring (a : ndarray) (b : BuiltModel) : BuiltModel :=
  {| config := config b; properties := properties b;
     element_number := element_number b;
     _py_springs := _py_springs b; _mt_springs := _mt_springs b;
     _Hb_spring := a; _Mb_spring := _Mb_spring b;
     _tz_springs := _tz_springs b; evaluated := evaluated b |}.

(* ===================================================================== *)
(** * Properties of the pile                                              *)
(* ===================================================================== *)

(** Consecutive sections connect exactly. *)
Fixpoint connected (previous : CircularPileSection)
    (rest : list CircularPileSection) : Prop :=
  match rest with
  | [] => True
  | segment :: rest' =>
      top_elevation segment == bottom_elevation previous
      /\ connected segment rest'
  end.

Definition contiguous (sections : list CircularPileSection) : Prop :=
  match sections with
  | [] => True
  | first :: rest => connected first rest
  end.

(** Consecutive sections connect within a tolerance. *)
Fixpoint connected_within (tol : Q) (previous : CircularPileSection)
    (rest : list CircularPileSection) : Prop :=
  match rest with
  | [] => True
  | segment :: rest' =>
      Qabs (top_elevation segment - bottom_elevation previous) <= tol
      /\ connected_within tol segment rest'
  end.

Definition contiguous_within (tol : Q) (sections : list CircularPileSection)
  : Prop :=
  match sections with
  | [] => True
  | first :: rest => connected_within tol first rest
  end.

Definition by_descending_top (sections : list CircularPileSection)
  : list CircularPileSection :=
  sorted_by (fun x => - get_top_elevation x) sections.

(** Example data: a material and two piles of two sections. *)
Definition steel_78 : PileMaterial :=
  {| unitweight := 78; young := 210000000; shear_modulus := 80000000 |}.

Definition section_upper : CircularPileSection :=
  {| top_elevation := 0; bottom_elevation := -10;
     diameter := 2; thickness := 1 # 10 |}.
Definition section_lower : CircularPileSection :=
  {| top_elevation := -10; bottom_elevation := -20;
     diameter := 2; thickness := 1 # 10 |}.
(** Its top is half a millimetre below the bottom of [section_upper]. *)
Definition section_lower_off : CircularPileSection :=
  {| top_elevation := -100005 # 10000; bottom_elevation := -20;
     diameter := 2; thickness := 1 # 10 |}.

(* ===================================================================== *)
(** * Properties of the soil profile                                      *)
(* ===================================================================== *)

(** Every layer starts where the layer above it ends, within [tol]. *)
Definition layers_within (tol : Q) (sp : SoilProfile.t) : Prop :=
  forall i : nat,
    (i + 1 < length (top_sorted sp))%nat ->
    Qabs (nth (i + 1) (top_sorted sp) 0 - nth i (bottom_sorted sp) 0) <= tol.

(** The topmost layer starts at the top of the profile, within [tol]. *)
Definition top_within (tol : Q) (sp : SoilProfile.t) : Prop :=
  exists top0 rest,
    top_sorted sp = top0 :: rest
    /\ Qabs (top0 - SoilProfile.top_elevation sp) <= tol.

(** What [math.isclose] accepts: the absolute tolerance, or the default
    relative tolerance on either value. *)
Definition close_to (a b abs_tol : Q) : Prop :=
  Qabs (b - a) <= abs_tol
  \/ Qabs (b - a) <= rel_tol_default * Qabs b
  \/ Qabs (b - a) <= rel_tol_default * Qabs a.

Definition layers_close (sp : SoilProfile.t) : Prop :=
  forall i : nat,
    (i + 1 < length (top_sorted sp))%nat ->
    close_to (nth (i + 1) (top_sorted sp) 0) (nth i (bottom_sorted sp) 0)
             abs_tol_layers.

(** Every elevation of the profile is at most [bound] in magnitude. *)
Definition elevations_below (bound : Q) (sp : SoilProfile.t) : Prop :=
  Forall (fun l => Qabs (Layer.top l) <= bound
                   /\ Qabs (Layer.bottom l) <= bound)
         (SoilProfile.layers sp).

(** Example data: two layers whose elevations are two thousand kilometres
    above the datum; the second starts 1.5 mm above the bottom of the
    first. *)
Definition layer_plain (top bottom weight : Q) : Layer.t :=
  {| Layer.name := "layer"; Layer.top := top; Layer.bottom := bottom;
     Layer.weight := weight; Layer.lateral_model := None;
     Layer.axial_model := None |}.

Definition far_layers : list Layer.t :=
  [ layer_plain 2000000 1999990 18;
    layer_plain (19999900015 # 10000) 1999980 18 ].

Definition far_profile : SoilProfile.t :=
  {| SoilProfile.name := "far"; SoilProfile.top_elevation := 2000000;
     SoilProfile.water_line := 0; SoilProfile.layers := far_layers |}.

Definition two_layers : list Layer.t :=
  [ layer_plain (-20) (-40) 19; layer_plain 0 (-20) 18 ].

Definition two_layer_profile : SoilProfile.t :=
  {| SoilProfile.name := "BH01"; SoilProfile.top_elevation := 0;
     SoilProfile.water_line := 0; SoilProfile.layers := two_layers |}.

(** The topmost layer starts exactly at the top of the profile. *)
Definition top_matches (sp : SoilProfile.t) : Prop :=
  exists top0 rest,
    top_sorted sp = top0 :: rest /\ top0 == SoilProfile.top_elevation sp.

(* ===================================================================== *)
(** * Example data                                                        *)
(* ===================================================================== *)

(** Modelled from the spec: a mapper for a pile of one section in a soil of
    one submerged layer, as the contract of section 4.1 describes it: the
    elements are equal parts of the pile no longer than [coarseness], ordered
    from the top, and carry the section's geometry and the effective
    vertical stress of the layer at their two ends. *)
Definition example_mapper : Mapper :=
  fun pile soil x2mesh coarseness =>
    match pile_sections pile with
    | [s] =>
        let n := Z.to_nat (Qceiling (get_length s / coarseness)) in
        let h := get_length s / inject_Z (Z.of_nat n) in
        let ground := match soil with
                      | Some sp => SoilProfile.top_elevation sp
                      | None => 0
                      end in
        let gamma := match soil with
                     | Some sp => match SoilProfile.layers sp with
                                  | l :: _ => Layer.weight l - 10
                                  | [] => 0
                                  end
                     | None => 0
                     end in
        map (fun i =>
               let xt := top_elevation s - inject_Z (Z.of_nat i) * h in
               let xb := top_elevation s - inject_Z (Z.of_nat (i + 1)) * h in
               {| soil_row :=
                    {| x_top := xt; x_bottom := xb;
                       xg_top := xt - ground; xg_bottom := xb - ground;
                       sigma_v_top := gamma * (ground - xt);
                       sigma_v_bottom := gamma * (ground - xb) |};
                  elem_row :=
                    {| elem_x_top := xt; elem_x_bottom := xb;
                       Diameter := diameter s;
                       Wall_thickness := thickness s;
                       Area := get_area s |} |})
            (seq 0 n)
    | _ => []
    end.

(** A curve of [n] equal points and a table of [n] such curves. *)
Definition curve (v : Q) (n : nat) : ndarray := Axis (repeat (Num v) n).
Definition curves (v : Q) (n : nat) : ndarray := Axis (repeat (curve v n) n).

(** A lateral model that declares support for the four families. *)
Definition example_lateral : LateralModel :=
  {| spring_signature := fun _ => true;
     py_spring_fct := fun a => (curve 1 (arg_output_length a),
                                curve 2 (arg_output_length a));
     mt_spring_fct := fun a => (curves 3 (arg_output_length a),
                                curves 4 (arg_output_length a));
     Hb_spring_fct := fun a => (curve 5 (arg_output_length a),
                                curve 6 (arg_output_length a));
     Mb_spring_fct := fun a => (curve 7 (arg_output_length a),
                                curve 8 (arg_output_length a)) |}.

(** [40 * sig], as Python evaluates it for a number and for a tuple. *)
Definition forty_times (sig : pyvalue) : pyvalue :=
  match sig with
  | Number x => Number (number_mul (PyInt 40) x)
  | Tuple items => Tuple (tuple_repeat items 40)
  end.

(** An axial model whose tip resistance is [40 * sig] and whose multipliers
    are [1]. *)
Definition example_axial : AxialModel :=
  {| unit_shaft_friction := fun sig depth height => (1 # 2) * sig;
     unit_shaft_signature := fun So Si => {| sig_out := 1; sig_in := 1 |};
     unit_tip_resistance := fun sig depth height => Ok (forty_times sig);
     t_multiplier := 1;
     Q_multiplier := PyInt 1 |}.

(** A tubular pile of one metre in one metre of submerged sand. *)
Definition example_pile : Pile :=
  {| pile_name := "tube";
     pile_sections := [ {| top_elevation := 0; bottom_elevation := -1;
                           diameter := 2; thickness := 1 # 10 |} ];
     material := steel_78 |}.

Definition example_layer : Layer.t :=
  {| Layer.name := "sand"; Layer.top := 0; Layer.bottom := -1;
     Layer.weight := 18;
     Layer.lateral_model := Some example_lateral;
     Layer.axial_model := Some example_axial |}.

Definition example_soil : SoilProfile.t :=
  {| SoilProfile.name := "BH01"; SoilProfile.top_elevation := 0;
     SoilProfile.water_line := 0; SoilProfile.layers := [example_layer] |}.

Definition example_model (lateral moment shear base : bool) : Model.t :=
  {| Model.name := "example"; Model.pile := example_pile;
     Model.soil := Some example_soil; Model.element_type := Timoshenko;
     Model.x2mesh := []; Model.coarseness := 1 # 2;
     Model.distributed_lateral := lateral;
     Model.distributed_moment := moment;
     Model.base_shear := shear; Model.base_moment := base;
     Model.distributed_axial := false; Model.base_axial := false |}.

(** An object with the attributes that [get_Hb_spring] and [get_Mb_spring]
    read: the example model on its mesh of two elements, with the toe
    arrays as the example lateral model fills them. *)
Definition example_built : BuiltModel :=
  let m := example_model true true true true in
  {| config := m;
     properties := example_mapper (Model.pile m) (Model.soil m)
                     (Some (Model.x2mesh m)) (Model.coarseness m);
     element_number := 2;
     _py_springs := np_zeros [2; 2; 2; spring_dim]%nat;
     _mt_springs := np_zeros [2; 2; 2; spring_dim; spring_dim]%nat;
     _Hb_spring := unpack_into [0; 0]%nat (curve 5 spring_dim, curve 6 spring_dim)
                     (np_zeros [1; 1; 2; spring_dim]%nat);
     _Mb_spring := unpack_into [0; 0]%nat (curve 7 spring_dim, curve 8 spring_dim)
                     (np_zeros [1; 1; 2; spring_dim]%nat);
     _tz_springs := np_zeros [2; 2; 2; 15]%nat;
     evaluated := [] |}.

(** The example pile in a drained profile: the water line is five metres
    below the pile tip. *)
Definition dry_soil : SoilProfile.t :=
  {| SoilProfile.name := "dry"; SoilProfile.top_elevation := 0;
     SoilProfile.water_line := -6; SoilProfile.layers := [example_layer] |}.

(** The example pile with its tip in the upper of two layers: the upper has
    an axial model, the lower has none. *)
Definition upper_layer : Layer.t :=
  {| Layer.name := "upper"; Layer.top := 0; Layer.bottom := -2;
     Layer.weight := 18; Layer.lateral_model := None;
     Layer.axial_model := Some example_axial |}.
Definition lower_layer : Layer.t :=
  {| Layer.name := "lower"; Layer.top := -2; Layer.bottom := -4;
     Layer.weight := 18; Layer.lateral_model := None;
     Layer.axial_model := None |}.

Definition upper_first : SoilProfile.t :=
  {| SoilProfile.name := "BH02"; SoilProfile.top_elevation := 0;
     SoilProfile.water_line := 0;
     SoilProfile.layers := [upper_layer; lower_layer] |}.
Definition lower_first : SoilProfile.t :=
  {| SoilProfile.name := "BH02"; SoilProfile.top_elevation := 0;
     SoilProfile.water_line := 0;
     SoilProfile.layers := [lower_layer; upper_layer] |}.

(** A stand-in for [math.sqrt] where the "ICP-05" branch is not taken. *)
Definition unused_sqrt (x : Q) : Q := x.

(* ===================================================================== *)
(** * Properties of the spring assembly                                   *)
(* ===================================================================== *)

(** No evaluation of the family recognised by [is_call] is recorded. *)
Definition never_called (is_call : SpringCall -> bool)
    (cs : list SpringCall) : Prop :=
  forallb (fun c => negb (is_call c)) cs = true.

(** The array [get st] still is [a0] and its family was never evaluated. *)
Definition untouched (get : Springs -> ndarray) (is_call : SpringCall -> bool)
    (a0 : ndarray) (st : Springs) : Prop :=
  get st = a0 /\ never_called is_call (calls st).

(** Every entry of the array is zero. *)
Definition all_zero (a : ndarray) : Prop :=
  Forall (fun x => x = 0) (ravel a).

(* ===================================================================== *)
(** * Properties of the per-layer sums                                    *)
(* ===================================================================== *)

(** The inner volume of the elements of a layer whose unit weight gets the
    reduction by [uw_water]. *)
Definition reduced_volume (rows : list MeshRow) (water_line : Q)
    (layer : Layer.t) : Q :=
  Qsum (map (fun i => nth i (inside_volume rows) 0)
            (reduced_elements rows water_line layer)).

(** No element of the mesh lies within two layers of the list. *)
Fixpoint disjoint_layers (rows : list MeshRow) (ls : list Layer.t) : Prop :=
  match ls with
  | [] => True
  | l :: ls' =>
      (forall i l', In i (elements_for_layer rows l) -> In l' ls' ->
                    ~ In i (elements_for_layer rows l'))
      /\ disjoint_layers rows ls'
  end.

(** The example layer with twice its unit weight, and the drained profile
    made of it. *)
Definition heavy_layer : Layer.t := with_weight (2 * 18) example_layer.

Definition dry_heavy_soil : SoilProfile.t :=
  {| SoilProfile.name := "dry"; SoilProfile.top_elevation := 0;
     SoilProfile.water_line := -6; SoilProfile.layers := [heavy_layer] |}.

(** A turn of a loop over the layers that writes [value l i] at the
    elements of layer [l], or nothing when the layer has no value. *)
Definition layer_pass (rows : list MeshRow)
    (value : Layer.t -> option (nat -> Q)) (a : list Q) (l : Layer.t)
  : list Q :=
  match value l with
  | Some v => scatter v (elements_for_layer rows l) a
  | None => a
  end.

(** The values written by [shaft_resistance] for a layer. *)
Definition shaft_out_of (rows : list MeshRow) (l : Layer.t)
  : option (nat -> Q) :=
  match Layer.axial_model l with
  | Some am => Some (fun i => shaft_out_at l am (nth i rows default_row)
                                (nth i (surface_outside rows) 0)
                                (nth i (surface_inside rows) 0))
  | None => None
  end.

Definition shaft_in_of (rows : list MeshRow) (l : Layer.t)
  : option (nat -> Q) :=
  match Layer.axial_model l with
  | Some am => Some (fun i => shaft_in_at l am (nth i rows default_row)
                               (nth i (surface_outside rows) 0)
                               (nth i (surface_inside rows) 0))
  | None => None
  end.

(* ===================================================================== *)
(** * construct.py: construction of sections, derived pile properties     *)
(* ===================================================================== *)

(** [CircularPileSection(top_elevation, bottom_elevation, diameter,
    thickness=None)]: the field constraints [gt=0], then the validators
    [get_proper_thickness] and [check_elevations].  pydantic reports the
    failures as its [ValidationError], a [ValueError]; the numbers that the
    source formats into the message are left out. *)
Definition CircularPileSection_init (top bottom d : Q) (t : option Q)
  : result CircularPileSection :=
  if negb (Qlt_bool 0 d)
  then Raise (ValueError "diameter: Input should be greater than 0")
  else
    if match t with Some th => negb (Qlt_bool 0 th) | None => false end
    then Raise (ValueError "thickness: Input should be greater than 0")
    else
      let th := match t with Some th => th | None => d / 2 end in
      if Qle_bool top bottom
      then Raise (ValueError
             "Bottom elevation must be less than top elevation.")
      else Ok {| top_elevation := top; bottom_elevation := bottom;
                 diameter := d; thickness := th |}.

Definition get_second_moment_of_area (s : CircularPileSection) : Q :=
  (diameter s ^ 4 - (diameter s - 2 * thickness s) ^ 4) * m_pi / 64.
Definition get_volume (s : CircularPileSection) : Q :=
  get_area s * get_length s.

(** [Pile.top_elevation] and [Pile.length]. *)
Definition pile_top_elevation (p : Pile) : result Q :=
  match pile_sections p with
  | s :: _ => Ok (get_top_elevation s)
  | [] => Raise (IndexError "list index out of range")
  end.

Definition pile_length (p : Pile) : result Q :=
  top ← pile_top_elevation p;
  bottom ← pile_bottom_elevation p;
  Ok (top - bottom).

(** The table of [Pile.data] for circular sections, column by column. *)
Record PileData : Type := {
  data_Elevation : list Q;
  data_Diameter : list Q;
  data_Wall_thickness : list Q;
  data_Area : list Q;
  data_I : list Q
}.

(** [[f(x) for x in sections for x in [x, x]]]. *)
Definition twice {A : Type} (f : CircularPileSection -> A)
    (sections : list CircularPileSection) : list A :=
  flat_map (fun x => [f x; f x]) sections.

(** [Pile.data]. *)
Definition pile_data (p : Pile) : PileData :=
  let elevation :=
    flat_map (fun segment => [get_top_elevation segment;
                              get_bottom_elevation segment])
             (pile_sections p) in
  {| data_Elevation := elevation;
     data_Diameter := twice get_width (pile_sections p);
     data_Wall_thickness := twice thickness (pile_sections p);
     data_Area := twice get_area (pile_sections p);
     data_I := twice get_second_moment_of_area (pile_sections p) |}.

Section PileCreate.
Variables PileMaterial_steel PileMaterial_concrete : PileMaterial.

(** [Pile.create_tubular]. *)
Definition create_tubular (name : string) (top bottom d wt : Q)
    (m : MaterialArg) : result Pile :=
  s ← CircularPileSection_init top bottom d (Some wt);
  Pile_init PileMaterial_steel PileMaterial_concrete name [s] m.

End PileCreate.

(** The elevation column of [Pile.data] for a list of sections. *)
Definition breakpoints (sections : list CircularPileSection) : list Q :=
  flat_map (fun segment => [get_top_elevation segment;
                            get_bottom_elevation segment]) sections.

(* ===================================================================== *)
(** * Properties of the axial capacity engine                             *)
(* ===================================================================== *)

(** Steel volume of an element, and whether [effective_pile_weight] takes
    it as submerged. *)
Definition element_volume (r : MeshRow) : Q :=
  elem_L r * Area (elem_row r).
Definition submerged (water_line : Q) (r : MeshRow) : bool :=
  Qlt_bool (elem_x_bottom (elem_row r)) water_line.

(** The pile tip at elevation [pb] lies within the extent of the layer. *)
Definition holds_tip (pb : Q) (l : Layer.t) : bool :=
  Qle_bool pb (Layer.top l) && Qle_bool (Layer.bottom l) pb.

(** The layer has an axial model and does not hold the tip: its turn of the
    loop of [unit_end_bearing] assigns nothing. *)
Definition passes_by (pb : Q) (l : Layer.t) : Prop :=
  Layer.axial_model l <> None /\ holds_tip pb l = false.

(** One Newton step from 1.4 towards the square root: a stand-in for
    [math.sqrt] that is below 1.4 exactly where the square root is. *)
Definition newton_sqrt (x : Q) : Q :=
  (1 # 2) * ((14 # 10) + x * (10 # 14)).

(** The value that [unit_end_bearing] assigns for a layer with the axial
    model [am], with the stress of the last row [tip_row] of the soil
    table. *)
Definition tip_value (sp : SoilProfile.t) (tip_row : MeshRow) (l : Layer.t)
    (am : AxialModel) : result pyvalue :=
  tip ← unit_tip_resistance am
          (Tuple [PyFloat (sigma_v_bottom (soil_row tip_row))])
          (SoilProfile.top_elevation sp - SoilProfile.bottom_elevation sp)
          (Layer.top l - Layer.bottom l);
  py_mul tip (Q_multiplier am).

(** The turn of the layer in the loop of [unit_end_bearing] raises nothing:
    if the layer has an axial model and holds the tip, the value it assigns
    is returned. *)
Definition turn_returns (sp : SoilProfile.t) (tip_row : MeshRow) (pb : Q)
    (l : Layer.t) : Prop :=
  forall am, Layer.axial_model l = Some am -> holds_tip pb l = true ->
             exists v, tip_value sp tip_row l am = Ok v.

(* ===================================================================== *)
(** * construct.py: derived properties of the model                       *)
(* ===================================================================== *)

(** [min(a, b)] of Python: the first argument wins a tie. *)
Definition py_min (a b : Q) : Q := if Qlt_bool b a then b else a.

(** [Model.embedment]. *)
Definition Model_embedment (m : Model.t) : result (option Q) :=
  match Model.soil m with
  | None => Ok None
  | Some sp =>
      pb ← pile_bottom_elevation (Model.pile m);
      Ok (Some (SoilProfile.top_elevation sp - pb))
  end.

(** [Model.bottom]. *)
Definition Model_bottom (m : Model.t) : result Q :=
  match Model.soil m with
  | None => pile_bottom_elevation (Model.pile m)
  | Some sp =>
      pb ← pile_bottom_elevation (Model.pile m);
      Ok (py_min pb (SoilProfile.bottom_elevation sp))
  end.

(** The lateral model of the layer, if any, does not declare the family
    with index [k] in [spring_signature]. *)
Definition undeclared (k : nat) (l : Layer.t) : Prop :=
  forall lm, Layer.lateral_model l = Some lm -> spring_signature lm k = false.

(** The same, or the layer does not hold the pile tip at [pb]. *)
Definition undeclared_at_tip (k : nat) (pb : Q) (l : Layer.t) : Prop :=
  forall lm, Layer.lateral_model l = Some lm ->
             spring_signature lm k = false \/ holds_tip pb l = false.

(** The arguments of the p-y evaluations recorded, in the order of the
    calls. *)
Definition py_calls (cs : list SpringCall) : list SpringArgs :=
  flat_map (fun c => match c with PyCall args => [args] | _ => [] end) cs.

(** The layer has a lateral model that declares p-y springs. *)
Definition declares_py (l : Layer.t) : bool :=
  match Layer.lateral_model l with
  | Some lm => spring_signature lm 0
  | None => false
  end.

(** A lateral model that declares p-y springs only, and the example model
    with it, every toggle on. *)
Definition py_only_lateral : LateralModel :=
  {| spring_signature := fun k => Nat.eqb k 0;
     py_spring_fct := py_spring_fct example_lateral;
     mt_spring_fct := mt_spring_fct example_lateral;
     Hb_spring_fct := Hb_spring_fct example_lateral;
     Mb_spring_fct := Mb_spring_fct example_lateral |}.

Definition py_only_layer : Layer.t :=
  {| Layer.name := "sand"; Layer.top := 0; Layer.bottom := -1;
     Layer.weight := 18;
     Layer.lateral_model := Some py_only_lateral;
     Layer.axial_model := None |}.

Definition py_only_soil : SoilProfile.t :=
  {| SoilProfile.name := "BH03"; SoilProfile.top_elevation := 0;
     SoilProfile.water_line := 0; SoilProfile.layers := [py_only_layer] |}.

Definition py_only_model : Model.t :=
  {| Model.name := "p-y only"; Model.pile := example_pile;
     Model.soil := Some py_only_soil; Model.element_type := Timoshenko;
     Model.x2mesh := []; Model.coarseness := 1 # 2;
     Model.distributed_lateral := true; Model.distributed_moment := true;
     Model.base_shear := true; Model.base_moment := true;
     Model.distributed_axial := false; Model.base_axial := false |}.

(** The p-y evaluations of the turn of one layer, for a pile that ends at
    [pb]: for every element within the layer, one at its top end and then
    one at its bottom end. *)
Definition py_calls_of (m : Model.t) (sp : SoilProfile.t)
    (rows : list MeshRow) (pb : Q) (l : Layer.t) : list SpringArgs :=
  if declares_py l && Model.distributed_lateral m
  then flat_map (fun i =>
                   let r := nth i rows default_row in
                   let width := Diameter (elem_row r) in
                   [end_args sp l r width pb 0; end_args sp l r width pb 1])
                (elements_for_layer rows l)
  else [].

(* ===================================================================== *)
(** * construct.py: loads, displacements and supports at the nodes        *)
(* ===================================================================== *)

(** A row of [nodes_coordinates] and of the three tables that
    [model_post_init] copies from it. *)
Record NodeRow : Type := { node_x : Q; node_y : Q }.
Record ForceRow : Type := {
  force_node : NodeRow; Px : Q; Py : Q; Mz : Q
}.
Record DispRow : Type := {
  disp_node : NodeRow; Tx : Q; Ty : Q; Rz : Q
}.
Record RestrainedRow : Type := {
  restrained_node : NodeRow; fix_Tx : bool; fix_Ty : bool; fix_Rz : bool
}.

(** The part of a model that the setters read and write, with the lines
    printed so far. *)
Record Boundary : Type := {
  nodes_coordinates : list NodeRow;
  global_forces : list ForceRow;
  global_disp : list DispRow;
  global_restrained : list RestrainedRow;
  stdout : list string
}.

(** The three tables as [model_post_init] initialises them. *)
Definition Boundary_init (nodes : list NodeRow) : Boundary :=
  {| nodes_coordinates := nodes;
     global_forces :=
       map (fun n => {| force_node := n; Px := 0; Py := 0; Mz := 0 |}) nodes;
     global_disp :=
       map (fun n => {| disp_node := n; Tx := 0; Ty := 0; Rz := 0 |}) nodes;
     global_restrained :=
       map (fun n => {| restrained_node := n; fix_Tx := false;
                        fix_Ty := false; fix_Rz := false |}) nodes;
     stdout := [] |}.

(** [np.isclose(a, b, atol=atol)] with the default [rtol=1e-05]. *)
Definition np_isclose (a b atol : Q) : bool :=
  Qle_bool (Qabs (a - b)) (atol + (1 # 100000) * Qabs b).

(** [np.where(check == True)[0]] for
    [check = np.isclose(nodes_elevations, elevation, atol=0.001)]. *)
Definition nodes_at (nodes : list NodeRow) (elevation : Q) : list nat :=
  index_where (fun n => np_isclose (node_x n) elevation (1 # 1000)) nodes.

(** [int(indices)] for an index array. *)
Definition int_of_indices (indices : list nat) : result nat :=
  match indices with
  | [k] => Ok k
  | _ => Raise (TypeError
           "only length-1 arrays can be converted to Python scalars")
  end.

(** [x.iloc[0]] and [x.iloc[-1]] of the node elevations. *)
Definition first_x (nodes : list NodeRow) : result Q :=
  match nodes with
  | n :: _ => Ok (node_x n)
  | [] => Raise (IndexError "single positional indexer is out-of-bounds")
  end.
Definition last_x (nodes : list NodeRow) : result Q :=
  match last nodes with
  | Some n => Ok (node_x n)
  | None => Raise (IndexError "single positional indexer is out-of-bounds")
  end.

Definition with_stdout (line : string) (b : Boundary) : Boundary :=
  {| nodes_coordinates := nodes_coordinates b;
     global_forces := global_forces b; global_disp := global_disp b;
     global_restrained := global_restrained b;
     stdout := stdout b ++ [line] |}.

(** The [else] branch shared by the three setters: which of the two
    messages is printed when no node is at the elevation. *)
Definition not_applied (what where_ : string) (elevation : Q) (b : Boundary)
  : Boundary * result unit :=
  match first_x (nodes_coordinates b) with
  | Raise e => (b, Raise e)
  | Ok x0 =>
      if Qlt_bool x0 elevation
      then (with_stdout (what ++ " not applied! The chosen elevation is outside the mesh. The "
                         ++ where_ ++ " must be applied on the structure.") b,
            Ok tt)
      else
        match last_x (nodes_coordinates b) with
        | Raise e => (b, Raise e)
        | Ok xn =>
            if Qlt_bool elevation xn
            then (with_stdout (what ++ " not applied! The chosen elevation is outside the mesh. The "
                               ++ where_ ++ " must be applied on the structure.") b,
                  Ok tt)
            else (with_stdout (what ++ " not applied! The chosen elevation is not meshed as a node. Please include elevation in `x2mesh` variable when creating the Model.") b,
                  Ok tt)
        end
  end.

(** The line feed of the message below. *)
Definition nl : string := String (Ascii.ascii_of_nat 10) EmptyString.

(** [except Exception: print(...); raise]. *)
Definition user_input_error (r : Boundary * result unit)
  : Boundary * result unit :=
  match snd r with
  | Ok _ => r
  | Raise e =>
      (with_stdout (nl ++ "!User Input Error! Please create Model first with the Model.create()." ++ nl)
                   (fst r),
       Raise e)
  end.

Definition set_or_keep (new : option Q) (old : Q) : Q :=
  match new with Some v => v | None => old end.

(** [Model.set_pointload].  [node_idx] is the position of a node, and the
    three tables have one row per node ([model_post_init] copies them from
    [nodes_coordinates]), so [.loc[node_idx, column] = value] writes into
    an existing row. *)
Definition set_pointload (elevation : Q) (Py_ Px_ Mz_ : option Q)
    (b : Boundary) : Boundary * result unit :=
  let indices := nodes_at (nodes_coordinates b) elevation in
  user_input_error
    match indices with
    | _ :: _ =>
        match int_of_indices indices with
        | Raise e => (b, Raise e)
        | Ok node_idx =>
            ({| nodes_coordinates := nodes_coordinates b;
                global_forces :=
                  alter (fun r => {| force_node := force_node r;
                                     Px := set_or_keep Px_ (Px r);
                                     Py := set_or_keep Py_ (Py r);
                                     Mz := set_or_keep Mz_ (Mz r) |})
                        node_idx (global_forces b);
                global_disp := global_disp b;
                global_restrained := global_restrained b;
                stdout := stdout b |},
             Ok tt)
        end
    | [] => not_applied "Load" "load" elevation b
    end.

Definition fix_or_keep (new : option Q) (old : bool) : bool :=
  match new with Some v => Qlt_bool 0 v | None => old end.

(** [Model.set_pointdisplacement]: a displacement that is given is stored,
    and the degree of freedom is marked restrained when the value is
    [> 0.0]. *)
Definition set_pointdisplacement (elevation : Q) (Ty_ Tx_ Rz_ : option Q)
    (b : Boundary) : Boundary * result unit :=
  let indices := nodes_at (nodes_coordinates b) elevation in
  user_input_error
    match indices with
    | _ :: _ =>
        match int_of_indices indices with
        | Raise e => (b, Raise e)
        | Ok node_idx =>
            ({| nodes_coordinates := nodes_coordinates b;
                global_forces := global_forces b;
                global_disp :=
                  alter (fun r => {| disp_node := disp_node r;
                                     Tx := set_or_keep Tx_ (Tx r);
                                     Ty := set_or_keep Ty_ (Ty r);
                                     Rz := set_or_keep Rz_ (Rz r) |})
                        node_idx (global_disp b);
                global_restrained :=
                  alter (fun r => {| restrained_node := restrained_node r;
                                     fix_Tx := fix_or_keep Tx_ (fix_Tx r);
                                     fix_Ty := fix_or_keep Ty_ (fix_Ty r);
                                     fix_Rz := fix_or_keep Rz_ (fix_Rz r) |})
                        node_idx (global_restrained b);
                stdout := stdout b |},
             Ok tt)
        end
    | [] => not_applied "Support" "support" elevation b
    end.

(** [Model.set_support]. *)
Definition set_support (elevation : Q) (Ty_ Tx_ Rz_ : bool) (b : Boundary)
  : Boundary * result unit :=
  let indices := nodes_at (nodes_coordinates b) elevation in
  user_input_error
    match indices with
    | _ :: _ =>
        match int_of_indices indices with
        | Raise e => (b, Raise e)
        | Ok node_idx =>
            ({| nodes_coordinates := nodes_coordinates b;
                global_forces := global_forces b;
                global_disp := global_disp b;
                global_restrained :=
                  alter (fun r => {| restrained_node := restrained_node r;
                                     fix_Tx := Tx_; fix_Ty := Ty_;
                                     fix_Rz := Rz_ |})
                        node_idx (global_restrained b);
                stdout := stdout b |},
             Ok tt)
        end
    | [] => not_applied "Support" "support" elevation b
    end.

(** The tables have one row per node, as [model_post_init] builds them. *)
Definition aligned (b : Boundary) : Prop :=
  length (global_forces b) = length (nodes_coordinates b)
  /\ length (global_disp b) = length (nodes_coordinates b)
  /\ length (global_restrained b) = length (nodes_coordinates b).

(** Example nodes: a mesh of two elements of half a metre. *)
Definition example_nodes : list NodeRow :=
  [ {| node_x := 0; node_y := 0 |};
    {| node_x := -1 # 2; node_y := 0 |};
    {| node_x := -1; node_y := 0 |} ].

(* ===================================================================== *)
(** * compute.py: the elevations of the internal forces                   *)
(* ===================================================================== *)

(** [repeat_inner], the helper of [lateral_loading], on the column
    [nodes_coordinates["x [m]"].values]: [arr[0]], every value of
    [arr[1:-1]] twice, [arr[-1]].  [arr[0]] of an empty array raises
    [IndexError]. *)
Definition repeat_inner (arr : list Q) : result (list Q) :=
  match arr, last arr with
  | arr_0 :: rest, Some arr_last =>
      let arr_inner := removelast rest in
      Ok ([arr_0] ++ flat_map (fun x => [x; x]) arr_inner ++ [arr_last])%list
  | _, _ =>
      Raise (IndexError "index 0 is out of bounds for axis 0 with size 0")
  end.

(* ===================================================================== *)
(** * Theorems                                                            *)
(* ===================================================================== *)

Section SortedFacts.
Context {A : Type} (key : A -> Q).

Lemma insert_by_perm (x : A) (l : list A) :
  Permutation (x :: l) (insert_by key x l).
Proof.
  induction l as [|y l IH]; simpl; [reflexivity|].
  destruct (Qle_bool (key x) (key y)); [reflexivity|].
  rewrite perm_swap. now apply perm_skip.
Qed.

Lemma sorted_by_perm (l : list A) : Permutation l (sorted_by key l).
Proof.
  induction l as [|x l IH]; simpl; [constructor|].
  rewrite <- insert_by_perm. now apply perm_skip.
Qed.

Lemma insert_by_sorted (x : A) (l : list A) :
  StronglySorted (fun a b => key a <= key b) l ->
  StronglySorted (fun a b => key a <= key b) (insert_by key x l).
Proof.
  induction 1 as [|y l Hs IH Hall]; simpl.
  - repeat constructor.
  - destruct (Qle_bool (key x) (key y)) eqn:E.
    + apply Qle_bool_iff in E. constructor; [now constructor|].
      constructor; [exact E|].
      eapply Forall_impl; [exact Hall|]. intros z Hz. simpl in Hz.
      now apply Qle_trans with (key y).
    + assert (Hyx : key y <= key x).
      { destruct (Qlt_le_dec (key y) (key x)) as [Hlt|Hle].
        - now apply Qlt_le_weak.
        - apply Qle_bool_iff in Hle. congruence. }
      constructor; [exact IH|].
      eapply Permutation_Forall; [apply insert_by_perm|].
      now constructor.
Qed.

Lemma sorted_by_sorted (l : list A) :
  StronglySorted (fun a b => key a <= key b) (sorted_by key l).
Proof.
  induction l as [|x l IH]; simpl; [constructor|].
  now apply insert_by_sorted.
Qed.

End SortedFacts.

Lemma sections_connect_ok (rest : list CircularPileSection) :
  forall i previous,
    connected previous rest -> sections_connect i previous rest = Ok tt.
Proof.
  induction rest as [|segment rest IH]; intros i previous H; simpl; [reflexivity|].
  destruct H as [Heq Hrest].
  apply Qeq_bool_iff in Heq. rewrite Heq. simpl. now apply IH.
Qed.

Lemma sections_connect_raise (rest : list CircularPileSection) :
  forall i previous,
    ~ connected previous rest ->
    exists msg, sections_connect i previous rest = Raise (ValueError msg).
Proof.
  induction rest as [|segment rest IH]; intros i previous H; simpl.
  - exfalso. apply H. exact I.
  - destruct (Qeq_bool (top_elevation segment) (bottom_elevation previous)) eqn:E;
      simpl.
    + apply IH. intros Hc. apply H. simpl. split; [|exact Hc].
      now apply Qeq_bool_iff.
    + eexists. reflexivity.
Qed.

Lemma descending_tops (l : list CircularPileSection) :
  StronglySorted (fun a b => - get_top_elevation a <= - get_top_elevation b) l ->
  StronglySorted (fun a b => top_elevation b <= top_elevation a) l.
Proof.
  induction 1 as [|a l Hs IH Hall]; constructor; [exact IH|].
  eapply Forall_impl; [exact Hall|].
  intros b Hb. unfold get_top_elevation in Hb. simpl in Hb. lra.
Qed.

Lemma pile_sections_must_not_overlap_ok (sections : list CircularPileSection) :
  contiguous (by_descending_top sections) ->
  pile_sections_must_not_overlap sections = Ok (by_descending_top sections).
Proof.
  unfold pile_sections_must_not_overlap, by_descending_top.
  destruct (sorted_by _ sections) as [|first rest]; [reflexivity|].
  intros H. simpl in H.
  now rewrite (sections_connect_ok rest 1%nat first H).
Qed.

Lemma pile_sections_must_not_overlap_raise (sections : list CircularPileSection) :
  ~ contiguous (by_descending_top sections) ->
  exists msg, pile_sections_must_not_overlap sections = Raise (ValueError msg).
Proof.
  unfold pile_sections_must_not_overlap, by_descending_top.
  destruct (sorted_by _ sections) as [|first rest]; intros H.
  - exfalso. apply H. exact I.
  - destruct (sections_connect_raise rest 1%nat first H) as [msg Hmsg].
    exists msg. now rewrite Hmsg.
Qed.

(** C8 (amended): [Pile(...)] orders the sections by descending top
    elevation and then compares each section's top with the previous
    section's bottom for exact equality, with no tolerance.  Construction
    succeeds, keeping the reordered sections as they were given, when every
    consecutive pair is exactly equal, and raises [ValueError] otherwise. *)
Theorem Pile_init_connects_exactly
    (steel concrete : PileMaterial) (name : string)
    (sections : list CircularPileSection) (m : MaterialArg) :
  let sorted := by_descending_top sections in
  (contiguous sorted ->
     Pile_init steel concrete name sections m
     = Ok {| pile_name := name; pile_sections := sorted;
             material := check_materials steel concrete m |})
  /\ (~ contiguous sorted ->
        exists msg,
          Pile_init steel concrete name sections m = Raise (ValueError msg))
  /\ Permutation sections sorted
  /\ StronglySorted (fun a b => top_elevation b <= top_elevation a) sorted.
Proof.
  intros sorted. unfold Pile_init. repeat split.
  - intros H. now rewrite (pile_sections_must_not_overlap_ok sections H).
  - intros H.
    destruct (pile_sections_must_not_overlap_raise sections H) as [msg Hmsg].
    exists msg. now rewrite Hmsg.
  - apply sorted_by_perm.
  - apply descending_tops. apply sorted_by_sorted.
Qed.

Lemma Pile_init_connects_exactly_witness :
  Pile_init steel_78 steel_78 "P" [section_lower; section_upper] Steel
  = Ok {| pile_name := "P";
          pile_sections := [section_upper; section_lower];
          material := steel_78 |}.
Proof.
  destruct (Pile_init_connects_exactly steel_78 steel_78 "P"
              [section_lower; section_upper] Steel) as [H _].
  apply H. vm_compute. split; [reflexivity | exact I].
Defined.

(** C8 as stated fails: two sections half a millimetre apart are contiguous
    within the tolerance 0.001, yet construction raises. *)
Lemma Pile_init_rejects_within_tolerance :
  contiguous_within (1 # 1000)
    (by_descending_top [section_upper; section_lower_off])
  /\ Pile_init steel_78 steel_78 "P" [section_upper; section_lower_off] Steel
     = Raise (ValueError
         "Pile sections are not consistent. Pile section No. 1 and No. 0 do not connect.").
Proof.
  split.
  - vm_compute. split; [discriminate | exact I].
  - reflexivity.
Qed.

(** No positive tolerance is honoured by the validator. *)
Lemma Pile_init_no_tolerance (tol : Q) :
  0 < tol ->
  exists sections,
    contiguous_within tol (by_descending_top sections)
    /\ is_ok (Pile_init steel_78 steel_78 "P" sections Steel) = false.
Proof.
  intros Htol.
  set (lower := {| top_elevation := -10 - tol * (1 # 2); bottom_elevation := -20;
                   diameter := 2; thickness := 1 # 10 |}).
  exists [section_upper; lower].
  assert (Hsorted : by_descending_top [section_upper; lower]
                    = [section_upper; lower]).
  { unfold by_descending_top, sorted_by. simpl.
    replace (Qle_bool _ _) with true; [reflexivity|].
    symmetry. apply Qle_bool_iff. unfold get_top_elevation. simpl. lra. }
  split.
  - rewrite Hsorted. simpl. split; [|exact I].
    apply Qabs_Qle_condition. split; lra.
  - unfold Pile_init, pile_sections_must_not_overlap.
    fold (by_descending_top [section_upper; lower]). rewrite Hsorted.
    simpl.
    replace (Qeq_bool _ _) with false; [reflexivity|].
    symmetry. apply not_true_is_false. intros H.
    apply Qeq_bool_iff in H. lra.
Qed.

(* --------------------------------------------------------------------- *)
(** ** The soil profile                                                   *)
(* --------------------------------------------------------------------- *)

Lemma for_each_ok {A : Type} (body : A -> result unit) (xs : list A) :
  for_each xs body = Ok tt <-> Forall (fun x => body x = Ok tt) xs.
Proof.
  induction xs as [|x xs IH]; simpl.
  - split; [constructor | reflexivity].
  - destruct (body x) as [[]|e] eqn:E; simpl.
    + rewrite IH. split.
      * intros H. now constructor.
      * intros H. now inversion H.
    + split; [discriminate|]. intros H. inversion H. congruence.
Qed.

Lemma rel_tol_abs (x : Q) : Qabs (rel_tol_default * x) == rel_tol_default * Qabs x.
Proof. rewrite Qabs_Qmult. reflexivity. Qed.

Lemma isclose_spec (a b abs_tol : Q) :
  0 <= abs_tol ->
  isclose a b abs_tol = true <-> close_to a b abs_tol.
Proof.
  intros Htol. unfold isclose, close_to.
  destruct (Qeq_bool a b) eqn:E.
  - apply Qeq_bool_iff in E. split; [intros _|reflexivity].
    left. apply Qabs_Qle_condition. split; lra.
  - rewrite !orb_true_iff, !Qle_bool_iff, !rel_tol_abs. tauto.
Qed.

Lemma close_loop_ok (ts bs : list Q) :
  for_each (seq 0 (length ts - 1)) (fun i =>
    if negb (isclose (nth (i + 1) ts 0) (nth i bs 0) abs_tol_layers)
    then Raise (ValueError "Layers' elevations overlap.")
    else Ok tt) = Ok tt
  <-> (forall i : nat, (i + 1 < length ts)%nat ->
         close_to (nth (i + 1) ts 0) (nth i bs 0) abs_tol_layers).
Proof.
  rewrite for_each_ok, Forall_forall. split.
  - intros H i Hi.
    apply isclose_spec; [unfold abs_tol_layers; lra|].
    specialize (H i). rewrite list_elem_of_In, in_seq in H.
    destruct (isclose _ _ _); [reflexivity|].
    simpl in H. assert (Hr : (0 <= i < 0 + (length ts - 1))%nat) by lia.
    specialize (H Hr). discriminate.
  - intros H i Hi. rewrite list_elem_of_In, in_seq in Hi.
    assert (Hr : (i + 1 < length ts)%nat) by lia.
    apply H in Hr. apply isclose_spec in Hr; [|unfold abs_tol_layers; lra].
    now rewrite Hr.
Qed.

Lemma check_layers_elevations_iff (sp : SoilProfile.t) :
  check_layers_elevations sp = Ok tt <-> top_matches sp /\ layers_close sp.
Proof.
  unfold check_layers_elevations, top_matches, layers_close.
  generalize (close_loop_ok (top_sorted sp) (bottom_sorted sp)).
  generalize (bottom_sorted sp). generalize (top_sorted sp).
  intros ts bs Hloop. destruct ts as [|top0 rest].
  - split; [discriminate|]. intros [(t & r & Habs & _) _]. discriminate.
  - destruct (Qeq_bool top0 (SoilProfile.top_elevation sp)) eqn:E;
      cbn [negb].
    + rewrite Hloop. apply Qeq_bool_iff in E. split.
      * intros H. split; [|exact H]. now exists top0, rest.
      * now intros [_ H].
    + split; [discriminate|]. intros [(t & r & Heq & Ht) _].
      inversion Heq; subst. apply Qeq_bool_iff in Ht. congruence.
Qed.

Lemma argsort_perm (a : list Q) : Permutation (seq 0 (length a)) (argsort a).
Proof. apply sorted_by_perm. Qed.

Lemma argsort_in_range (a : list Q) :
  Forall (fun i => (i < length a)%nat) (argsort a).
Proof.
  eapply Permutation_Forall; [apply argsort_perm|].
  apply Forall_forall. intros i Hi.
  rewrite list_elem_of_In, in_seq in Hi. lia.
Qed.

Lemma take_indices_Forall (P : Q -> Prop) (a : list Q) (idx : list nat) :
  Forall P a ->
  Forall (fun i => (i < length a)%nat) idx ->
  Forall P (take_indices a idx).
Proof.
  intros Ha Hidx. unfold take_indices.
  induction Hidx as [|i idx Hi _ IH]; simpl; constructor; [|exact IH].
  rewrite Forall_forall in Ha. apply Ha.
  apply list_elem_of_In. now apply nth_In.
Qed.

Lemma take_indices_length (a : list Q) (idx : list nat) :
  length (take_indices a idx) = length idx.
Proof. apply length_map. Qed.

Lemma argsort_length (a : list Q) : length (argsort a) = length a.
Proof.
  rewrite <- (Permutation_length (argsort_perm a)). apply length_seq.
Qed.

Lemma top_sorted_length (sp : SoilProfile.t) :
  length (top_sorted sp) = length (SoilProfile.layers sp).
Proof.
  unfold top_sorted.
  now rewrite length_rev, take_indices_length, argsort_length, length_map.
Qed.

Lemma bottom_sorted_length (sp : SoilProfile.t) :
  length (bottom_sorted sp) = length (SoilProfile.layers sp).
Proof.
  unfold bottom_sorted.
  now rewrite length_rev, take_indices_length, argsort_length, length_map.
Qed.

Lemma top_sorted_below (bound : Q) (sp : SoilProfile.t) :
  elevations_below bound sp ->
  Forall (fun q => Qabs q <= bound) (top_sorted sp).
Proof.
  intros H. unfold top_sorted. apply Forall_rev.
  apply take_indices_Forall; [|apply argsort_in_range].
  apply Forall_map. eapply Forall_impl; [exact H|]. now intros l [Ht _].
Qed.

Lemma bottom_sorted_below (bound : Q) (sp : SoilProfile.t) :
  elevations_below bound sp ->
  Forall (fun q => Qabs q <= bound) (bottom_sorted sp).
Proof.
  intros H. unfold bottom_sorted. apply Forall_rev.
  apply take_indices_Forall.
  - apply Forall_map. eapply Forall_impl; [exact H|]. now intros l [_ Hb].
  - rewrite length_map, <- (length_map Layer.top). apply argsort_in_range.
Qed.

Lemma nth_Forall (P : Q -> Prop) (l : list Q) (i : nat) :
  Forall P l -> (i < length l)%nat -> P (nth i l 0).
Proof.
  intros H Hi. rewrite Forall_forall in H. apply H.
  apply list_elem_of_In. now apply nth_In.
Qed.

Lemma layers_close_within (sp : SoilProfile.t) :
  layers_close sp ->
  elevations_below 1000000 sp ->
  layers_within abs_tol_layers sp.
Proof.
  intros Hclose Hbound i Hi.
  pose proof (nth_Forall _ _ (i + 1) (top_sorted_below _ _ Hbound) Hi) as Ha.
  assert (Hi' : (i < length (bottom_sorted sp))%nat).
  { rewrite bottom_sorted_length, <- top_sorted_length. lia. }
  pose proof (nth_Forall _ _ i (bottom_sorted_below _ _ Hbound) Hi') as Hb.
  simpl in Ha, Hb.
  specialize (Hclose i Hi). unfold close_to, rel_tol_default in Hclose.
  set (a := nth (i + 1) (top_sorted sp) 0) in *.
  set (b := nth i (bottom_sorted sp) 0) in *.
  assert (Habs : Qabs (a - b) == Qabs (b - a)).
  { rewrite <- Qabs_opp.
    assert (E : - (a - b) == b - a) by ring. now rewrite E. }
  rewrite Habs. unfold abs_tol_layers in *.
  destruct Hclose as [H | [H | H]]; lra.
Qed.

Lemma top_matches_within (sp : SoilProfile.t) :
  top_matches sp -> top_within abs_tol_layers sp.
Proof.
  intros (top0 & rest & Heq & Htop). exists top0, rest. split; [exact Heq|].
  apply Qabs_Qle_condition. unfold abs_tol_layers. split; lra.
Qed.

(** C9 (amended): [SoilProfile(...)] succeeds exactly when the topmost
    layer's top is exactly equal to [top_elevation] and every layer (by
    descending top elevation) starts where the layer above ends in the sense
    of [math.isclose] with [abs_tol=0.001], that is within 0.001 or within
    the relative tolerance 1e-9 of either value; every other profile raises.
    For elevations of magnitude at most 1e6 a profile that is accepted is
    contiguous within 0.001. *)
Theorem SoilProfile_init_elevations
    (name : string) (top_elevation water_line : Q) (layers : list Layer.t) :
  let sp := {| SoilProfile.name := name;
               SoilProfile.top_elevation := top_elevation;
               SoilProfile.water_line := water_line;
               SoilProfile.layers := layers |} in
  (SoilProfile_init name top_elevation water_line layers = Ok sp
   <-> top_matches sp /\ layers_close sp)
  /\ (~ (top_matches sp /\ layers_close sp) ->
      exists e, SoilProfile_init name top_elevation water_line layers = Raise e)
  /\ (SoilProfile_init name top_elevation water_line layers = Ok sp ->
      elevations_below 1000000 sp ->
      layers_within abs_tol_layers sp /\ top_within abs_tol_layers sp).
Proof.
  intros sp.
  assert (Hiff : SoilProfile_init name top_elevation water_line layers = Ok sp
                 <-> top_matches sp /\ layers_close sp).
  { rewrite <- check_layers_elevations_iff. unfold SoilProfile_init. fold sp.
    destruct (check_layers_elevations sp) as [[]|e]; simpl.
    - tauto.
    - split; discriminate. }
  split; [exact Hiff|]. split.
  - intros Hno. rewrite <- check_layers_elevations_iff in Hno.
    unfold SoilProfile_init. fold sp.
    destruct (check_layers_elevations sp) as [[]|e]; simpl.
    + now destruct Hno.
    + now exists e.
  - intros Hok Hbound. apply Hiff in Hok. destruct Hok as [Htop Hclose].
    split; [now apply layers_close_within | now apply top_matches_within].
Qed.

Lemma SoilProfile_init_elevations_witness :
  SoilProfile_init "BH01" 0 0 two_layers = Ok two_layer_profile
  /\ layers_within abs_tol_layers two_layer_profile
  /\ top_within abs_tol_layers two_layer_profile.
Proof.
  destruct (SoilProfile_init_elevations "BH01" 0 0 two_layers)
    as (_ & _ & H).
  split; [reflexivity|]. apply H; [reflexivity|].
  repeat constructor; vm_compute; discriminate.
Defined.

(** C9 as stated fails: a profile whose second layer starts 1.5 mm above
    the bottom of the first is accepted, because at elevations of two
    million metres the relative tolerance of [math.isclose] exceeds 0.001. *)
Lemma SoilProfile_init_accepts_beyond_tolerance :
  SoilProfile_init "far" 2000000 0 far_layers = Ok far_profile
  /\ ~ layers_within (1 # 1000) far_profile.
Proof.
  split; [reflexivity|].
  intros H. specialize (H 0%nat).
  assert (Hlen : (0 + 1 < length (top_sorted far_profile))%nat)
    by (vm_compute; lia).
  apply H in Hlen. vm_compute in Hlen. now apply Hlen.
Qed.

(* --------------------------------------------------------------------- *)
(** ** The toe spring tables                                              *)
(* --------------------------------------------------------------------- *)

(** C10: for a model with a soil profile, the table of [get_Mb_spring] is
    filled from [_Hb_spring]: its values are those of [get_Hb_spring], and
    they do not depend on [_Mb_spring]. *)
Theorem get_Mb_spring_populated_from_Hb (b : BuiltModel) (sp : SoilProfile.t) :
  Model.soil (config b) = Some sp ->
  spring_values (get_Mb_spring b) = spring_values (get_Hb_spring b)
  /\ (forall a : ndarray, get_Mb_spring (with_Mb_spring a b) = get_Mb_spring b)
  /\ (forall t : SpringTable,
        get_Mb_spring b = Ok (Some t) ->
        exists dim, shape_last (_Hb_spring b) = Ok dim
                    /\ VAL t = reshape2 2 dim (_Hb_spring b)).
Proof.
  intros Hsoil. unfold get_Mb_spring, get_Hb_spring. rewrite Hsoil.
  split; [|split].
  - destruct (shape_last (_Hb_spring b)) as [dim|e]; simpl; [|reflexivity].
    destruct (pile_bottom_elevation _) as [pb|e]; reflexivity.
  - intros a. simpl. rewrite Hsoil. reflexivity.
  - intros t. destruct (shape_last (_Hb_spring b)) as [dim|e]; simpl;
      [|discriminate].
    destruct (pile_bottom_elevation _) as [pb|e]; simpl; [|discriminate].
    intros H. inversion H; subst. exists dim. split; reflexivity.
Qed.

Lemma get_Mb_spring_populated_from_Hb_witness :
  ravel (_Mb_spring example_built) = (repeat 8 15 ++ repeat 7 15)%list
  /\ spring_values (get_Hb_spring example_built)
     = Some [repeat 6 15; repeat 5 15]
  /\ spring_values (get_Mb_spring example_built)
     = Some [repeat 6 15; repeat 5 15].
Proof.
  split; [vm_compute; reflexivity|].
  split; [vm_compute; reflexivity|].
  rewrite (proj1 (get_Mb_spring_populated_from_Hb example_built example_soil
                    eq_refl)).
  vm_compute. reflexivity.
Defined.

(* --------------------------------------------------------------------- *)
(** ** The axial capacity engine                                          *)
(* --------------------------------------------------------------------- *)

Lemma Qlt_bool_iff (a b : Q) : Qlt_bool a b = true <-> a < b.
Proof.
  unfold Qlt_bool. rewrite negb_true_iff. split.
  - intros H. apply Qnot_le_lt. intros Hle.
    apply Qle_bool_iff in Hle. congruence.
  - intros H. apply not_true_is_false. intros Hle.
    apply Qle_bool_iff in Hle. lra.
Qed.

Section CalculateFacts.
Variable get_all_properties : Mapper.
Variable m_sqrt : Q -> Q.

Lemma shaft_resistance_returns (pile : Pile) (sp : SoilProfile.t)
    (outer_shaft inner_shaft : bool) :
  exists sr,
    shaft_resistance get_all_properties pile (Some sp) outer_shaft inner_shaft
    = Ok sr.
Proof. eexists. reflexivity. Qed.

Lemma entrapped_soil_weight_returns (pile : Pile) (sp : SoilProfile.t) :
  exists esw,
    entrapped_soil_weight get_all_properties pile (Some sp) = Ok esw.
Proof. eexists. reflexivity. Qed.

(** C7: without a soil profile [effective_pile_weight] raises its
    descriptive exception, and [isplugged] raises "Method not implemented"
    for every method other than "API-87" and "ICP-05"; no value is
    returned. *)
Theorem missing_reference_raises (pile : Pile) (soil : option SoilProfile.t)
    (method kind : string) :
  effective_pile_weight get_all_properties pile None
  = Raise (Exception
      "Model must be linked to a soil profile, use `openpile.construct.Pile.weight instead.`")
  /\ (method <> "API-87" -> method <> "ICP-05" ->
      isplugged get_all_properties m_sqrt pile soil method kind
      = Raise (Exception "Method not implemented")).
Proof.
  split; [reflexivity|].
  intros H1 H2. unfold isplugged.
  apply String.eqb_neq in H1. apply String.eqb_neq in H2.
  now rewrite H1, H2.
Qed.



(** C1 (the code at every input): both capacity functions call
    [isplugged] without its required argument [method], so they raise
    [TypeError] and return no capacity. *)
Theorem capacity_calls_raise (pile : Pile) (soil : option SoilProfile.t) :
  compressioncapacity get_all_properties m_sqrt pile soil
  = Raise (TypeError
      "isplugged() missing 1 required positional argument: 'method'")
  /\ tensilecapacity get_all_properties m_sqrt pile soil
     = Raise (TypeError
         "isplugged() missing 1 required positional argument: 'method'").
Proof. split; reflexivity. Qed.

(** Past the call of [isplugged], the plugged branch of
    [compressioncapacity] would return the outer shaft resistance alone: the
    end-bearing and weight terms are on a line of their own. *)
Lemma compression_branch_drops_terms (pile : Pile) (sp : SoilProfile.t)
    (plugged : bool) (sr footprint area esw : Q) (q : number) :
  shaft_resistance get_all_properties pile (Some sp) true (negb plugged)
  = Ok sr ->
  unit_end_bearing get_all_properties pile (Some sp) = Ok (Number q) ->
  tip_footprint pile = Ok footprint ->
  tip_area pile = Ok area ->
  entrapped_soil_weight get_all_properties pile (Some sp) = Ok esw ->
  compression_branch get_all_properties pile (Some sp) plugged = Ok sr.
Proof.
  intros Hsr Hq Hfp Ha Hesw. unfold compression_branch.
  destruct plugged; cbn [negb] in Hsr; rewrite Hsr; cbn [mbind result_bind];
    rewrite Hq; cbn [mbind result_bind py_pos].
  - rewrite Hfp. cbn [mbind result_bind py_mul]. rewrite Hesw. reflexivity.
  - rewrite Ha. reflexivity.
Qed.

End CalculateFacts.

Lemma missing_reference_raises_witness :
  effective_pile_weight example_mapper example_pile None
  = Raise (Exception
      "Model must be linked to a soil profile, use `openpile.construct.Pile.weight instead.`")
  /\ isplugged example_mapper unused_sqrt example_pile (Some example_soil)
               "DNV" "compression"
     = Raise (Exception "Method not implemented").
Proof.
  destruct (missing_reference_raises example_mapper unused_sqrt example_pile
              (Some example_soil) "DNV" "compression") as [H1 H2].
  split; [exact H1|]. apply H2; discriminate.
Defined.


(** C2 (the code at two inputs): in [entrapped_soil_weight] the full unit
    weight is taken for the elements whose midpoint is at or below the water
    line and the weight reduced by 10 for the elements above it.  For the
    example pile every midpoint is below the water line 0 and the result is
    18 times the inner volume; with the water line at -6 every midpoint is
    above it and the result is 8 times the inner volume. *)
Theorem entrapped_soil_weight_water_rule :
  let rows := example_mapper example_pile (Some example_soil) None (1 # 10) in
  let rows_dry := example_mapper example_pile (Some dry_soil) None (1 # 10) in
  Forall (fun r => elevation r < SoilProfile.water_line example_soil) rows
  /\ (exists w,
        entrapped_soil_weight example_mapper example_pile (Some example_soil)
        = Ok w
        /\ w == 18 * Qsum (inside_volume rows)
        /\ ~ w == (18 - 10) * Qsum (inside_volume rows))
  /\ Forall (fun r => SoilProfile.water_line dry_soil < elevation r) rows_dry
  /\ (exists w,
        entrapped_soil_weight example_mapper example_pile (Some dry_soil)
        = Ok w
        /\ w == (18 - 10) * Qsum (inside_volume rows_dry)
        /\ ~ w == 18 * Qsum (inside_volume rows_dry)).
Proof.
  intros rows rows_dry. split; [|split; [|split]].
  - vm_compute. repeat constructor.
  - eexists. split; [reflexivity|]. split.
    + vm_compute. reflexivity.
    + vm_compute. discriminate.
  - vm_compute. repeat constructor.
  - eexists. split; [reflexivity|]. split.
    + vm_compute. reflexivity.
    + vm_compute. discriminate.
Qed.

(** C4 (the code at two inputs): the pile tip at -1 lies inside the upper
    layer, which has an axial model, and outside the lower layer, which has
    none; the stress at the tip is 8 and the tip resistance of the upper
    layer at 8 is 320.  With the layers listed upper first
    [unit_end_bearing] returns 0.0, what the lower layer assigns.  With the
    same layers listed lower first it returns what the upper layer assigns,
    and that is no number: the axial model is given the 1-tuple [(8,)], and
    [40 * sig] is then a tuple of 40 entries. *)
Theorem unit_end_bearing_last_layer_wins :
  check_layers_elevations upper_first = Ok tt
  /\ check_layers_elevations lower_first = Ok tt
  /\ pile_bottom_elevation example_pile = Ok (-1)
  /\ Layer.bottom upper_layer < -1 <= Layer.top upper_layer
  /\ Layer.top lower_layer < -1
  /\ (exists r,
        last (example_mapper example_pile (Some upper_first) None (1 # 10))
        = Some r
        /\ sigma_v_bottom (soil_row r) == 8)
  /\ unit_tip_resistance example_axial (Number (PyFloat 8)) 4 2
     = Ok (Number (PyFloat 320))
  /\ unit_end_bearing example_mapper example_pile (Some upper_first)
     = Ok (Number (PyFloat 0))
  /\ (exists x,
        unit_end_bearing example_mapper example_pile (Some lower_first)
        = Ok (Tuple (repeat (PyFloat x) 40))
        /\ x == 8).
Proof.
  split; [reflexivity|]. split; [reflexivity|]. split; [reflexivity|].
  split; [split; vm_compute; [reflexivity | discriminate]|].
  split; [vm_compute; reflexivity|].
  split; [eexists; split; [vm_compute; reflexivity | vm_compute; reflexivity]|].
  split; [vm_compute; reflexivity|]. split; [reflexivity|].
  eexists. split; [vm_compute; reflexivity|]. vm_compute. reflexivity.
Qed.

(* --------------------------------------------------------------------- *)
(** ** The spring assembly                                                *)
(* --------------------------------------------------------------------- *)

Lemma foldM_inv {S A : Type} (P : S -> Prop) (body : S -> A -> result S)
    (xs : list A) :
  (forall s x s', P s -> body s x = Ok s' -> P s') ->
  forall s s', P s -> foldM body xs s = Ok s' -> P s'.
Proof.
  intros Hstep. induction xs as [|x xs IH]; intros s s' Hs Hrun; simpl in Hrun.
  - now inversion Hrun; subst.
  - destruct (body s x) as [s1|e] eqn:E; simpl in Hrun; [|discriminate].
    eapply IH; [|exact Hrun]. eapply Hstep; eauto.
Qed.

Lemma never_called_snoc (is_call : SpringCall -> bool)
    (cs : list SpringCall) (c : SpringCall) :
  never_called is_call cs -> is_call c = false ->
  never_called is_call (cs ++ [c]).
Proof.
  unfold never_called. intros H Hc. rewrite forallb_app, H. simpl.
  now rewrite Hc.
Qed.

Lemma ravel_np_zeros (shape : list nat) :
  all_zero (np_zeros shape).
Proof.
  unfold all_zero. induction shape as [|n shape IH]; simpl.
  - repeat constructor.
  - induction n as [|n IHn]; simpl; [constructor|].
    apply Forall_app. split; assumption.
Qed.

Lemma shape_np_zeros (dims : list nat) :
  Forall (fun n => (0 < n)%nat) dims -> shape (np_zeros dims) = dims.
Proof.
  induction 1 as [|n dims Hn _ IH]; simpl; [reflexivity|].
  rewrite repeat_length. f_equal.
  destruct n as [|n]; [lia|]. simpl. exact IH.
Qed.

(** Case analysis along one run of a loop body of [create_springs]. *)
Ltac run_step H :=
  cbn [mbind result_bind foldM] in H;
  repeat
    (match type of H with
     | Ok _ = Ok _ => inversion H; subst; clear H
     | Raise _ = Ok _ => discriminate H
     | context [pile_bottom_elevation ?p] =>
         destruct (pile_bottom_elevation p)
     | context [read_pile_width ?s] => destruct (read_pile_width s)
     | context [last ?l] => destruct (last l)
     | context [if ?c then _ else _] => destruct c
     end;
     try cbn [mbind result_bind foldM] in H).

Ltac keep_untouched :=
  unfold untouched in *; cbn [py mt Hb Mb calls set_py set_mt set_Hb set_Mb
                              set_pile_width print] in *;
  repeat match goal with
         | H : _ /\ _ |- _ => destruct H
         end;
  split; [assumption|];
  repeat (apply never_called_snoc; [|reflexivity]); assumption.

Section SpringFacts.
Variables (m : Model.t) (sp : SoilProfile.t) (rows : list MeshRow).

Lemma element_springs_py (layer : Layer.t) (lm : LateralModel) (a0 : ndarray)
    (st st' : Springs) (i : nat) :
  Model.distributed_lateral m = false ->
  untouched py is_py_call a0 st ->
  element_springs m sp layer lm rows st i = Ok st' ->
  untouched py is_py_call a0 st'.
Proof.
  intros Hoff Hinv Hrun. unfold element_springs in Hrun.
  rewrite Hoff, andb_false_r in Hrun.
  run_step Hrun; keep_untouched.
Qed.

Lemma element_springs_mt (layer : Layer.t) (lm : LateralModel) (a0 : ndarray)
    (st st' : Springs) (i : nat) :
  Model.distributed_moment m = false ->
  untouched mt is_mt_call a0 st ->
  element_springs m sp layer lm rows st i = Ok st' ->
  untouched mt is_mt_call a0 st'.
Proof.
  intros Hoff Hinv Hrun. unfold element_springs in Hrun.
  rewrite Hoff, andb_false_r in Hrun.
  run_step Hrun; keep_untouched.
Qed.

Lemma element_springs_Hb (layer : Layer.t) (lm : LateralModel) (a0 : ndarray)
    (st st' : Springs) (i : nat) :
  untouched Hb is_Hb_call a0 st ->
  element_springs m sp layer lm rows st i = Ok st' ->
  untouched Hb is_Hb_call a0 st'.
Proof.
  intros Hinv Hrun. unfold element_springs in Hrun.
  run_step Hrun; keep_untouched.
Qed.

Lemma element_springs_Mb (layer : Layer.t) (lm : LateralModel) (a0 : ndarray)
    (st st' : Springs) (i : nat) :
  untouched Mb is_Mb_call a0 st ->
  element_springs m sp layer lm rows st i = Ok st' ->
  untouched Mb is_Mb_call a0 st'.
Proof.
  intros Hinv Hrun. unfold element_springs in Hrun.
  run_step Hrun; keep_untouched.
Qed.

Lemma toe_springs_py (layer : Layer.t) (lm : LateralModel) (a0 : ndarray)
    (st st' : Springs) :
  untouched py is_py_call a0 st ->
  toe_springs m sp layer lm rows st = Ok st' ->
  untouched py is_py_call a0 st'.
Proof.
  intros Hinv Hrun. unfold toe_springs in Hrun.
  run_step Hrun; keep_untouched.
Qed.

Lemma toe_springs_mt (layer : Layer.t) (lm : LateralModel) (a0 : ndarray)
    (st st' : Springs) :
  untouched mt is_mt_call a0 st ->
  toe_springs m sp layer lm rows st = Ok st' ->
  untouched mt is_mt_call a0 st'.
Proof.
  intros Hinv Hrun. unfold toe_springs in Hrun.
  run_step Hrun; keep_untouched.
Qed.

Lemma toe_springs_Hb (layer : Layer.t) (lm : LateralModel) (a0 : ndarray)
    (st st' : Springs) :
  Model.base_shear m = false ->
  untouched Hb is_Hb_call a0 st ->
  toe_springs m sp layer lm rows st = Ok st' ->
  untouched Hb is_Hb_call a0 st'.
Proof.
  intros Hoff Hinv Hrun. unfold toe_springs in Hrun.
  rewrite Hoff, andb_false_r in Hrun.
  run_step Hrun; keep_untouched.
Qed.

Lemma toe_springs_Mb (layer : Layer.t) (lm : LateralModel) (a0 : ndarray)
    (st st' : Springs) :
  Model.base_moment m = false ->
  untouched Mb is_Mb_call a0 st ->
  toe_springs m sp layer lm rows st = Ok st' ->
  untouched Mb is_Mb_call a0 st'.
Proof.
  intros Hoff Hinv Hrun. unfold toe_springs in Hrun.
  rewrite Hoff, andb_false_r in Hrun.
  run_step Hrun; keep_untouched.
Qed.

(** One layer of the loop keeps a family untouched as soon as the element
    body and the toe block do. *)
Lemma layer_springs_keeps (P : Springs -> Prop) :
  (forall layer lm st st' i,
     P st -> element_springs m sp layer lm rows st i = Ok st' -> P st') ->
  (forall layer lm st st',
     P st -> toe_springs m sp layer lm rows st = Ok st' -> P st') ->
  forall st layer st',
    P st -> layer_springs m sp rows st layer = Ok st' -> P st'.
Proof.
  intros Helem Htoe st layer st' Hinv Hrun. unfold layer_springs in Hrun.
  destruct (Layer.lateral_model layer) as [lm|].
  - destruct (foldM (element_springs m sp layer lm rows)
                    (elements_for_layer rows layer) st) as [st1|e] eqn:E;
      cbn [mbind result_bind] in Hrun; [|discriminate].
    eapply Htoe; [|exact Hrun].
    eapply foldM_inv; [|exact Hinv|exact E].
    intros s x s' Hs Hx. eapply Helem; eauto.
  - now inversion Hrun; subst.
Qed.

Lemma layers_keep (P : Springs -> Prop) :
  (forall layer lm st st' i,
     P st -> element_springs m sp layer lm rows st i = Ok st' -> P st') ->
  (forall layer lm st st',
     P st -> toe_springs m sp layer lm rows st = Ok st' -> P st') ->
  forall layers st st',
    P st -> foldM (layer_springs m sp rows) layers st = Ok st' -> P st'.
Proof.
  intros Helem Htoe layers st st' Hinv Hrun.
  eapply foldM_inv; [|exact Hinv|exact Hrun].
  intros s x s' Hs Hx. eapply layer_springs_keeps; eauto.
Qed.

End SpringFacts.

Section ModelFacts.

Lemma spring_loop_keeps (get : Springs -> ndarray)
    (is_call : SpringCall -> bool) (m : Model.t) (rows : list MeshRow)
    (st : Springs) :
  (forall sp layer lm s s' i,
     untouched get is_call (get (allocate (length rows))) s ->
     element_springs m sp layer lm rows s i = Ok s' ->
     untouched get is_call (get (allocate (length rows))) s') ->
  (forall sp layer lm s s',
     untouched get is_call (get (allocate (length rows))) s ->
     toe_springs m sp layer lm rows s = Ok s' ->
     untouched get is_call (get (allocate (length rows))) s') ->
  spring_loop m rows = Ok st ->
  untouched get is_call (get (allocate (length rows))) st.
Proof.
  intros Helem Htoe Hrun. unfold spring_loop in Hrun.
  destruct (soil_attr (Model.soil m)) as [sp|e];
    cbn [mbind result_bind] in Hrun; [|discriminate].
  eapply layers_keep; [apply Helem|apply Htoe| |exact Hrun].
  split; reflexivity.
Qed.

Lemma spring_loop_py (m : Model.t) (rows : list MeshRow) (st : Springs) :
  Model.distributed_lateral m = false ->
  spring_loop m rows = Ok st ->
  untouched py is_py_call (np_zeros [length rows; 2; 2; spring_dim]%nat) st.
Proof.
  intros Hoff Hrun.
  eapply (spring_loop_keeps py is_py_call); [| |exact Hrun].
  - intros. eapply element_springs_py; eauto.
  - intros. eapply toe_springs_py; eauto.
Qed.

Lemma spring_loop_mt (m : Model.t) (rows : list MeshRow) (st : Springs) :
  Model.distributed_moment m = false ->
  spring_loop m rows = Ok st ->
  untouched mt is_mt_call
    (np_zeros [length rows; 2; 2; spring_dim; spring_dim]%nat) st.
Proof.
  intros Hoff Hrun.
  eapply (spring_loop_keeps mt is_mt_call); [| |exact Hrun].
  - intros. eapply element_springs_mt; eauto.
  - intros. eapply toe_springs_mt; eauto.
Qed.

Lemma spring_loop_Hb (m : Model.t) (rows : list MeshRow) (st : Springs) :
  Model.base_shear m = false ->
  spring_loop m rows = Ok st ->
  untouched Hb is_Hb_call (np_zeros [1; 1; 2; spring_dim]%nat) st.
Proof.
  intros Hoff Hrun.
  eapply (spring_loop_keeps Hb is_Hb_call); [| |exact Hrun].
  - intros. eapply element_springs_Hb; eauto.
  - intros. eapply toe_springs_Hb; eauto.
Qed.

Lemma spring_loop_Mb (m : Model.t) (rows : list MeshRow) (st : Springs) :
  Model.base_moment m = false ->
  spring_loop m rows = Ok st ->
  untouched Mb is_Mb_call (np_zeros [1; 1; 2; spring_dim]%nat) st.
Proof.
  intros Hoff Hrun.
  eapply (spring_loop_keeps Mb is_Mb_call); [| |exact Hrun].
  - intros. eapply element_springs_Mb; eauto.
  - intros. eapply toe_springs_Mb; eauto.
Qed.

(** C6: when the loop over the layers of [create_springs] is through, on a
    mesh of [n] elements, a spring family whose toggle is off
    ([distributed_lateral] for p-y, [distributed_moment] for m-t,
    [base_shear] for Hb, [base_moment] for Mb) still has the array allocated
    by [np.zeros], with [spring_dim = 15] points on its last axes, whatever
    the lateral models of the layers declare, and no spring function of that
    family was evaluated. *)
Theorem disabled_family_stays_zero (m : Model.t) (rows : list MeshRow)
    (st : Springs) :
  spring_loop m rows = Ok st ->
  let n := length rows in
  spring_dim = 15%nat
  /\ (Model.distributed_lateral m = false ->
      py st = np_zeros [n; 2; 2; spring_dim]%nat
      /\ all_zero (py st)
      /\ never_called is_py_call (calls st))
  /\ (Model.distributed_moment m = false ->
      mt st = np_zeros [n; 2; 2; spring_dim; spring_dim]%nat
      /\ all_zero (mt st)
      /\ never_called is_mt_call (calls st))
  /\ (Model.base_shear m = false ->
      Hb st = np_zeros [1; 1; 2; spring_dim]%nat
      /\ all_zero (Hb st)
      /\ never_called is_Hb_call (calls st))
  /\ (Model.base_moment m = false ->
      Mb st = np_zeros [1; 1; 2; spring_dim]%nat
      /\ all_zero (Mb st)
      /\ never_called is_Mb_call (calls st)).
Proof.
  intros Hrun n. subst n.
  split; [reflexivity|].
  split; [|split; [|split]]; intros Hoff.
  - destruct (spring_loop_py m _ st Hoff Hrun) as [Ha Hc].
    rewrite Ha. repeat split; [apply ravel_np_zeros | exact Hc].
  - destruct (spring_loop_mt m _ st Hoff Hrun) as [Ha Hc].
    rewrite Ha. repeat split; [apply ravel_np_zeros | exact Hc].
  - destruct (spring_loop_Hb m _ st Hoff Hrun) as [Ha Hc].
    rewrite Ha. repeat split; [apply ravel_np_zeros | exact Hc].
  - destruct (spring_loop_Mb m _ st Hoff Hrun) as [Ha Hc].
    rewrite Ha. repeat split; [apply ravel_np_zeros | exact Hc].
Qed.

End ModelFacts.

Lemma disabled_family_stays_zero_witness :
  let m := example_model true false false false in
  let rows := example_mapper (Model.pile m) (Model.soil m)
                (Some (Model.x2mesh m)) (Model.coarseness m) in
  exists st : Springs,
    spring_loop m rows = Ok st
    /\ spring_signature example_lateral 2 = true
    /\ mt st = np_zeros [2; 2; 2; 15; 15]%nat
    /\ Hb st = np_zeros [1; 1; 2; 15]%nat
    /\ Mb st = np_zeros [1; 1; 2; 15]%nat
    /\ never_called is_mt_call (calls st)
    /\ length (calls st) = 4%nat.
Proof.
  intros m rows. eexists. split; [vm_compute; reflexivity|].
  match goal with
  | |- _ /\ mt ?st = _ /\ _ =>
      destruct (disabled_family_stays_zero m rows st eq_refl)
        as (_ & _ & Hmt & HHb & HMb)
  end.
  destruct (Hmt eq_refl) as (Emt & _ & Cmt).
  destruct (HHb eq_refl) as (EHb & _ & _).
  destruct (HMb eq_refl) as (EMb & _ & _).
  split; [reflexivity|]. split; [exact Emt|]. split; [exact EHb|].
  split; [exact EMb|]. split; [exact Cmt|]. reflexivity.
Defined.

(* --------------------------------------------------------------------- *)
(** ** Sums over the elements of a layer                                  *)
(* --------------------------------------------------------------------- *)

Lemma Qsum_insert (l : list Q) (i : nat) (v : Q) :
  (i < length l)%nat -> Qsum (<[i := v]> l) == Qsum l - nth i l 0 + v.
Proof.
  revert i. induction l as [|x l IH]; intros i Hi; simpl in Hi; [lia|].
  destruct i as [|i]; simpl.
  - lra.
  - rewrite IH by lia. lra.
Qed.

Lemma nth_insert_ne (l : list Q) (i j : nat) (v : Q) :
  i <> j -> nth j (<[i := v]> l) 0 = nth j l 0.
Proof.
  revert i j. induction l as [|x l IH]; intros i j Hne; [reflexivity|].
  destruct i as [|i], j as [|j]; simpl; try reflexivity; try congruence.
  apply IH. congruence.
Qed.

Lemma scatter_nth_notin (value : nat -> Q) (idxs : list nat) :
  forall (a : list Q) (j : nat),
    ~ In j idxs -> nth j (scatter value idxs a) 0 = nth j a 0.
Proof.
  induction idxs as [|i idxs IH]; intros a j Hj; [reflexivity|].
  unfold scatter in *. simpl. rewrite IH.
  - apply nth_insert_ne. intros ->. apply Hj. now left.
  - intros H. apply Hj. now right.
Qed.

Lemma scatter_length (value : nat -> Q) (idxs : list nat) :
  forall a : list Q, length (scatter value idxs a) = length a.
Proof.
  induction idxs as [|i idxs IH]; intros a; [reflexivity|].
  unfold scatter in *. simpl. rewrite IH. apply length_insert.
Qed.

Lemma scatter_sum (value : nat -> Q) (idxs : list nat) :
  forall a : list Q,
    List.NoDup idxs ->
    (forall j, In j idxs -> (j < length a)%nat /\ nth j a 0 == 0) ->
    Qsum (scatter value idxs a) == Qsum a + Qsum (map value idxs).
Proof.
  induction idxs as [|i idxs IH]; intros a Hnd Hz.
  - unfold scatter. simpl. lra.
  - inversion Hnd as [|? ? Hnotin Hnd']; subst.
    change (scatter value (i :: idxs) a)
      with (scatter value idxs (<[i := value i]> a)).
    rewrite IH; [| exact Hnd' |].
    + destruct (Hz i (or_introl eq_refl)) as [Hi Hzi].
      rewrite Qsum_insert by exact Hi. simpl. lra.
    + intros j Hj. destruct (Hz j (or_intror Hj)) as [Hlt Hzj].
      rewrite length_insert. split; [exact Hlt|].
      rewrite nth_insert_ne; [exact Hzj|].
      intros ->. apply Hnotin. now apply list_elem_of_In.
Qed.

Lemma Qsum_zeros (n : nat) : Qsum (zeros n) == 0.
Proof. induction n as [|n IH]; simpl; [reflexivity|]. rewrite IH. lra. Qed.

Lemma nth_zeros (n j : nat) : nth j (zeros n) 0 = 0.
Proof. apply nth_repeat. Qed.

Lemma index_where_spec {A : Type} (mask : A -> bool) (rows : list A) (i : nat) :
  In i (index_where mask rows)
  <-> exists r, rows !! i = Some r /\ mask r = true.
Proof.
  unfold index_where. rewrite filter_In, in_seq. split.
  - intros [_ H]. destruct (rows !! i) as [r|]; [|discriminate]. now exists r.
  - intros (r & Hr & Hm). rewrite Hr. split; [|exact Hm].
    apply lookup_lt_Some in Hr. lia.
Qed.

Lemma index_where_NoDup {A : Type} (mask : A -> bool) (rows : list A) :
  List.NoDup (index_where mask rows).
Proof. apply List.NoDup_filter, List.seq_NoDup. Qed.

Lemma index_where_lt {A : Type} (mask : A -> bool) (rows : list A) (i : nat) :
  In i (index_where mask rows) -> (i < length rows)%nat.
Proof.
  intros (r & Hr & _)%index_where_spec. now apply lookup_lt_Some in Hr.
Qed.

Lemma scatter_zeros_sum (value : nat -> Q) (idxs : list nat) (n : nat) :
  List.NoDup idxs ->
  (forall j, In j idxs -> (j < n)%nat) ->
  Qsum (scatter value idxs (zeros n)) == Qsum (map value idxs).
Proof.
  intros Hnd Hlt. rewrite scatter_sum; [rewrite Qsum_zeros; lra|exact Hnd|].
  intros j Hj. unfold zeros at 1. rewrite repeat_length, nth_zeros.
  split; [now apply Hlt | reflexivity].
Qed.

Lemma Qsum_map_ext {A : Type} (f g : A -> Q) (l : list A) :
  (forall x, In x l -> f x == g x) -> Qsum (map f l) == Qsum (map g l).
Proof.
  induction l as [|x l IH]; intros H; simpl; [reflexivity|].
  rewrite (H x (or_introl eq_refl)), IH; [reflexivity|].
  intros y Hy. apply H. now right.
Qed.

Lemma Qsum_map_scale {A : Type} (c : Q) (f : A -> Q) (l : list A) :
  Qsum (map (fun x => c * f x) l) == c * Qsum (map f l).
Proof. induction l as [|x l IH]; simpl; [ring|]. rewrite IH. ring. Qed.

Lemma Qsum_map_zero {A : Type} (l : list A) :
  Qsum (map (fun _ => 0) l) == 0.
Proof. induction l as [|x l IH]; simpl; [reflexivity|]. rewrite IH. lra. Qed.

Lemma Qsum_map_plus {A : Type} (f g : A -> Q) (l : list A) :
  Qsum (map (fun x => f x + g x) l) == Qsum (map f l) + Qsum (map g l).
Proof. induction l as [|x l IH]; simpl; [ring|]. rewrite IH. ring. Qed.

Lemma Qsum_map_filter {A : Type} (keep : A -> bool) (f : A -> Q) (l : list A) :
  Qsum (map (fun x => if keep x then f x else 0) l)
  == Qsum (map f (List.filter keep l)).
Proof.
  induction l as [|x l IH]; simpl; [reflexivity|].
  destruct (keep x); simpl; rewrite IH; ring.
Qed.

Lemma layer_soil_weight_sum (rows : list MeshRow) (water_line : Q)
    (layer : Layer.t) :
  layer_soil_weight rows water_line layer
  == Qsum (map (soil_weight_at water_line layer (inside_volume rows)
                               (map elevation rows))
               (elements_for_layer rows layer)).
Proof.
  unfold layer_soil_weight, soil_weight_pass.
  apply scatter_zeros_sum; [apply index_where_NoDup|].
  intros j Hj. now apply index_where_lt in Hj.
Qed.

Lemma soil_weight_doubled (rows : list MeshRow) (water_line : Q)
    (layer : Layer.t) :
  layer_soil_weight rows water_line
    (with_weight (2 * Layer.weight layer) layer)
  == 2 * layer_soil_weight rows water_line layer
     + uw_water * reduced_volume rows water_line layer.
Proof.
  rewrite !layer_soil_weight_sum. unfold reduced_volume, reduced_elements.
  change (elements_for_layer rows (with_weight (2 * Layer.weight layer) layer))
    with (elements_for_layer rows layer).
  rewrite <- Qsum_map_filter, <- !Qsum_map_scale, <- Qsum_map_plus.
  apply Qsum_map_ext. intros i _. unfold soil_weight_at. cbn [Layer.weight with_weight].
  destruct (Qle_bool (nth i (map elevation rows) 0) water_line);
    cbn [negb]; unfold uw_water; ring.
Qed.

Lemma fold_pair_scatter (f g : nat -> Q) (idxs : list nat) :
  forall a b : list Q,
    fold_left (fun fs i => (<[i := f i]> (fst fs), <[i := g i]> (snd fs)))
              idxs (a, b)
    = (scatter f idxs a, scatter g idxs b).
Proof.
  induction idxs as [|i idxs IH]; intros a b; [reflexivity|].
  simpl. now rewrite IH.
Qed.

Lemma shaft_pass_scatter (rows : list MeshRow) (So Si a b : list Q)
    (layer : Layer.t) (am : AxialModel) :
  Layer.axial_model layer = Some am ->
  shaft_pass rows So Si (a, b) layer
  = (scatter (fun i => shaft_out_at layer am (nth i rows default_row)
                                    (nth i So 0) (nth i Si 0))
             (elements_for_layer rows layer) a,
     scatter (fun i => shaft_in_at layer am (nth i rows default_row)
                                   (nth i So 0) (nth i Si 0))
             (elements_for_layer rows layer) b).
Proof.
  intros Ham. unfold shaft_pass. rewrite Ham.
  apply (fold_pair_scatter
           (fun i => shaft_out_at layer am (nth i rows default_row)
                                  (nth i So 0) (nth i Si 0))
           (fun i => shaft_in_at layer am (nth i rows default_row)
                                 (nth i So 0) (nth i Si 0))).
Qed.

Lemma layer_shaft_resistance_sum (rows : list MeshRow)
    (outer_shaft inner_shaft : bool) (layer : Layer.t) (am : AxialModel) :
  Layer.axial_model layer = Some am ->
  layer_shaft_resistance rows outer_shaft inner_shaft layer
  == (if outer_shaft
      then Qsum (map (fun i => shaft_out_at layer am (nth i rows default_row)
                                 (nth i (surface_outside rows) 0)
                                 (nth i (surface_inside rows) 0))
                     (elements_for_layer rows layer))
      else 0)
     + (if inner_shaft
        then Qsum (map (fun i => shaft_in_at layer am (nth i rows default_row)
                                   (nth i (surface_outside rows) 0)
                                   (nth i (surface_inside rows) 0))
                       (elements_for_layer rows layer))
        else 0).
Proof.
  intros Ham. unfold layer_shaft_resistance.
  rewrite (shaft_pass_scatter _ _ _ _ _ _ am Ham). cbn [fst snd].
  assert (Hlt : forall j, In j (elements_for_layer rows layer) ->
                          (j < length rows)%nat)
    by (intros j Hj; now apply index_where_lt in Hj).
  destruct outer_shaft, inner_shaft;
    rewrite ?scatter_zeros_sum, ?Qsum_zeros;
    try reflexivity; try apply index_where_NoDup; try exact Hlt.
Qed.

Lemma shaft_resistance_doubled (rows : list MeshRow)
    (outer_shaft inner_shaft : bool) (layer : Layer.t) (am : AxialModel) :
  Layer.axial_model layer = Some am ->
  layer_shaft_resistance rows outer_shaft inner_shaft
    (with_axial_model (Some (with_t_multiplier (2 * t_multiplier am) am)) layer)
  == 2 * layer_shaft_resistance rows outer_shaft inner_shaft layer.
Proof.
  intros Ham.
  rewrite (layer_shaft_resistance_sum rows outer_shaft inner_shaft layer am Ham).
  rewrite (layer_shaft_resistance_sum rows outer_shaft inner_shaft
             (with_axial_model
                (Some (with_t_multiplier (2 * t_multiplier am) am)) layer)
             (with_t_multiplier (2 * t_multiplier am) am) eq_refl).
  change (elements_for_layer rows (with_axial_model _ layer))
    with (elements_for_layer rows layer).
  assert (Hout : forall r So Si,
            shaft_out_at (with_axial_model
                            (Some (with_t_multiplier (2 * t_multiplier am) am))
                            layer)
                         (with_t_multiplier (2 * t_multiplier am) am) r So Si
            == 2 * shaft_out_at layer am r So Si).
  { intros. unfold shaft_out_at. cbn. ring. }
  assert (Hin : forall r So Si,
            shaft_in_at (with_axial_model
                           (Some (with_t_multiplier (2 * t_multiplier am) am))
                           layer)
                        (with_t_multiplier (2 * t_multiplier am) am) r So Si
            == 2 * shaft_in_at layer am r So Si).
  { intros. unfold shaft_in_at. cbn. ring. }
  destruct outer_shaft, inner_shaft.
  - rewrite (Qsum_map_ext _ _ _ (fun i _ => Hout _ _ _)).
    rewrite (Qsum_map_ext _ _ _ (fun i _ => Hin _ _ _)).
    rewrite !Qsum_map_scale. ring.
  - rewrite (Qsum_map_ext _ _ _ (fun i _ => Hout _ _ _)).
    rewrite !Qsum_map_scale. ring.
  - rewrite (Qsum_map_ext _ _ _ (fun i _ => Hin _ _ _)).
    rewrite !Qsum_map_scale. ring.
  - ring.
Qed.

Section LayerPasses.
Variable rows : list MeshRow.
Variable value : Layer.t -> option (nat -> Q).

Lemma layer_pass_length (a : list Q) (l : Layer.t) :
  length (layer_pass rows value a l) = length a.
Proof.
  unfold layer_pass. destruct (value l); [apply scatter_length|reflexivity].
Qed.

Lemma layer_pass_nth_notin (a : list Q) (l : Layer.t) (j : nat) :
  ~ In j (elements_for_layer rows l) ->
  nth j (layer_pass rows value a l) 0 = nth j a 0.
Proof.
  intros Hj. unfold layer_pass.
  destruct (value l); [now apply scatter_nth_notin|reflexivity].
Qed.

Lemma layer_pass_sum (a : list Q) (l : Layer.t) :
  length a = length rows ->
  (forall j, In j (elements_for_layer rows l) -> nth j a 0 == 0) ->
  Qsum (layer_pass rows value a l)
  == Qsum a + Qsum (layer_pass rows value (zeros (length rows)) l).
Proof.
  intros Hlen Hz. unfold layer_pass. destruct (value l) as [v|].
  - rewrite scatter_sum; [|apply index_where_NoDup|].
    + rewrite scatter_zeros_sum; [reflexivity|apply index_where_NoDup|].
      intros j Hj. now apply index_where_lt in Hj.
    + intros j Hj. split; [|now apply Hz].
      rewrite Hlen. now apply index_where_lt in Hj.
  - rewrite Qsum_zeros. lra.
Qed.

Lemma layer_passes_sum (ls : list Layer.t) :
  forall a : list Q,
    length a = length rows ->
    disjoint_layers rows ls ->
    (forall l j, In l ls -> In j (elements_for_layer rows l) ->
                 nth j a 0 == 0) ->
    Qsum (fold_left (layer_pass rows value) ls a)
    == Qsum a
       + Qsum (map (fun l => Qsum (layer_pass rows value
                                     (zeros (length rows)) l)) ls).
Proof.
  induction ls as [|l ls IH]; intros a Hlen Hdis Hz; simpl.
  - lra.
  - destruct Hdis as [Hl Hdis].
    rewrite IH; [| now rewrite layer_pass_length | exact Hdis |].
    + rewrite layer_pass_sum; [lra | exact Hlen |].
      intros j Hj. apply (Hz l j); [now left | exact Hj].
    + intros l' j Hl' Hj. rewrite layer_pass_nth_notin.
      * apply (Hz l' j); [now right | exact Hj].
      * intros Hin. exact (Hl j l' Hin Hl' Hj).
Qed.

End LayerPasses.

Lemma shaft_pass_layer_pass (rows : list MeshRow) (a b : list Q)
    (l : Layer.t) :
  shaft_pass rows (surface_outside rows) (surface_inside rows) (a, b) l
  = (layer_pass rows (shaft_out_of rows) a l,
     layer_pass rows (shaft_in_of rows) b l).
Proof.
  unfold layer_pass, shaft_out_of, shaft_in_of.
  destruct (Layer.axial_model l) as [am|] eqn:Ham.
  - now apply shaft_pass_scatter.
  - unfold shaft_pass. now rewrite Ham.
Qed.

Lemma shaft_passes_layer_passes (rows : list MeshRow) (ls : list Layer.t) :
  forall a b : list Q,
    fold_left (shaft_pass rows (surface_outside rows) (surface_inside rows))
              ls (a, b)
    = (fold_left (layer_pass rows (shaft_out_of rows)) ls a,
       fold_left (layer_pass rows (shaft_in_of rows)) ls b).
Proof.
  induction ls as [|l ls IH]; intros a b; [reflexivity|].
  simpl. rewrite shaft_pass_layer_pass. apply IH.
Qed.

Lemma zeros_invariant (rows : list MeshRow) (ls : list Layer.t) :
  forall l j, In l ls -> In j (elements_for_layer rows l) ->
              nth j (zeros (length rows)) 0 == 0.
Proof. intros. now rewrite nth_zeros. Qed.

Section TotalsByLayer.
Variable get_all_properties : Mapper.

(** When no element lies within two layers, [entrapped_soil_weight] is the
    sum of the contributions of the layers. *)
Lemma entrapped_soil_weight_by_layer (pile : Pile) (sp : SoilProfile.t) :
  let rows := mesh get_all_properties pile (Some sp) in
  disjoint_layers rows (SoilProfile.layers sp) ->
  exists w,
    entrapped_soil_weight get_all_properties pile (Some sp) = Ok w
    /\ w == Qsum (map (layer_soil_weight rows (SoilProfile.water_line sp))
                      (SoilProfile.layers sp)).
Proof.
  intros rows Hdis. eexists. split; [reflexivity|].
  fold rows.
  change (fold_left _ (SoilProfile.layers sp) (zeros (length rows)))
    with (fold_left
            (layer_pass rows
               (fun l => Some (soil_weight_at (SoilProfile.water_line sp) l
                                 (inside_volume rows) (map elevation rows))))
            (SoilProfile.layers sp) (zeros (length rows))).
  rewrite layer_passes_sum;
    [| unfold zeros; apply repeat_length | exact Hdis
     | apply zeros_invariant ].
  rewrite Qsum_zeros. unfold layer_soil_weight, soil_weight_pass, layer_pass.
  lra.
Qed.

(** When no element lies within two layers, [shaft_resistance] is the sum of
    the contributions of the layers. *)
Lemma shaft_resistance_by_layer (pile : Pile) (sp : SoilProfile.t)
    (outer_shaft inner_shaft : bool) :
  let rows := mesh get_all_properties pile (Some sp) in
  disjoint_layers rows (SoilProfile.layers sp) ->
  exists sr,
    shaft_resistance get_all_properties pile (Some sp) outer_shaft inner_shaft
    = Ok sr
    /\ sr == Qsum (map (layer_shaft_resistance rows outer_shaft inner_shaft)
                       (SoilProfile.layers sp)).
Proof.
  intros rows Hdis. eexists. split; [reflexivity|].
  fold rows. unfold _pile_element_surface. fold rows. cbn [fst snd].
  rewrite shaft_passes_layer_passes. cbn [fst snd].
  assert (Hout := layer_passes_sum rows (shaft_out_of rows)
                    (SoilProfile.layers sp) (zeros (length rows))
                    (repeat_length _ _) Hdis (zeros_invariant rows _)).
  assert (Hin := layer_passes_sum rows (shaft_in_of rows)
                   (SoilProfile.layers sp) (zeros (length rows))
                   (repeat_length _ _) Hdis (zeros_invariant rows _)).
  rewrite Qsum_zeros in Hout, Hin.
  assert (Hl : forall l,
            layer_shaft_resistance rows outer_shaft inner_shaft l
            == (if outer_shaft
                then Qsum (layer_pass rows (shaft_out_of rows)
                                      (zeros (length rows)) l)
                else 0)
               + (if inner_shaft
                  then Qsum (layer_pass rows (shaft_in_of rows)
                                        (zeros (length rows)) l)
                  else 0)).
  { intros l. unfold layer_shaft_resistance.
    rewrite shaft_pass_layer_pass. cbn [fst snd].
    destruct outer_shaft, inner_shaft; rewrite ?Qsum_zeros; reflexivity. }
  rewrite (Qsum_map_ext _ _ _ (fun l _ => Hl l)), Qsum_map_plus.
  destruct outer_shaft, inner_shaft; cbv beta iota;
    rewrite ?Hout, ?Hin, ?Qsum_zeros, ?Qsum_map_zero; lra.
Qed.

End TotalsByLayer.

(** C5 (amended): on a fixed mesh, doubling the unit weight of a layer
    doubles the contribution of its elements that take the full unit weight,
    while an element whose unit weight is reduced by 10 goes from
    [(w - 10) * V] to [(2 * w - 10) * V]: the layer's contribution to
    [entrapped_soil_weight] becomes twice the old one plus 10 times the
    inner volume of the reduced elements.  Doubling the friction multiplier
    [t_multiplier] of the layer's axial model doubles the layer's
    contribution to [shaft_resistance]. *)
Theorem layer_contributions_doubled (rows : list MeshRow) (water_line : Q)
    (outer_shaft inner_shaft : bool) (layer : Layer.t) (am : AxialModel) :
  Layer.axial_model layer = Some am ->
  layer_soil_weight rows water_line
    (with_weight (2 * Layer.weight layer) layer)
  == 2 * layer_soil_weight rows water_line layer
     + 10 * reduced_volume rows water_line layer
  /\ (reduced_elements rows water_line layer = [] ->
      layer_soil_weight rows water_line
        (with_weight (2 * Layer.weight layer) layer)
      == 2 * layer_soil_weight rows water_line layer)
  /\ layer_shaft_resistance rows outer_shaft inner_shaft
       (with_axial_model (Some (with_t_multiplier (2 * t_multiplier am) am))
                         layer)
     == 2 * layer_shaft_resistance rows outer_shaft inner_shaft layer.
Proof.
  intros Ham. split; [|split].
  - apply soil_weight_doubled.
  - intros Hnone. rewrite soil_weight_doubled.
    unfold reduced_volume. rewrite Hnone. simpl. ring.
  - now apply shaft_resistance_doubled.
Qed.

Lemma layer_contributions_doubled_witness :
  let rows := example_mapper example_pile (Some example_soil) None (1 # 10) in
  layer_soil_weight rows 0 (with_weight (2 * 18) example_layer)
  == 2 * layer_soil_weight rows 0 example_layer
  /\ layer_shaft_resistance rows true true
       (with_axial_model (Some (with_t_multiplier (2 * 1) example_axial))
                         example_layer)
     == 2 * layer_shaft_resistance rows true true example_layer.
Proof.
  intros rows.
  destruct (layer_contributions_doubled rows 0 true true example_layer
              example_axial eq_refl) as (_ & Hw & Hs).
  split; [apply Hw; reflexivity | exact Hs].
Defined.

(** C5 as stated fails: in the drained profile every element of the layer
    has its unit weight reduced by 10, and with the unit weight doubled from
    18 to 36 neither the layer's contribution nor [entrapped_soil_weight]
    itself is doubled. *)
Lemma soil_weight_not_doubled :
  let rows := example_mapper example_pile (Some dry_soil) None (1 # 10) in
  map elem_row (example_mapper example_pile (Some dry_heavy_soil) None (1 # 10))
  = map elem_row rows
  /\ ~ layer_soil_weight rows (-6) heavy_layer
       == 2 * layer_soil_weight rows (-6) example_layer
  /\ (exists w w2,
        entrapped_soil_weight example_mapper example_pile (Some dry_soil)
        = Ok w
        /\ entrapped_soil_weight example_mapper example_pile
                                 (Some dry_heavy_soil) = Ok w2
        /\ ~ w2 == 2 * w).
Proof.
  intros rows. split; [vm_compute; reflexivity|]. split.
  - vm_compute. discriminate.
  - eexists. eexists. split; [reflexivity|]. split; [reflexivity|].
    vm_compute. discriminate.
Qed.

(* --------------------------------------------------------------------- *)
(** ** Sections and derived pile properties                               *)
(* --------------------------------------------------------------------- *)

Lemma m_pi_pos : 0 < m_pi.
Proof. reflexivity. Qed.

Lemma Qsquare_nonneg (x : Q) : 0 <= x * x.
Proof.
  destruct (Qlt_le_dec x 0) as [Hneg|Hpos].
  - assert (E : x * x == (- x) * (- x)) by ring.
    rewrite E. apply Qmult_le_0_compat; lra.
  - apply Qmult_le_0_compat; lra.
Qed.

Lemma get_area_factored (s : CircularPileSection) :
  get_area s == thickness s * (diameter s - thickness s) * m_pi.
Proof. unfold get_area. field. Qed.

Lemma get_footprint_minus_area (s : CircularPileSection) :
  get_footprint s - get_area s
  == (diameter s - 2 * thickness s) * (diameter s - 2 * thickness s)
     * (m_pi / 4).
Proof. unfold get_area, get_footprint. field. Qed.

Lemma CircularPileSection_init_ok (top bottom d : Q) (t : option Q)
    (s : CircularPileSection) :
  CircularPileSection_init top bottom d t = Ok s ->
  0 < d /\ bottom < top
  /\ match t with Some th => 0 < th | None => True end
  /\ s = {| top_elevation := top; bottom_elevation := bottom;
            diameter := d;
            thickness := match t with Some th => th | None => d / 2 end |}.
Proof.
  unfold CircularPileSection_init.
  destruct (Qlt_bool 0 d) eqn:Hd; cbn [negb]; [|discriminate].
  apply Qlt_bool_iff in Hd.
  destruct t as [th|].
  - destruct (Qlt_bool 0 th) eqn:Hth; cbn [negb]; [|discriminate].
    apply Qlt_bool_iff in Hth.
    destruct (Qle_bool top bottom) eqn:Hb; [discriminate|].
    intros H. inversion H; subst. repeat split; auto.
    apply Qnot_le_lt. intros Hle. apply Qle_bool_iff in Hle. congruence.
  - destruct (Qle_bool top bottom) eqn:Hb; [discriminate|].
    intros H. inversion H; subst. repeat split; auto.
    apply Qnot_le_lt. intros Hle. apply Qle_bool_iff in Hle. congruence.
Qed.

(** X1: a section that [CircularPileSection(...)] accepts has a positive
    diameter and thickness and its bottom below its top; its steel area
    never exceeds its footprint, equals the footprint when the thickness is
    omitted (solid section), is non-negative when the thickness is at most
    the diameter and is negative when the thickness exceeds the diameter,
    which the constructor does not reject. *)
Theorem section_area_and_footprint (top bottom d : Q) (t : option Q)
    (s : CircularPileSection) :
  CircularPileSection_init top bottom d t = Ok s ->
  bottom_elevation s < top_elevation s
  /\ 0 < diameter s /\ 0 < thickness s
  /\ get_area s <= get_footprint s
  /\ (t = None -> get_area s == get_footprint s)
  /\ (thickness s <= diameter s -> 0 <= get_area s)
  /\ (diameter s < thickness s -> get_area s < 0).
Proof.
  intros H. apply CircularPileSection_init_ok in H.
  destruct H as (Hd & Hb & Ht & ->). cbn [top_elevation bottom_elevation
                                          diameter thickness].
  set (th := match t with Some th => th | None => d / 2 end).
  assert (Hth : 0 < th).
  { subst th. destruct t as [x|]; [exact Ht|].
    apply Qlt_shift_div_l; lra. }
  pose proof m_pi_pos as Hpi.
  split; [exact Hb|]. split; [exact Hd|]. split; [exact Hth|].
  set (s := {| top_elevation := top; bottom_elevation := bottom;
               diameter := d; thickness := th |}).
  split; [|split; [|split]].
  - pose proof (get_footprint_minus_area s) as E.
    cbn [diameter thickness s] in E.
    assert (Hsq : 0 <= (d - 2 * th) * (d - 2 * th) * (m_pi / 4)).
    { apply Qmult_le_0_compat.
      - apply Qsquare_nonneg.
      - apply Qlt_le_weak, Qlt_shift_div_l; lra. }
    lra.
  - intros ->. pose proof (get_footprint_minus_area s) as E.
    cbn [diameter thickness s] in E. subst th.
    assert (Hz : d - 2 * (d / 2) == 0) by field.
    rewrite Hz in E. lra.
  - intros Hle. rewrite get_area_factored. cbn [diameter thickness s].
    apply Qmult_le_0_compat; [|lra].
    apply Qmult_le_0_compat; lra.
  - intros Hlt. rewrite get_area_factored. cbn [diameter thickness s].
    assert (Hpos : 0 < th * (th - d) * m_pi).
    { apply Qmult_lt_0_compat; [|exact Hpi].
      apply Qmult_lt_0_compat; lra. }
    assert (E : th * (d - th) * m_pi == - (th * (th - d) * m_pi)) by ring.
    lra.
Qed.

Lemma section_area_and_footprint_witness :
  exists s,
    CircularPileSection_init 0 (-10) 2 None = Ok s
    /\ get_area s == get_footprint s
    /\ 0 <= get_area s.
Proof.
  eexists. split; [reflexivity|].
  match goal with
  | |- get_area ?s == _ /\ _ =>
      destruct (section_area_and_footprint 0 (-10) 2 None s eq_refl)
        as (_ & _ & _ & _ & Hsolid & Hpos & _)
  end.
  split; [apply Hsolid; reflexivity|]. apply Hpos. vm_compute. discriminate.
Defined.

Lemma sections_connect_inv (rest : list CircularPileSection) :
  forall i previous,
    sections_connect i previous rest = Ok tt -> connected previous rest.
Proof.
  induction rest as [|segment rest IH]; intros i previous H; simpl in *;
    [exact I|].
  destruct (Qeq_bool (top_elevation segment) (bottom_elevation previous)) eqn:E;
    cbn [negb] in H; [|discriminate].
  split; [now apply Qeq_bool_iff | now apply (IH (S i))].
Qed.

Lemma Pile_init_inv (steel concrete : PileMaterial) (name : string)
    (sections : list CircularPileSection) (m : MaterialArg) (p : Pile) :
  Pile_init steel concrete name sections m = Ok p ->
  pile_sections p = by_descending_top sections
  /\ contiguous (pile_sections p).
Proof.
  unfold Pile_init, pile_sections_must_not_overlap.
  fold (by_descending_top sections).
  destruct (by_descending_top sections) as [|first rest] eqn:E;
    cbn [mbind result_bind].
  - intros H. inversion H; subst. cbn. split; [reflexivity | exact I].
  - destruct (sections_connect 1 first rest) as [[]|e] eqn:Hc;
      cbn [mbind result_bind]; [|discriminate].
    intros H. inversion H; subst. cbn. split; [reflexivity|].
    now apply sections_connect_inv in Hc.
Qed.

Lemma breakpoints_descend (rest : list CircularPileSection) :
  forall previous,
    connected previous rest ->
    Forall (fun s => bottom_elevation s < top_elevation s) rest ->
    Forall (fun x => x <= bottom_elevation previous) (breakpoints rest)
    /\ StronglySorted (fun a b => b <= a) (breakpoints rest).
Proof.
  induction rest as [|segment rest IH]; intros previous Hc Hv; simpl.
  - split; constructor.
  - destruct Hc as [Heq Hc]. inversion Hv as [|? ? Hseg Hrest]; subst.
    destruct (IH segment Hc Hrest) as [Hle Hs].
    unfold get_top_elevation, get_bottom_elevation.
    split.
    + constructor; [lra|]. constructor; [lra|].
      eapply Forall_impl; [exact Hle|]. intros x Hx. simpl in Hx. lra.
    + constructor.
      * constructor; [exact Hs|exact Hle].
      * constructor; [lra|].
        eapply Forall_impl; [exact Hle|]. intros x Hx. simpl in Hx. lra.
Qed.

Lemma twice_length {A : Type} (f : CircularPileSection -> A)
    (sections : list CircularPileSection) :
  length (twice f sections) = (2 * length sections)%nat.
Proof.
  unfold twice. induction sections as [|s l IH]; simpl; [reflexivity|].
  rewrite IH. lia.
Qed.

Lemma breakpoints_length (sections : list CircularPileSection) :
  length (breakpoints sections) = (2 * length sections)%nat.
Proof.
  unfold breakpoints. induction sections as [|s l IH]; simpl; [reflexivity|].
  rewrite IH. lia.
Qed.

(** X2: for a pile that [Pile(...)] accepts, built from N sections whose
    bottom is below their top, every column of [Pile.data] has 2 N entries
    and the elevation column never increases from one row to the next. *)
Theorem pile_data_breakpoints (steel concrete : PileMaterial) (name : string)
    (sections : list CircularPileSection) (m : MaterialArg) (p : Pile) :
  Forall (fun s => bottom_elevation s < top_elevation s) sections ->
  Pile_init steel concrete name sections m = Ok p ->
  let n := (2 * length sections)%nat in
  length (data_Elevation (pile_data p)) = n
  /\ length (data_Diameter (pile_data p)) = n
  /\ length (data_Wall_thickness (pile_data p)) = n
  /\ length (data_Area (pile_data p)) = n
  /\ length (data_I (pile_data p)) = n
  /\ StronglySorted (fun a b => b <= a) (data_Elevation (pile_data p)).
Proof.
  intros Hvalid Hinit n. destruct (Pile_init_inv _ _ _ _ _ _ Hinit) as [Hs Hc].
  assert (Hlen : length (pile_sections p) = length sections).
  { rewrite Hs. symmetry. apply Permutation_length, sorted_by_perm. }
  assert (Hv : Forall (fun s => bottom_elevation s < top_elevation s)
                      (pile_sections p)).
  { rewrite Hs. eapply Permutation_Forall; [apply sorted_by_perm|exact Hvalid]. }
  unfold pile_data. cbn [data_Elevation data_Diameter data_Wall_thickness
                         data_Area data_I].
  subst n. rewrite <- Hlen.
  split; [apply breakpoints_length|].
  repeat (split; [apply twice_length|]).
  fold (breakpoints (pile_sections p)).
  destruct (pile_sections p) as [|first rest]; [constructor|].
  inversion Hv as [|? ? Hfirst Hrest]; subst.
  destruct (breakpoints_descend rest first Hc Hrest) as [Hle Hsorted].
  cbn [breakpoints flat_map app]. fold (breakpoints rest).
  unfold get_top_elevation, get_bottom_elevation.
  constructor.
  - constructor; [exact Hsorted|exact Hle].
  - constructor; [lra|].
    eapply Forall_impl; [exact Hle|]. intros x Hx. simpl in Hx. lra.
Qed.

Lemma pile_data_breakpoints_witness :
  exists p,
    Pile_init steel_78 steel_78 "P" [section_lower; section_upper] Steel = Ok p
    /\ data_Elevation (pile_data p) = [0; -10; -10; -20]
    /\ StronglySorted (fun a b => b <= a) (data_Elevation (pile_data p)).
Proof.
  eexists. split; [reflexivity|]. split; [reflexivity|].
  match goal with
  | |- StronglySorted _ (data_Elevation (pile_data ?p)) =>
      apply (pile_data_breakpoints steel_78 steel_78 "P"
               [section_lower; section_upper] Steel p)
  end.
  - repeat constructor.
  - reflexivity.
Defined.

Lemma Qsum_perm (l l' : list Q) : Permutation l l' -> Qsum l == Qsum l'.
Proof.
  induction 1 as [|x l l' _ IH|x y l|l l' l'' _ IH1 _ IH2]; simpl.
  - reflexivity.
  - now rewrite IH.
  - ring.
  - now rewrite IH1.
Qed.

Lemma connected_telescopes (rest : list CircularPileSection) :
  forall previous,
    connected previous rest ->
    exists final,
      last (previous :: rest) = Some final
      /\ top_elevation previous - bottom_elevation final
         == Qsum (map get_length (previous :: rest)).
Proof.
  induction rest as [|segment rest IH]; intros previous Hc.
  - exists previous. split; [reflexivity|]. unfold get_length. simpl. ring.
  - destruct Hc as [Heq Hc]. destruct (IH segment Hc) as (final & Hlast & Hsum).
    exists final. split.
    + rewrite <- Hlast. reflexivity.
    + change (map get_length (previous :: segment :: rest))
        with (get_length previous :: map get_length (segment :: rest)).
      cbn [Qsum fold_right]. fold (Qsum (map get_length (segment :: rest))).
      rewrite <- Hsum. unfold get_length. lra.
Qed.

(** X3: for a pile that [Pile(...)] accepts, [Pile.length] (top of the first
    section minus bottom of the last) is the sum of the lengths of the
    sections given; a pile without sections is accepted too, and then
    [Pile.length], [Pile.tip_area] and [Pile.tip_footprint] raise
    [IndexError]. *)
Theorem pile_length_is_sum (steel concrete : PileMaterial) (name : string)
    (sections : list CircularPileSection) (m : MaterialArg) (p : Pile) :
  Pile_init steel concrete name sections m = Ok p ->
  (sections <> [] ->
   exists len, pile_length p = Ok len
               /\ len == Qsum (map get_length sections))
  /\ (sections = [] ->
      pile_length p = Raise (IndexError "list index out of range")
      /\ tip_area p = Raise (IndexError "list index out of range")
      /\ tip_footprint p = Raise (IndexError "list index out of range")).
Proof.
  intros Hinit. destruct (Pile_init_inv _ _ _ _ _ _ Hinit) as [Hs Hc].
  split.
  - intros Hne.
    assert (Hperm : Permutation sections (pile_sections p))
      by (rewrite Hs; apply sorted_by_perm).
    unfold pile_length, pile_top_elevation, pile_bottom_elevation, last_section.
    destruct (pile_sections p) as [|first rest] eqn:E.
    + apply Permutation_sym, Permutation_nil in Hperm. contradiction.
    + destruct (connected_telescopes rest first Hc) as (final & Hlast & Hsum).
      rewrite Hlast. cbn [mbind result_bind].
      eexists. split; [reflexivity|].
      unfold get_top_elevation, get_bottom_elevation. rewrite Hsum.
      apply Qsum_perm, Permutation_map, Permutation_sym, Hperm.
  - intros ->. unfold Pile_init in Hinit. cbn in Hinit.
    inversion Hinit; subst. repeat split; reflexivity.
Qed.

Lemma pile_length_is_sum_witness :
  exists p len,
    Pile_init steel_78 steel_78 "P" [section_lower; section_upper] Steel = Ok p
    /\ pile_length p = Ok len
    /\ len == 10 + 10.
Proof.
  eexists. 
  match goal with
  | |- exists len, Pile_init ?a ?b ?n ?l ?m = Ok ?p /\ _ =>
      destruct (pile_length_is_sum a b n l m
                  {| pile_name := "P";
                     pile_sections := [section_upper; section_lower];
                     material := steel_78 |} eq_refl) as [H _]
  end.
  destruct H as (len & Hlen & Hsum); [discriminate|].
  exists len. split; [reflexivity|]. split; [exact Hlen|].
  rewrite Hsum. vm_compute. reflexivity.
Defined.

Lemma Qlt_bool_false (a b : Q) : Qlt_bool a b = false <-> b <= a.
Proof.
  unfold Qlt_bool. rewrite negb_false_iff. apply Qle_bool_iff.
Qed.

(** X4: [Pile.create_tubular] succeeds exactly when the diameter and the
    wall thickness are positive and the bottom is below the top, and raises
    a [ValueError] otherwise; the pile it returns has the one section asked
    for, the length [top - bottom] and the two breakpoints [top], [bottom]. *)
Theorem create_tubular_spec (steel concrete : PileMaterial) (name : string)
    (top bottom d wt : Q) (m : MaterialArg) :
  let section := {| top_elevation := top; bottom_elevation := bottom;
                    diameter := d; thickness := wt |} in
  (0 < d /\ 0 < wt /\ bottom < top ->
   exists p,
     create_tubular steel concrete name top bottom d wt m = Ok p
     /\ pile_sections p = [section]
     /\ pile_length p = Ok (top - bottom)
     /\ tip_area p = Ok (get_area section)
     /\ data_Elevation (pile_data p) = [top; bottom])
  /\ (~ (0 < d /\ 0 < wt /\ bottom < top) ->
      exists msg,
        create_tubular steel concrete name top bottom d wt m
        = Raise (ValueError msg)).
Proof.
  intros section. unfold create_tubular, CircularPileSection_init. split.
  - intros (Hd & Hwt & Hb).
    apply Qlt_bool_iff in Hd, Hwt. rewrite Hd, Hwt. cbn [negb].
    replace (Qle_bool top bottom) with false.
    + eexists. split; [reflexivity|]. repeat split; reflexivity.
    + symmetry. apply not_true_is_false. intros H.
      apply Qle_bool_iff in H. lra.
  - intros Hno.
    destruct (Qlt_bool 0 d) eqn:Hd; cbn [negb]; [|eexists; reflexivity].
    destruct (Qlt_bool 0 wt) eqn:Hwt; cbn [negb]; [|eexists; reflexivity].
    destruct (Qle_bool top bottom) eqn:Hb; [eexists; reflexivity|].
    exfalso. apply Hno. apply Qlt_bool_iff in Hd, Hwt.
    repeat split; try assumption.
    apply Qnot_le_lt. intros Hle. apply Qle_bool_iff in Hle. congruence.
Qed.

Lemma create_tubular_spec_witness :
  exists p,
    create_tubular steel_78 steel_78 "tube" 0 (-40) (75 # 10) (7 # 100) Steel
    = Ok p
    /\ pile_length p = Ok (0 - -40).
Proof.
  destruct (create_tubular_spec steel_78 steel_78 "tube" 0 (-40) (75 # 10)
              (7 # 100) Steel) as [H _].
  destruct H as (p & Hp & _ & Hlen & _).
  - repeat split; reflexivity.
  - exists p. split; assumption.
Defined.

(* --------------------------------------------------------------------- *)
(** ** More on the axial capacity engine                                  *)
(* --------------------------------------------------------------------- *)

Lemma weight_split (gamma water_line : Q) (rows : list MeshRow) :
  Qsum (map (fun r =>
               let V := elem_L r * Area (elem_row r) in
               if Qlt_bool (elem_x_bottom (elem_row r)) water_line
               then V * (gamma - 10) else V * gamma) rows)
  == gamma * Qsum (map element_volume rows)
     - 10 * Qsum (map element_volume (List.filter (submerged water_line) rows)).
Proof.
  rewrite <- Qsum_map_filter.
  rewrite (Qsum_map_ext _
             (fun r => gamma * element_volume r
                       + (-10) * (if submerged water_line r
                                  then element_volume r else 0))).
  - rewrite (Qsum_map_plus (fun r => gamma * element_volume r)).
    rewrite !Qsum_map_scale. ring.
  - intros r _. unfold submerged, element_volume. cbv zeta.
    destruct (Qlt_bool (elem_x_bottom (elem_row r)) water_line); ring.
Qed.

Section MoreCalculateFacts.
Variable get_all_properties : Mapper.
Variable m_sqrt : Q -> Q.

(** X5: with a soil profile, [effective_pile_weight] is the unit weight of
    the pile material times the steel volume of all elements, minus 10 times
    the steel volume of the elements whose bottom is below the water line. *)
Theorem effective_pile_weight_buoyancy (pile : Pile) (sp : SoilProfile.t) :
  let rows := mesh get_all_properties pile (Some sp) in
  exists w,
    effective_pile_weight get_all_properties pile (Some sp) = Ok w
    /\ w == unitweight (material pile) * Qsum (map element_volume rows)
            - 10 * Qsum (map element_volume
                           (List.filter (submerged (SoilProfile.water_line sp))
                                        rows)).
Proof.
  intros rows. eexists. split; [reflexivity|]. apply weight_split.
Qed.

(** X6: the two flags of [shaft_resistance] split it: with both on it
    returns the sum of the outer-only and the inner-only value, and with
    both off it returns zero. *)
Theorem shaft_resistance_flags (pile : Pile) (sp : SoilProfile.t) :
  exists both outer inner none,
    shaft_resistance get_all_properties pile (Some sp) true true = Ok both
    /\ shaft_resistance get_all_properties pile (Some sp) true false = Ok outer
    /\ shaft_resistance get_all_properties pile (Some sp) false true = Ok inner
    /\ shaft_resistance get_all_properties pile (Some sp) false false = Ok none
    /\ both == outer + inner
    /\ none == 0.
Proof.
  do 4 eexists. repeat (split; [reflexivity|]).
  unfold _pile_element_surface. cbn [fst snd].
  split; rewrite ?Qsum_zeros; ring.
Qed.

End MoreCalculateFacts.

Lemma foldM_app {S A : Type} (body : S -> A -> result S) (xs ys : list A) :
  forall s, foldM body (xs ++ ys) s = (s' ← foldM body xs s; foldM body ys s').
Proof.
  induction xs as [|x xs IH]; intros s; simpl; [reflexivity|].
  destruct (body s x) as [s1|e]; cbn [mbind result_bind]; [apply IH|reflexivity].
Qed.

Section EndBearingFacts.
Variable get_all_properties : Mapper.
Variables (pile : Pile) (sp : SoilProfile.t) (pb : Q) (tip_row : MeshRow).
Hypothesis Hpb : pile_bottom_elevation pile = Ok pb.
Hypothesis Hrow : last (mesh get_all_properties pile (Some sp)) = Some tip_row.

Let rows := mesh get_all_properties pile (Some sp).

Lemma end_bearing_step_cases (q : option pyvalue) (l : Layer.t) :
  end_bearing_step pile sp rows q l
  = match Layer.axial_model l with
    | None => Ok (Some (Number (PyFloat 0)))
    | Some am =>
        if holds_tip pb l
        then v ← tip_value sp tip_row l am; Ok (Some v)
        else Ok q
    end.
Proof.
  unfold end_bearing_step, holds_tip, tip_value.
  destruct (Layer.axial_model l) as [am|]; [|reflexivity].
  rewrite Hpb. cbn [mbind result_bind].
  destruct (Qle_bool pb (Layer.top l) && Qle_bool (Layer.bottom l) pb);
    [|reflexivity].
  unfold rows. rewrite Hrow.
  destruct (unit_tip_resistance am _ _ _) as [tip|e];
    cbn [mbind result_bind]; reflexivity.
Qed.

Lemma end_bearing_total (ls : list Layer.t) :
  Forall (turn_returns sp tip_row pb) ls ->
  forall q, exists q', foldM (end_bearing_step pile sp rows) ls q = Ok q'.
Proof.
  induction 1 as [|l ls Hl _ IH]; intros q; simpl; [now exists q|].
  rewrite end_bearing_step_cases.
  destruct (Layer.axial_model l) as [am|] eqn:Ham;
    cbn [mbind result_bind]; [|apply IH].
  destruct (holds_tip pb l) eqn:Htip; cbn [mbind result_bind]; [|apply IH].
  destruct (Hl am Ham Htip) as [v Hv]. rewrite Hv.
  cbn [mbind result_bind]. apply IH.
Qed.

Lemma end_bearing_passes_by (ls : list Layer.t) :
  Forall (passes_by pb) ls ->
  forall q, foldM (end_bearing_step pile sp rows) ls q = Ok q.
Proof.
  induction 1 as [|l ls [Ham Htip] _ IH]; intros q; simpl; [reflexivity|].
  rewrite end_bearing_step_cases.
  destruct (Layer.axial_model l) as [am|]; [|congruence].
  rewrite Htip. cbn [mbind result_bind]. apply IH.
Qed.

(** X7: [unit_end_bearing] returns what the last layer of the list that
    either has no axial model or holds the pile tip assigns, when the turns
    of the layers before it raise nothing: 0.0 for a layer without axial
    model, wherever the tip is; for a layer with an axial model that holds
    the tip, what [unit_tip_resistance] returns for the 1-tuple of the
    stress at the tip, times [Q_multiplier], and the exception if that
    raises.  When every layer has an axial model and none holds the tip, no
    layer assigns and the function raises [UnboundLocalError]. *)
Theorem unit_end_bearing_last_assignment (pre post : list Layer.t)
    (l : Layer.t) :
  (SoilProfile.layers sp = (pre ++ l :: post)%list ->
   Forall (turn_returns sp tip_row pb) pre ->
   Forall (passes_by pb) post ->
   (Layer.axial_model l = None ->
    unit_end_bearing get_all_properties pile (Some sp)
    = Ok (Number (PyFloat 0)))
   /\ (forall am, Layer.axial_model l = Some am -> holds_tip pb l = true ->
       unit_end_bearing get_all_properties pile (Some sp)
       = tip_value sp tip_row l am))
  /\ (Forall (passes_by pb) (SoilProfile.layers sp) ->
      unit_end_bearing get_all_properties pile (Some sp)
      = Raise (UnboundLocalError "q")).
Proof.
  unfold unit_end_bearing. cbn [soil_attr mbind result_bind]. fold rows.
  split.
  - intros Hlayers Hpre Hpost. rewrite Hlayers, foldM_app.
    destruct (end_bearing_total pre Hpre None) as [q0 Hq0]. rewrite Hq0.
    cbn [mbind result_bind foldM]. rewrite end_bearing_step_cases.
    split.
    + intros Ham. rewrite Ham. cbn [mbind result_bind].
      now rewrite (end_bearing_passes_by post Hpost).
    + intros am Ham Htip. rewrite Ham, Htip.
      destruct (tip_value sp tip_row l am) as [v|e];
        cbn [mbind result_bind]; [|reflexivity].
      now rewrite (end_bearing_passes_by post Hpost).
  - intros Hall. now rewrite (end_bearing_passes_by _ Hall).
Qed.

End EndBearingFacts.

Lemma unit_end_bearing_last_assignment_witness :
  exists x,
    unit_end_bearing example_mapper example_pile (Some lower_first)
    = Ok (Tuple (repeat (PyFloat x) 40))
    /\ x == 8.
Proof.
  assert (Hrow : exists r,
            last (mesh example_mapper example_pile (Some lower_first)) = Some r
            /\ sigma_v_bottom (soil_row r) == 8).
  { eexists. split; [vm_compute; reflexivity|]. vm_compute. reflexivity. }
  destruct Hrow as (r & Hrow & Hsig).
  destruct (unit_end_bearing_last_assignment example_mapper example_pile
              lower_first (-1) r eq_refl Hrow [lower_layer] [] upper_layer)
    as [H _].
  destruct (H eq_refl) as [_ Htip].
  - constructor; [|constructor]. intros am Ham. discriminate Ham.
  - constructor.
  - exists (sigma_v_bottom (soil_row r)). split; [|exact Hsig].
    rewrite (Htip example_axial eq_refl eq_refl). reflexivity.
Defined.

Lemma square_below (d : Q) :
  0 < d -> (d * d < 196 # 100 <-> d < 14 # 10).
Proof.
  intros Hd. split; intros H.
  - apply Qnot_le_lt. intros Hle.
    assert (H1 : (14 # 10) * (14 # 10) <= d * d).
    { apply Qle_trans with ((14 # 10) * d).
      - apply Qmult_le_l; [reflexivity | exact Hle].
      - apply Qmult_le_r; [exact Hd | exact Hle]. }
    assert (E : (14 # 10) * (14 # 10) == 196 # 100) by reflexivity.
    lra.
  - assert (H1 : d * d < (14 # 10) * d).
    { apply Qmult_lt_r; [exact Hd | exact H]. }
    assert (H2 : (14 # 10) * d < (14 # 10) * (14 # 10)).
    { apply Qmult_lt_l; [reflexivity | exact H]. }
    assert (E : (14 # 10) * (14 # 10) == 196 # 100) by reflexivity.
    lra.
Qed.

Lemma newton_sqrt_threshold (x : Q) :
  0 <= x -> (newton_sqrt x < 14 # 10 <-> x < 196 # 100).
Proof. intros _. unfold newton_sqrt. split; intros H; lra. Qed.

(** X8: with method "ICP-05" the soil and the kind play no part: for a pile
    whose last section has a positive diameter, and a square root that is
    below 1.4 exactly for arguments below 1.96, [isplugged] returns [True]
    exactly when the diameter at the tip is below 1.4. *)
Theorem isplugged_ICP05_diameter (get_all_properties : Mapper)
    (m_sqrt : Q -> Q) (pile : Pile) (soil : option SoilProfile.t)
    (kind : string) (s : CircularPileSection) :
  last_section pile = Ok s ->
  0 < diameter s ->
  (forall x, 0 <= x -> (m_sqrt x < 14 # 10 <-> x < 196 # 100)) ->
  exists b,
    isplugged get_all_properties m_sqrt pile soil "ICP-05" kind = Ok b
    /\ (b = true <-> diameter s < 14 # 10).
Proof.
  intros Hlast Hd Hsqrt. unfold isplugged, tip_footprint.
  cbn [String.eqb Ascii.eqb Bool.eqb]. rewrite Hlast. cbn [mbind result_bind].
  eexists. split; [reflexivity|].
  set (x := 4 * get_footprint s / m_pi).
  assert (Hx : x == diameter s * diameter s).
  { subst x. unfold get_footprint. field. discriminate. }
  assert (Hx0 : 0 <= x).
  { rewrite Hx. apply Qsquare_nonneg. }
  destruct (Qlt_bool (m_sqrt x) (14 # 10)) eqn:E.
  - apply Qlt_bool_iff, (Hsqrt x Hx0) in E. rewrite Hx in E.
    apply (square_below _ Hd) in E. tauto.
  - split; [discriminate|]. intros Hlt.
    apply (square_below _ Hd) in Hlt. rewrite <- Hx in Hlt.
    apply (Hsqrt x Hx0), Qlt_bool_iff in Hlt. congruence.
Qed.

Lemma isplugged_ICP05_diameter_witness :
  isplugged example_mapper newton_sqrt example_pile None "ICP-05" "tension"
  = Ok false.
Proof.
  destruct (isplugged_ICP05_diameter example_mapper newton_sqrt example_pile
              None "tension" _ eq_refl eq_refl newton_sqrt_threshold)
    as (b & Hb & Hiff).
  rewrite Hb. destruct b; [|reflexivity].
  exfalso. assert (H : true = true) by reflexivity.
  apply Hiff in H. vm_compute in H. discriminate.
Defined.

Lemma disjoint_layers_perm (rows : list MeshRow) (ls ls' : list Layer.t) :
  Permutation ls ls' -> disjoint_layers rows ls -> disjoint_layers rows ls'.
Proof.
  induction 1 as [|x l l' Hp IH|x y l|l l' l'' _ IH1 _ IH2]; intros H.
  - exact I.
  - destruct H as [Hx Hl]. split; [|now apply IH].
    intros i l0 Hi Hl0. apply (Hx i l0 Hi).
    eapply Permutation_in; [apply Permutation_sym, Hp|exact Hl0].
  - destruct H as [Hy [Hx Hl]]. split; [|split].
    + intros i l0 Hi [<-|Hl0].
      * intros Hiy. apply (Hy i x Hiy (or_introl eq_refl) Hi).
      * now apply (Hx i l0).
    + intros i l0 Hi Hl0. apply (Hy i l0 Hi). now right.
    + exact Hl.
  - auto.
Qed.

Section OrderFacts.
Variable get_all_properties : Mapper.

(** X9: when no element of the mesh lies within two layers,
    [entrapped_soil_weight] is the sum over the layers, and over the
    elements within each layer, of the value the loop writes for the
    element, and [shaft_resistance] is the sum of the contributions of the
    layers. *)
Theorem capacity_sums_by_layer (pile : Pile) (sp : SoilProfile.t)
    (outer_shaft inner_shaft : bool) :
  let rows := mesh get_all_properties pile (Some sp) in
  disjoint_layers rows (SoilProfile.layers sp) ->
  exists w sr,
    entrapped_soil_weight get_all_properties pile (Some sp) = Ok w
    /\ w == Qsum (map (fun l =>
                         Qsum (map (soil_weight_at (SoilProfile.water_line sp)
                                      l (inside_volume rows)
                                      (map elevation rows))
                                   (elements_for_layer rows l)))
                      (SoilProfile.layers sp))
    /\ shaft_resistance get_all_properties pile (Some sp)
                        outer_shaft inner_shaft = Ok sr
    /\ sr == Qsum (map (layer_shaft_resistance rows outer_shaft inner_shaft)
                       (SoilProfile.layers sp)).
Proof.
  intros rows Hdis.
  destruct (entrapped_soil_weight_by_layer get_all_properties pile sp Hdis)
    as (w & Hw & Ew).
  destruct (shaft_resistance_by_layer get_all_properties pile sp
              outer_shaft inner_shaft Hdis) as (sr & Hsr & Esr).
  exists w, sr. repeat split; try assumption.
  rewrite Ew. apply Qsum_map_ext. intros l _. apply layer_soil_weight_sum.
Qed.

(** X10: [entrapped_soil_weight] and [shaft_resistance] do not depend on
    the order in which the layers are listed: two profiles with the same
    water line and the same layers in another order, mapped to the same
    mesh with no element within two layers, give equal values. *)
Theorem sums_ignore_layer_order (pile : Pile) (sp sp' : SoilProfile.t)
    (outer_shaft inner_shaft : bool) :
  Permutation (SoilProfile.layers sp) (SoilProfile.layers sp') ->
  SoilProfile.water_line sp' = SoilProfile.water_line sp ->
  mesh get_all_properties pile (Some sp')
  = mesh get_all_properties pile (Some sp) ->
  disjoint_layers (mesh get_all_properties pile (Some sp))
                  (SoilProfile.layers sp) ->
  exists w w' sr sr',
    entrapped_soil_weight get_all_properties pile (Some sp) = Ok w
    /\ entrapped_soil_weight get_all_properties pile (Some sp') = Ok w'
    /\ w' == w
    /\ shaft_resistance get_all_properties pile (Some sp)
                        outer_shaft inner_shaft = Ok sr
    /\ shaft_resistance get_all_properties pile (Some sp')
                        outer_shaft inner_shaft = Ok sr'
    /\ sr' == sr.
Proof.
  intros Hperm Hwl Hmesh Hdis.
  assert (Hdis' : disjoint_layers (mesh get_all_properties pile (Some sp'))
                                  (SoilProfile.layers sp')).
  { rewrite Hmesh. eapply disjoint_layers_perm; eauto. }
  destruct (entrapped_soil_weight_by_layer _ pile sp Hdis) as (w & Hw & Ew).
  destruct (entrapped_soil_weight_by_layer _ pile sp' Hdis') as (w' & Hw' & Ew').
  destruct (shaft_resistance_by_layer _ pile sp outer_shaft inner_shaft Hdis)
    as (sr & Hsr & Esr).
  destruct (shaft_resistance_by_layer _ pile sp' outer_shaft inner_shaft Hdis')
    as (sr' & Hsr' & Esr').
  exists w, w', sr, sr'. repeat split; try assumption.
  - rewrite Ew, Ew', Hmesh, Hwl.
    apply Qsum_perm, Permutation_map, Permutation_sym, Hperm.
  - rewrite Esr, Esr', Hmesh.
    apply Qsum_perm, Permutation_map, Permutation_sym, Hperm.
Qed.

End OrderFacts.

Lemma upper_lower_disjoint :
  disjoint_layers (mesh example_mapper example_pile (Some upper_first))
                  (SoilProfile.layers upper_first).
Proof.
  split; [|split; [|exact I]].
  - intros i l' _ [<-|[]]. vm_compute. tauto.
  - intros i l' _ [].
Qed.

Lemma capacity_sums_by_layer_witness :
  exists sr,
    shaft_resistance example_mapper example_pile (Some upper_first) true true
    = Ok sr
    /\ sr == Qsum (map (layer_shaft_resistance
                          (mesh example_mapper example_pile (Some upper_first))
                          true true)
                       [upper_layer; lower_layer]).
Proof.
  destruct (capacity_sums_by_layer example_mapper example_pile upper_first
              true true upper_lower_disjoint) as (w & sr & _ & _ & Hsr & Esr).
  exists sr. split; assumption.
Defined.

Lemma sums_ignore_layer_order_witness :
  exists w w',
    entrapped_soil_weight example_mapper example_pile (Some upper_first) = Ok w
    /\ entrapped_soil_weight example_mapper example_pile (Some lower_first)
       = Ok w'
    /\ w' == w.
Proof.
  destruct (sums_ignore_layer_order example_mapper example_pile
              upper_first lower_first true true)
    as (w & w' & _ & _ & Hw & Hw' & E & _).
  - apply perm_swap.
  - reflexivity.
  - vm_compute. reflexivity.
  - exact upper_lower_disjoint.
  - exists w, w'. repeat split; assumption.
Defined.

Lemma Qsum_nonneg (l : list Q) : Forall (fun x => 0 <= x) l -> 0 <= Qsum l.
Proof.
  induction 1 as [|x l Hx _ IH]; simpl; [lra|]. lra.
Qed.

Lemma scatter_Forall (P : Q -> Prop) (value : nat -> Q) (idxs : list nat) :
  (forall i, In i idxs -> P (value i)) ->
  forall a, Forall P a -> Forall P (scatter value idxs a).
Proof.
  induction idxs as [|i idxs IH]; intros Hv a Ha; [exact Ha|].
  change (scatter value (i :: idxs) a)
    with (scatter value idxs (<[i := value i]> a)).
  apply IH.
  - intros j Hj. apply Hv. now right.
  - apply Forall_insert; [exact Ha|]. apply Hv. now left.
Qed.

Lemma inside_volume_nonneg (rows : list MeshRow) :
  Forall (fun r => elem_x_bottom (elem_row r) <= elem_x_top (elem_row r)) rows ->
  forall i, 0 <= nth i (inside_volume rows) 0.
Proof.
  intros H i. unfold inside_volume.
  destruct (Nat.lt_ge_cases i (length rows)) as [Hlt|Hge].
  - rewrite (nth_indep _ 0 (area_inside default_row * elem_L default_row))
      by now rewrite length_map.
    rewrite (map_nth (fun r => area_inside r * elem_L r)).
    assert (Hin : In (nth i rows default_row) rows) by now apply nth_In.
    rewrite Forall_forall in H.
    specialize (H _ (proj2 (list_elem_of_In _ _) Hin)).
    apply Qmult_le_0_compat.
    + unfold area_inside.
      set (x := Diameter _ - 2 * Wall_thickness _).
      assert (E : x ^ 2 * m_pi / 4 == x * x * (m_pi / 4)) by field.
      rewrite E. apply Qmult_le_0_compat; [apply Qsquare_nonneg|].
      pose proof m_pi_pos. apply Qlt_le_weak, Qlt_shift_div_l; lra.
    + unfold elem_L. lra.
  - rewrite nth_overflow by now rewrite length_map. lra.
Qed.

Section SignFacts.
Variable get_all_properties : Mapper.

(** X11: [entrapped_soil_weight] is never negative when every layer has a
    unit weight of at least 10 (the layer constructor asks for more than 10)
    and no element of the mesh has its bottom above its top. *)
Theorem entrapped_soil_weight_nonneg (pile : Pile) (sp : SoilProfile.t) :
  Forall (fun l => 10 <= Layer.weight l) (SoilProfile.layers sp) ->
  Forall (fun r => elem_x_bottom (elem_row r) <= elem_x_top (elem_row r))
         (mesh get_all_properties pile (Some sp)) ->
  exists w,
    entrapped_soil_weight get_all_properties pile (Some sp) = Ok w
    /\ 0 <= w.
Proof.
  intros Hw Hrows. eexists. split; [reflexivity|].
  apply Qsum_nonneg.
  set (rows := mesh get_all_properties pile (Some sp)) in *.
  unfold _pile_inside_volume. fold rows.
  assert (Hz : Forall (fun x => 0 <= x) (zeros (length rows))).
  { unfold zeros. apply Forall_forall. intros x Hx.
    apply list_elem_of_In, repeat_spec in Hx. subst. lra. }
  revert Hz. generalize (zeros (length rows)).
  induction Hw as [|l ls Hl _ IH]; intros a Ha; [exact Ha|].
  cbn [fold_left]. apply IH. unfold soil_weight_pass.
  apply scatter_Forall; [|exact Ha].
  intros i _. unfold soil_weight_at, uw_water.
  pose proof (inside_volume_nonneg rows Hrows i) as Hv.
  destruct (Qle_bool _ _); apply Qmult_le_0_compat; lra.
Qed.

(** X12: in a profile where no layer has an axial model,
    [shaft_resistance] returns zero whatever the flags, and
    [unit_end_bearing] returns 0.0, for any pile, unless the profile has no
    layer at all, in which case it raises [UnboundLocalError]. *)
Theorem no_axial_model_no_resistance (pile : Pile) (sp : SoilProfile.t)
    (outer_shaft inner_shaft : bool) :
  Forall (fun l => Layer.axial_model l = None) (SoilProfile.layers sp) ->
  (exists sr,
     shaft_resistance get_all_properties pile (Some sp)
                      outer_shaft inner_shaft = Ok sr
     /\ sr == 0)
  /\ (SoilProfile.layers sp <> [] ->
      unit_end_bearing get_all_properties pile (Some sp)
      = Ok (Number (PyFloat 0)))
  /\ (SoilProfile.layers sp = [] ->
      unit_end_bearing get_all_properties pile (Some sp)
      = Raise (UnboundLocalError "q")).
Proof.
  intros Hnone. split; [|split].
  - eexists. split; [reflexivity|].
    unfold _pile_element_surface. cbn [fst snd].
    set (rows := mesh get_all_properties pile (Some sp)).
    assert (E : fold_left (shaft_pass rows (surface_outside rows)
                                      (surface_inside rows))
                          (SoilProfile.layers sp)
                          (zeros (length rows), zeros (length rows))
                = (zeros (length rows), zeros (length rows))).
    { generalize (zeros (length rows), zeros (length rows)).
      induction Hnone as [|l ls Hl _ IH]; intros fs; [reflexivity|].
      cbn [fold_left]. unfold shaft_pass at 2. rewrite Hl. apply IH. }
    rewrite E. cbn [fst snd].
    destruct outer_shaft, inner_shaft; rewrite !Qsum_zeros; ring.
  - intros Hne. unfold unit_end_bearing. cbn [soil_attr mbind result_bind].
    assert (E : forall q,
              foldM (end_bearing_step pile sp
                       (mesh get_all_properties pile (Some sp)))
                    (SoilProfile.layers sp) q
              = Ok (match SoilProfile.layers sp with
                    | [] => q
                    | _ => Some (Number (PyFloat 0))
                    end)).
    { clear Hne.
      induction Hnone as [|l ls Hl _ IH]; intros q; [reflexivity|].
      cbn [foldM]. unfold end_bearing_step at 2. rewrite Hl.
      cbn [mbind result_bind]. rewrite IH. now destruct ls. }
    rewrite E. destruct (SoilProfile.layers sp); [congruence|reflexivity].
  - intros Hnil. unfold unit_end_bearing.
    cbn [soil_attr mbind result_bind]. rewrite Hnil. reflexivity.
Qed.

End SignFacts.

Lemma entrapped_soil_weight_nonneg_witness :
  exists w,
    entrapped_soil_weight example_mapper example_pile (Some example_soil) = Ok w
    /\ 0 <= w.
Proof.
  apply entrapped_soil_weight_nonneg.
  - repeat constructor; vm_compute; discriminate.
  - vm_compute. repeat constructor; discriminate.
Defined.

Lemma no_axial_model_no_resistance_witness :
  unit_end_bearing example_mapper example_pile (Some two_layer_profile)
  = Ok (Number (PyFloat 0)).
Proof.
  destruct (no_axial_model_no_resistance example_mapper example_pile
              two_layer_profile true true) as (_ & H & _).
  - repeat constructor.
  - apply H. discriminate.
Defined.

(* --------------------------------------------------------------------- *)
(** ** The bottom of the soil profile                                     *)
(* --------------------------------------------------------------------- *)

Lemma map_nth_seq (a : list Q) :
  map (fun i => nth i a 0) (seq 0 (length a)) = a.
Proof.
  induction a as [|x a IH]; [reflexivity|].
  cbn [length seq map nth]. f_equal.
  rewrite <- seq_shift, map_map. exact IH.
Qed.

Lemma take_indices_perm (a : list Q) (idx : list nat) :
  Permutation (seq 0 (length a)) idx -> Permutation a (take_indices a idx).
Proof.
  intros H. unfold take_indices.
  rewrite <- (map_nth_seq a) at 1. now apply Permutation_map.
Qed.

Lemma top_sorted_perm (sp : SoilProfile.t) :
  Permutation (map Layer.top (SoilProfile.layers sp)) (top_sorted sp).
Proof.
  unfold top_sorted. rewrite <- Permutation_rev.
  apply take_indices_perm, argsort_perm.
Qed.

Lemma bottom_sorted_perm (sp : SoilProfile.t) :
  Permutation (map Layer.bottom (SoilProfile.layers sp)) (bottom_sorted sp).
Proof.
  unfold bottom_sorted. rewrite <- Permutation_rev.
  apply take_indices_perm.
  rewrite length_map, <- (length_map Layer.top). apply argsort_perm.
Qed.

Lemma thickness_sum (ls : list Layer.t) :
  Forall (fun l => Layer.bottom l < Layer.top l) ls ->
  Qsum (map (fun x => Qabs (Layer.top x - Layer.bottom x)) ls)
  == Qsum (map Layer.top ls) - Qsum (map Layer.bottom ls).
Proof.
  induction 1 as [|l ls Hl _ IH]; simpl; [ring|].
  rewrite IH, Qabs_pos by lra. ring.
Qed.

Lemma of_nat_succ (k : nat) :
  inject_Z (Z.of_nat (S k)) == inject_Z (Z.of_nat k) + 1.
Proof. rewrite Nat2Z.inj_succ. unfold Z.succ. now rewrite inject_Z_plus. Qed.

Lemma gaps_telescope (tol : Q) (ts : list Q) :
  forall bs : list Q,
    length ts = length bs ->
    (forall i, (i + 1 < length ts)%nat ->
               Qabs (nth (i + 1) ts 0 - nth i bs 0) <= tol) ->
    Qabs (Qsum ts - Qsum bs - (nth 0 ts 0 - nth (length bs - 1) bs 0))
    <= inject_Z (Z.of_nat (length ts - 1)) * tol.
Proof.
  induction ts as [|t ts IH]; intros bs Hlen Hgap.
  - destruct bs; [|discriminate]. simpl.
    change (inject_Z (Z.of_nat 0)) with 0. apply Qabs_Qle_condition.
    split; lra.
  - destruct bs as [|b bs]; [discriminate|]. injection Hlen as Hlen.
    destruct ts as [|t' ts].
    + destruct bs; [|discriminate]. simpl.
      change (inject_Z (Z.of_nat 0)) with 0.
      apply Qabs_Qle_condition. split; lra.
    + destruct bs as [|b' bs]; [discriminate|].
      assert (IH' := IH (b' :: bs) Hlen).
      assert (Hshift : forall i, (i + 1 < length (t' :: ts))%nat ->
                Qabs (nth (i + 1) (t' :: ts) 0 - nth i (b' :: bs) 0) <= tol).
      { intros i Hi. apply (Hgap (S i)). simpl in *. lia. }
      specialize (IH' Hshift).
      assert (H0 := Hgap 0%nat ltac:(simpl; lia)).
      cbn [nth Nat.add] in H0.
      replace (length (b :: b' :: bs) - 1)%nat
        with (S (length (b' :: bs) - 1)) by (simpl; lia).
      replace (length (t :: t' :: ts) - 1)%nat
        with (S (length (t' :: ts) - 1)) by (simpl; lia).
      rewrite of_nat_succ.
      change (nth (S (length (b' :: bs) - 1)) (b :: b' :: bs) 0)
        with (nth (length (b' :: bs) - 1) (b' :: bs) 0).
      set (lastb := nth (length (b' :: bs) - 1) (b' :: bs) 0) in *.
      set (k := inject_Z (Z.of_nat (length (t' :: ts) - 1))) in *.
      change (Qsum (t :: t' :: ts)) with (t + Qsum (t' :: ts)).
      change (Qsum (b :: b' :: bs)) with (b + Qsum (b' :: bs)).
      change (nth 0 (t :: t' :: ts) 0) with t.
      change (nth 0 (t' :: ts) 0) with t' in IH'.
      set (St := Qsum (t' :: ts)) in *. set (Sb := Qsum (b' :: bs)) in *.
      apply Qabs_Qle_condition in IH', H0.
      apply Qabs_Qle_condition. split; lra.
Qed.

(** X13: for a profile that [check_layers_elevations] accepts, whose layers
    have their bottom below their top and follow one another within [tol],
    [SoilProfile.bottom_elevation] (the top elevation minus the sum of the
    layer thicknesses) differs from the bottom of the lowest layer by at
    most [tol] for each of the [n - 1] joints; with exact joints it is the
    bottom of the lowest layer. *)
Theorem bottom_elevation_near_lowest (sp : SoilProfile.t) (tol : Q) :
  check_layers_elevations sp = Ok tt ->
  Forall (fun l => Layer.bottom l < Layer.top l) (SoilProfile.layers sp) ->
  layers_within tol sp ->
  let n := length (SoilProfile.layers sp) in
  Qabs (SoilProfile.bottom_elevation sp - nth (n - 1) (bottom_sorted sp) 0)
  <= inject_Z (Z.of_nat (n - 1)) * tol.
Proof.
  intros Hcheck Hvalid Hwithin n.
  apply check_layers_elevations_iff in Hcheck.
  destruct Hcheck as [(top0 & rest & Hts & Htop) _].
  pose proof (gaps_telescope tol (top_sorted sp) (bottom_sorted sp)) as H.
  rewrite top_sorted_length, bottom_sorted_length in H.
  specialize (H eq_refl).
  assert (Hgap : forall i, (i + 1 < length (SoilProfile.layers sp))%nat ->
            Qabs (nth (i + 1) (top_sorted sp) 0 - nth i (bottom_sorted sp) 0)
            <= tol).
  { intros i Hi. apply Hwithin. now rewrite top_sorted_length. }
  specialize (H Hgap). fold n in H.
  unfold SoilProfile.bottom_elevation.
  rewrite (thickness_sum _ Hvalid).
  rewrite (Qsum_perm _ _ (top_sorted_perm sp)).
  rewrite (Qsum_perm _ _ (bottom_sorted_perm sp)).
  rewrite Hts in H. cbn [nth] in H. rewrite <- Hts in H.
  set (St := Qsum (top_sorted sp)) in *.
  set (Sb := Qsum (bottom_sorted sp)) in *.
  set (lowest := nth (n - 1) (bottom_sorted sp) 0) in *.
  set (k := inject_Z (Z.of_nat (n - 1))) in *.
  apply Qabs_Qle_condition in H. apply Qabs_Qle_condition. split; lra.
Qed.

Lemma bottom_elevation_near_lowest_witness :
  Qabs (SoilProfile.bottom_elevation two_layer_profile - -40) <= 0.
Proof.
  assert (H := bottom_elevation_near_lowest two_layer_profile 0 eq_refl).
  cbv zeta in H.
  assert (E : inject_Z (Z.of_nat (length (SoilProfile.layers two_layer_profile) - 1))
              * 0 == 0) by ring.
  rewrite <- E. apply H.
  - repeat constructor.
  - intros i Hi. destruct i as [|i]; [vm_compute; discriminate|].
    rewrite top_sorted_length in Hi. simpl in Hi. lia.
Defined.

(* --------------------------------------------------------------------- *)
(** ** More on the model                                                  *)
(* --------------------------------------------------------------------- *)

Lemma foldM_inv_in {S A : Type} (P : S -> Prop) (body : S -> A -> result S)
    (xs : list A) :
  (forall s x s', In x xs -> P s -> body s x = Ok s' -> P s') ->
  forall s s', P s -> foldM body xs s = Ok s' -> P s'.
Proof.
  induction xs as [|x xs IH]; intros Hstep s s' Hs Hrun; simpl in Hrun.
  - now inversion Hrun; subst.
  - destruct (body s x) as [s1|e] eqn:E; simpl in Hrun; [|discriminate].
    eapply IH; [|eapply Hstep; eauto; now left|exact Hrun].
    intros s0 y s0' Hy. apply Hstep. now right.
Qed.

Section ModelShape.
Variable get_all_properties : Mapper.

(** X14: [Model(...)] returns for no input: [model_post_init] assigns the
    tables of the mapper to [self.soil_properties], which is no field of
    the model, and the assignment raises [ValueError] before any spring is
    created.  [create_springs] would not return either: once its loop over
    the layers is through it raises [NameError] for [check_springs], and
    without a soil profile it raises [AttributeError]. *)
Theorem Model_init_always_raises (m : Model.t) :
  Model_init get_all_properties m
  = Raise (ValueError (dq ++ "Model" ++ dq ++ " object has no field "
                       ++ dq ++ "soil_properties" ++ dq))
  /\ (forall rows, is_ok (create_springs m rows) = false)
  /\ (forall rows st,
        spring_loop m rows = Ok st ->
        create_springs m rows
        = Raise (NameError "name 'check_springs' is not defined"))
  /\ (Model.soil m = None ->
      forall rows,
        create_springs m rows
        = Raise (AttributeError "'NoneType' object has no attribute 'layers'")).
Proof.
  split; [reflexivity|]. split; [|split].
  - intros rows. unfold create_springs.
    destruct (spring_loop m rows); reflexivity.
  - intros rows st Hrun. unfold create_springs. rewrite Hrun. reflexivity.
  - intros Hnone rows. unfold create_springs, spring_loop.
    rewrite Hnone. reflexivity.
Qed.

End ModelShape.

Lemma Model_init_always_raises_witness :
  let m := example_model true true true true in
  let rows := example_mapper (Model.pile m) (Model.soil m)
                (Some (Model.x2mesh m)) (Model.coarseness m) in
  is_ok (spring_loop m rows) = true
  /\ create_springs m rows
     = Raise (NameError "name 'check_springs' is not defined").
Proof.
  intros m rows. split; [vm_compute; reflexivity|].
  destruct (Model_init_always_raises example_mapper m) as (_ & _ & H & _).
  destruct (spring_loop m rows) as [st|e] eqn:E.
  - exact (H rows st E).
  - vm_compute in E. discriminate E.
Defined.

(** X22: on a model whose pile does not end below its soil profile, which
    is what the validator [soil_and_pile_bottom_elevation_match] lets
    through, [Model.bottom] is the bottom elevation of the soil and
    [Model.embedment] is the top of the soil minus the bottom of the pile;
    a pile that ends below the soil is refused with [ValueError]. *)
Theorem validated_model_bottom (m : Model.t) (sp : SoilProfile.t) (pb : Q) :
  Model.soil m = Some sp ->
  pile_bottom_elevation (Model.pile m) = Ok pb ->
  (soil_and_pile_bottom_elevation_match m = Ok tt
   <-> SoilProfile.bottom_elevation sp <= pb)
  /\ (pb < SoilProfile.bottom_elevation sp ->
      soil_and_pile_bottom_elevation_match m
      = Raise (ValueError "The pile ends deeper than the soil profile."))
  /\ (soil_and_pile_bottom_elevation_match m = Ok tt ->
      exists bottom,
        Model_bottom m = Ok bottom
        /\ bottom == SoilProfile.bottom_elevation sp
        /\ Model_embedment m
           = Ok (Some (SoilProfile.top_elevation sp - pb))).
Proof.
  intros Hsoil Hpb.
  unfold soil_and_pile_bottom_elevation_match, Model_bottom, Model_embedment.
  rewrite Hsoil, Hpb. cbn [mbind result_bind].
  destruct (Qlt_bool pb (SoilProfile.bottom_elevation sp)) eqn:Hlt.
  - assert (Hlt' : pb < SoilProfile.bottom_elevation sp)
      by (now apply Qlt_bool_iff).
    split; [split; [discriminate | intros Hle; lra]|].
    split; [reflexivity | discriminate].
  - apply Qlt_bool_false in Hlt.
    split; [split; [intros _; exact Hlt | reflexivity]|].
    split; [intros Hlt'; lra|]. intros _.
    eexists. split; [reflexivity|]. split; [|reflexivity].
    unfold py_min.
    destruct (Qlt_bool (SoilProfile.bottom_elevation sp) pb) eqn:Hlt';
      [reflexivity|].
    apply Qlt_bool_false in Hlt'. lra.
Qed.

Lemma validated_model_bottom_witness :
  exists bottom,
    Model_bottom (example_model true true true true) = Ok bottom
    /\ bottom == -1.
Proof.
  destruct (validated_model_bottom (example_model true true true true)
              example_soil (-1) eq_refl eq_refl) as (_ & _ & H).
  destruct (H eq_refl) as (bottom & Hbot & Ebot & _).
  exists bottom. split; [exact Hbot|]. rewrite Ebot. vm_compute. reflexivity.
Defined.

Section UndeclaredFamilies.
Variables (m : Model.t) (sp : SoilProfile.t) (rows : list MeshRow).

Lemma element_springs_py_undeclared (layer : Layer.t) (lm : LateralModel)
    (a0 : ndarray) (st st' : Springs) (i : nat) :
  spring_signature lm 0 = false ->
  untouched py is_py_call a0 st ->
  element_springs m sp layer lm rows st i = Ok st' ->
  untouched py is_py_call a0 st'.
Proof.
  intros Hoff Hinv Hrun. unfold element_springs in Hrun.
  rewrite Hoff in Hrun. cbn [andb] in Hrun.
  run_step Hrun; keep_untouched.
Qed.

Lemma element_springs_mt_undeclared (layer : Layer.t) (lm : LateralModel)
    (a0 : ndarray) (st st' : Springs) (i : nat) :
  spring_signature lm 2 = false ->
  untouched mt is_mt_call a0 st ->
  element_springs m sp layer lm rows st i = Ok st' ->
  untouched mt is_mt_call a0 st'.
Proof.
  intros Hoff Hinv Hrun. unfold element_springs in Hrun.
  rewrite Hoff in Hrun. cbn [andb] in Hrun.
  run_step Hrun; keep_untouched.
Qed.

Lemma toe_springs_Hb_undeclared (layer : Layer.t) (lm : LateralModel)
    (a0 : ndarray) (st st' : Springs) (pb : Q) :
  pile_bottom_elevation (Model.pile m) = Ok pb ->
  spring_signature lm 1 = false \/ holds_tip pb layer = false ->
  untouched Hb is_Hb_call a0 st ->
  toe_springs m sp layer lm rows st = Ok st' ->
  untouched Hb is_Hb_call a0 st'.
Proof.
  intros Hpb Hoff Hinv Hrun. unfold toe_springs in Hrun.
  rewrite Hpb in Hrun. cbn [mbind result_bind] in Hrun.
  fold (holds_tip pb layer) in Hrun.
  destruct Hoff as [Hoff|Hoff]; rewrite Hoff in Hrun; cbn [andb] in Hrun;
    run_step Hrun; keep_untouched.
Qed.

Lemma toe_springs_Mb_undeclared (layer : Layer.t) (lm : LateralModel)
    (a0 : ndarray) (st st' : Springs) (pb : Q) :
  pile_bottom_elevation (Model.pile m) = Ok pb ->
  spring_signature lm 3 = false \/ holds_tip pb layer = false ->
  untouched Mb is_Mb_call a0 st ->
  toe_springs m sp layer lm rows st = Ok st' ->
  untouched Mb is_Mb_call a0 st'.
Proof.
  intros Hpb Hoff Hinv Hrun. unfold toe_springs in Hrun.
  rewrite Hpb in Hrun. cbn [mbind result_bind] in Hrun.
  fold (holds_tip pb layer) in Hrun.
  destruct Hoff as [Hoff|Hoff]; rewrite Hoff in Hrun; cbn [andb] in Hrun;
    run_step Hrun; keep_untouched.
Qed.

Lemma layers_keep_in (P : Springs -> Prop) (ls : list Layer.t) :
  (forall layer lm st st' i,
     In layer ls -> Layer.lateral_model layer = Some lm ->
     P st -> element_springs m sp layer lm rows st i = Ok st' -> P st') ->
  (forall layer lm st st',
     In layer ls -> Layer.lateral_model layer = Some lm ->
     P st -> toe_springs m sp layer lm rows st = Ok st' -> P st') ->
  forall st st',
    P st -> foldM (layer_springs m sp rows) ls st = Ok st' -> P st'.
Proof.
  intros Helem Htoe st st' Hinv Hrun.
  eapply foldM_inv_in; [|exact Hinv|exact Hrun].
  intros s layer s' Hin Hs Hstep. unfold layer_springs in Hstep.
  destruct (Layer.lateral_model layer) as [lm|] eqn:Hlm.
  - destruct (foldM (element_springs m sp layer lm rows)
                    (elements_for_layer rows layer) s) as [s1|e] eqn:E;
      cbn [mbind result_bind] in Hstep; [|discriminate].
    eapply (Htoe layer lm); [exact Hin|exact Hlm| |exact Hstep].
    eapply foldM_inv; [|exact Hs|exact E].
    intros s0 x s0' Hs0 Hx. eapply (Helem layer lm); eauto.
  - now inversion Hstep; subst.
Qed.

End UndeclaredFamilies.

Section UndeclaredModel.

(** X15: when the loop over the layers of [create_springs] is through, a
    spring family that no lateral model of the profile declares in its
    [spring_signature] still has its zero array and was never evaluated,
    whatever the toggles; for the two toe springs it is enough that no
    layer both declares the family and holds the pile tip. *)
Theorem undeclared_family_stays_zero (m : Model.t) (rows : list MeshRow)
    (st : Springs) (sp : SoilProfile.t) (pb : Q) :
  spring_loop m rows = Ok st ->
  Model.soil m = Some sp ->
  pile_bottom_elevation (Model.pile m) = Ok pb ->
  let n := length rows in
  (Forall (undeclared 0) (SoilProfile.layers sp) ->
   py st = np_zeros [n; 2; 2; spring_dim]%nat
   /\ never_called is_py_call (calls st))
  /\ (Forall (undeclared 2) (SoilProfile.layers sp) ->
      mt st = np_zeros [n; 2; 2; spring_dim; spring_dim]%nat
      /\ never_called is_mt_call (calls st))
  /\ (Forall (undeclared_at_tip 1 pb) (SoilProfile.layers sp) ->
      Hb st = np_zeros [1; 1; 2; spring_dim]%nat
      /\ never_called is_Hb_call (calls st))
  /\ (Forall (undeclared_at_tip 3 pb) (SoilProfile.layers sp) ->
      Mb st = np_zeros [1; 1; 2; spring_dim]%nat
      /\ never_called is_Mb_call (calls st)).
Proof.
  intros Hrun Hsoil Hpb n. subst n.
  unfold spring_loop in Hrun. rewrite Hsoil in Hrun.
  cbn [soil_attr mbind result_bind] in Hrun. rename Hrun into Hfold.
  split; [|split; [|split]]; intros Hall; rewrite Forall_forall in Hall.
  - eapply (layers_keep_in m sp _ (untouched py is_py_call _));
      [..|exact Hfold]; [| |split; reflexivity].
    + intros layer lm s s' i Hin Hlm.
      apply element_springs_py_undeclared.
      apply (Hall layer); [now apply list_elem_of_In | exact Hlm].
    + intros layer lm s s' _ _. apply toe_springs_py.
  - eapply (layers_keep_in m sp _ (untouched mt is_mt_call _));
      [..|exact Hfold]; [| |split; reflexivity].
    + intros layer lm s s' i Hin Hlm.
      apply element_springs_mt_undeclared.
      apply (Hall layer); [now apply list_elem_of_In | exact Hlm].
    + intros layer lm s s' _ _. apply toe_springs_mt.
  - eapply (layers_keep_in m sp _ (untouched Hb is_Hb_call _));
      [..|exact Hfold]; [| |split; reflexivity].
    + intros layer lm s s' i _ _. apply element_springs_Hb.
    + intros layer lm s s' Hin Hlm.
      apply (toe_springs_Hb_undeclared m sp _ layer lm _ s s' pb Hpb).
      apply (Hall layer); [now apply list_elem_of_In | exact Hlm].
  - eapply (layers_keep_in m sp _ (untouched Mb is_Mb_call _));
      [..|exact Hfold]; [| |split; reflexivity].
    + intros layer lm s s' i _ _. apply element_springs_Mb.
    + intros layer lm s s' Hin Hlm.
      apply (toe_springs_Mb_undeclared m sp _ layer lm _ s s' pb Hpb).
      apply (Hall layer); [now apply list_elem_of_In | exact Hlm].
Qed.

End UndeclaredModel.

Lemma undeclared_family_stays_zero_witness :
  let rows := example_mapper (Model.pile py_only_model)
                (Model.soil py_only_model)
                (Some (Model.x2mesh py_only_model))
                (Model.coarseness py_only_model) in
  exists st,
    spring_loop py_only_model rows = Ok st
    /\ mt st = np_zeros [2; 2; 2; 15; 15]%nat
    /\ Hb st = np_zeros [1; 1; 2; 15]%nat
    /\ never_called is_Mb_call (calls st).
Proof.
  intros rows. eexists. split; [vm_compute; reflexivity|].
  match goal with
  | |- mt ?st = _ /\ _ =>
      destruct (undeclared_family_stays_zero py_only_model rows st
                  py_only_soil (-1) eq_refl eq_refl eq_refl)
        as (_ & Hmt & HHb & HMb)
  end.
  assert (H2 : Forall (undeclared 2) (SoilProfile.layers py_only_soil)).
  { constructor; [|constructor]. intros lm Hlm. injection Hlm as <-.
    reflexivity. }
  assert (H1 : Forall (undeclared_at_tip 1 (-1))
                      (SoilProfile.layers py_only_soil)).
  { constructor; [|constructor]. intros lm Hlm. injection Hlm as <-.
    now left. }
  assert (H3 : Forall (undeclared_at_tip 3 (-1))
                      (SoilProfile.layers py_only_soil)).
  { constructor; [|constructor]. intros lm Hlm. injection Hlm as <-.
    now left. }
  split; [exact (proj1 (Hmt H2))|]. split; [exact (proj1 (HHb H1))|].
  exact (proj2 (HMb H3)).
Defined.

Lemma py_calls_snoc (cs : list SpringCall) (c : SpringCall) :
  py_calls (cs ++ [c])
  = (py_calls cs ++ match c with PyCall args => [args] | _ => [] end)%list.
Proof.
  unfold py_calls. rewrite flat_map_app. simpl. now rewrite app_nil_r.
Qed.

Lemma foldM_trace {S A B : Type} (trace : S -> list B) (out : A -> list B)
    (body : S -> A -> result S) (xs : list A) :
  (forall s x s', body s x = Ok s' -> trace s' = (trace s ++ out x)%list) ->
  forall s s',
    foldM body xs s = Ok s' ->
    trace s' = (trace s ++ flat_map out xs)%list.
Proof.
  intros Hstep. induction xs as [|x xs IH]; intros s s' Hrun; simpl in Hrun.
  - inversion Hrun; subst. simpl. now rewrite app_nil_r.
  - destruct (body s x) as [s1|e] eqn:E; simpl in Hrun; [|discriminate].
    rewrite (IH _ _ Hrun), (Hstep _ _ _ E). simpl. now rewrite <- app_assoc.
Qed.

Ltac trace_calls :=
  cbn [calls set_py set_mt set_Hb set_Mb set_pile_width print];
  rewrite ?py_calls_snoc; rewrite <- ?app_assoc; cbn [app];
  rewrite ?app_nil_r; reflexivity.

Section TraceFacts.
Variables (m : Model.t) (sp : SoilProfile.t) (rows : list MeshRow) (pb : Q).
Hypothesis Hpb : pile_bottom_elevation (Model.pile m) = Ok pb.

Lemma element_springs_trace (layer : Layer.t) (lm : LateralModel)
    (st st' : Springs) (i : nat) :
  element_springs m sp layer lm rows st i = Ok st' ->
  py_calls (calls st')
  = (py_calls (calls st)
     ++ (if spring_signature lm 0 && Model.distributed_lateral m
         then let r := nth i rows default_row in
              let width := Diameter (elem_row r) in
              [end_args sp layer r width pb 0; end_args sp layer r width pb 1]
         else []))%list.
Proof.
  intros Hrun. unfold element_springs in Hrun.
  destruct (spring_signature lm 0 && Model.distributed_lateral m);
    destruct (spring_signature lm 2 && Model.distributed_moment m);
    cbn [foldM mbind result_bind] in Hrun; rewrite ?Hpb in Hrun;
    cbn [foldM mbind result_bind] in Hrun;
    inversion Hrun; subst; trace_calls.
Qed.

Lemma toe_springs_trace (layer : Layer.t) (lm : LateralModel)
    (st st' : Springs) :
  toe_springs m sp layer lm rows st = Ok st' ->
  py_calls (calls st') = py_calls (calls st).
Proof.
  intros Hrun. unfold toe_springs in Hrun. run_step Hrun; trace_calls.
Qed.

Lemma layer_springs_trace (st st' : Springs) (layer : Layer.t) :
  layer_springs m sp rows st layer = Ok st' ->
  py_calls (calls st')
  = (py_calls (calls st) ++ py_calls_of m sp rows pb layer)%list.
Proof.
  unfold layer_springs, py_calls_of, declares_py. intros Hrun.
  destruct (Layer.lateral_model layer) as [lm|].
  - destruct (foldM (element_springs m sp layer lm rows)
                    (elements_for_layer rows layer) st) as [s1|e] eqn:E;
      cbn [mbind result_bind] in Hrun; [|discriminate].
    rewrite (toe_springs_trace _ _ _ _ Hrun).
    rewrite (foldM_trace (fun s => py_calls (calls s))
               (fun i =>
                  if spring_signature lm 0 && Model.distributed_lateral m
                  then let r := nth i rows default_row in
                       let width := Diameter (elem_row r) in
                       [end_args sp layer r width pb 0;
                        end_args sp layer r width pb 1]
                  else []) _ _
               (fun s x s' => element_springs_trace layer lm s s' x) _ _ E).
    f_equal. clear E.
    destruct (spring_signature lm 0 && Model.distributed_lateral m);
      [reflexivity|].
    induction (elements_for_layer rows layer) as [|x xs IH];
      [reflexivity | exact IH].
  - inversion Hrun; subst. cbn [andb]. now rewrite app_nil_r.
Qed.

(** X16: when the loop over the layers of [create_springs] is through, the
    p-y spring function was evaluated, layer by layer in the order of the
    list and element by element within the layer, exactly twice for every
    element within a layer whose lateral model declares p-y springs: first
    with the stress, depth and elevation of the top end of the element,
    then with those of its bottom end.  That is with [distributed_lateral]
    on; with it off, and for a layer that does not declare p-y springs, the
    function is not evaluated. *)
Theorem py_evaluated_twice_per_element (st : Springs) :
  spring_loop m rows = Ok st ->
  Model.soil m = Some sp ->
  py_calls (calls st)
  = flat_map (py_calls_of m sp rows pb) (SoilProfile.layers sp).
Proof.
  intros Hrun Hsoil. unfold spring_loop in Hrun. rewrite Hsoil in Hrun.
  cbn [soil_attr mbind result_bind] in Hrun.
  rewrite (foldM_trace (fun s => py_calls (calls s))
             (py_calls_of m sp rows pb) _ _
             (fun s x s' => layer_springs_trace s s' x) _ _ Hrun).
  reflexivity.
Qed.

End TraceFacts.

Lemma py_evaluated_twice_per_element_witness :
  let rows := example_mapper (Model.pile py_only_model)
                (Model.soil py_only_model)
                (Some (Model.x2mesh py_only_model))
                (Model.coarseness py_only_model) in
  exists st,
    spring_loop py_only_model rows = Ok st
    /\ length rows = 2%nat
    /\ Forall2 Qeq (map arg_sig (py_calls (calls st))) [0; 4; 4; 8].
Proof.
  intros rows. eexists. split; [vm_compute; reflexivity|].
  split; [reflexivity|].
  match goal with
  | |- context [calls ?st] =>
      rewrite (py_evaluated_twice_per_element py_only_model py_only_soil
                 rows (-1) eq_refl st eq_refl eq_refl)
  end.
  cbv [py_only_model py_only_soil SoilProfile.layers flat_map app].
  repeat (constructor; [vm_compute; reflexivity|]). constructor.
Defined.

(* --------------------------------------------------------------------- *)
(** ** Loads, displacements and supports                                  *)
(* --------------------------------------------------------------------- *)

Lemma int_of_indices_many (i j : nat) (rest : list nat) :
  int_of_indices (i :: j :: rest)
  = Raise (TypeError "only length-1 arrays can be converted to Python scalars").
Proof. reflexivity. Qed.

Lemma last_cons_some {A : Type} (x : A) (l : list A) :
  exists y, last (x :: l) = Some y.
Proof.
  revert x. induction l as [|z l IH]; intros x; [now exists x|].
  destruct (IH z) as [y Hy]. exists y. exact Hy.
Qed.

Lemma not_applied_tables (what where_ : string) (elevation : Q)
    (b : Boundary) :
  global_forces (fst (not_applied what where_ elevation b)) = global_forces b
  /\ global_disp (fst (not_applied what where_ elevation b)) = global_disp b
  /\ global_restrained (fst (not_applied what where_ elevation b))
     = global_restrained b
  /\ nodes_coordinates (fst (not_applied what where_ elevation b))
     = nodes_coordinates b.
Proof.
  unfold not_applied, first_x, last_x.
  destruct (nodes_coordinates b) as [|n ns] eqn:E.
  - cbn. rewrite E. tauto.
  - destruct (Qlt_bool (node_x n) elevation); [cbn; rewrite E; tauto|].
    destruct (last (n :: ns)) as [x|]; [|cbn; rewrite E; tauto].
    destruct (Qlt_bool elevation (node_x x)); cbn; rewrite E; tauto.
Qed.

Lemma not_applied_prints (what where_ : string) (elevation : Q)
    (b : Boundary) :
  nodes_coordinates b <> [] ->
  snd (not_applied what where_ elevation b) = Ok tt
  /\ exists line,
       stdout (fst (not_applied what where_ elevation b))
       = (stdout b ++ [line])%list.
Proof.
  unfold not_applied, first_x, last_x. intros Hne.
  destruct (nodes_coordinates b) as [|n ns]; [congruence|].
  destruct (Qlt_bool (node_x n) elevation);
    [cbn; split; [reflexivity | eexists; reflexivity]|].
  destruct (last_cons_some n ns) as [x Hx]. rewrite Hx.
  destruct (Qlt_bool elevation (node_x x)); cbn;
    (split; [reflexivity | eexists; reflexivity]).
Qed.

(** X17: [set_pointload] changes the loads only when exactly one node lies
    within the tolerance of the elevation (0.001 plus 1e-5 of the
    elevation): then only that row of [global_forces] changes, the
    components given are stored and the others kept, and nothing is
    printed.  With no such node of a non-empty mesh the call returns
    normally with one line printed, and with two or more it raises
    [TypeError]; in both cases every table is left as it was. *)
Theorem set_pointload_cases (elevation : Q) (Py_ Px_ Mz_ : option Q)
    (b : Boundary) :
  let r := set_pointload elevation Py_ Px_ Mz_ b in
  let indices := nodes_at (nodes_coordinates b) elevation in
  global_disp (fst r) = global_disp b
  /\ global_restrained (fst r) = global_restrained b
  /\ (forall k, indices = [k] ->
        snd r = Ok tt
        /\ stdout (fst r) = stdout b
        /\ (forall j, j <> k -> global_forces (fst r) !! j = global_forces b !! j)
        /\ (forall row, global_forces b !! k = Some row ->
              global_forces (fst r) !! k
              = Some {| force_node := force_node row;
                        Px := set_or_keep Px_ (Px row);
                        Py := set_or_keep Py_ (Py row);
                        Mz := set_or_keep Mz_ (Mz row) |}))
  /\ (indices = [] -> nodes_coordinates b <> [] ->
        snd r = Ok tt
        /\ global_forces (fst r) = global_forces b
        /\ exists line, stdout (fst r) = (stdout b ++ [line])%list)
  /\ ((2 <= length indices)%nat ->
        snd r = Raise (TypeError
                  "only length-1 arrays can be converted to Python scalars")
        /\ global_forces (fst r) = global_forces b).
Proof.
  intros r indices. subst r. unfold set_pointload. fold indices.
  destruct indices as [|i [|j rest]].
  - destruct (not_applied_tables "Load" "load" elevation b)
      as (Hf & Hd & Hr & _).
    pose proof (not_applied_prints "Load" "load" elevation b) as Hp.
    destruct (not_applied "Load" "load" elevation b) as [b' [[]|e]];
      cbn [fst snd user_input_error with_stdout global_disp
           global_restrained global_forces stdout] in *.
    + split; [exact Hd|]. split; [exact Hr|]. split; [discriminate|].
      split; [|simpl; lia].
      intros _ Hne. destruct (Hp Hne) as [_ Hline]. auto.
    + split; [exact Hd|]. split; [exact Hr|]. split; [discriminate|].
      split; [|simpl; lia].
      intros _ Hne. destruct (Hp Hne) as [Hbad _]. discriminate.
  - cbn. split; [reflexivity|]. split; [reflexivity|]. split; [|split].
    + intros k Hk. injection Hk as <-. repeat split.
      * intros j Hj. now apply list_lookup_alter_ne.
      * intros row Hrow. rewrite list_lookup_alter_eq, Hrow. reflexivity.
    + discriminate.
    + lia.
  - cbn. split; [reflexivity|]. split; [reflexivity|]. split; [|split].
    + discriminate.
    + discriminate.
    + intros _. split; reflexivity.
Qed.

Lemma set_pointload_cases_witness :
  let b := Boundary_init example_nodes in
  let r := set_pointload (-1) (Some 500) None (Some 20) b in
  snd r = Ok tt
  /\ global_forces (fst r) !! 2%nat
     = Some {| force_node := {| node_x := -1; node_y := 0 |};
               Px := 0; Py := 500; Mz := 20 |}
  /\ global_forces (fst r) !! 0%nat = global_forces b !! 0%nat.
Proof.
  intros b r.
  destruct (set_pointload_cases (-1) (Some 500) None (Some 20) b)
    as (_ & _ & H & _).
  destruct (H 2%nat eq_refl) as (Hok & _ & Hother & Hrow).
  split; [exact Hok|]. split.
  - apply (Hrow _ eq_refl).
  - apply Hother. discriminate.
Defined.

Lemma alter_absorb {A : Type} (f g : A -> A) (k : nat) (l : list A) :
  (forall x, f (g x) = f x) -> alter f k (alter g k l) = alter f k l.
Proof.
  intros H. apply list_eq. intros j. destruct (decide (j = k)) as [->|Hne].
  - rewrite !list_lookup_alter_eq. destruct (l !! k); simpl; [|reflexivity].
    now rewrite H.
  - now rewrite !list_lookup_alter_ne by congruence.
Qed.

Lemma set_support_one (elevation : Q) (Ty_ Tx_ Rz_ : bool) (b : Boundary)
    (k : nat) :
  nodes_at (nodes_coordinates b) elevation = [k] ->
  set_support elevation Ty_ Tx_ Rz_ b
  = ({| nodes_coordinates := nodes_coordinates b;
        global_forces := global_forces b;
        global_disp := global_disp b;
        global_restrained :=
          alter (fun r => {| restrained_node := restrained_node r;
                             fix_Tx := Tx_; fix_Ty := Ty_; fix_Rz := Rz_ |})
                k (global_restrained b);
        stdout := stdout b |}, Ok tt).
Proof. intros H. unfold set_support. now rewrite H. Qed.

Lemma set_pointdisplacement_one (elevation : Q) (Ty_ Tx_ Rz_ : option Q)
    (b : Boundary) (k : nat) :
  nodes_at (nodes_coordinates b) elevation = [k] ->
  set_pointdisplacement elevation Ty_ Tx_ Rz_ b
  = ({| nodes_coordinates := nodes_coordinates b;
        global_forces := global_forces b;
        global_disp :=
          alter (fun r => {| disp_node := disp_node r;
                             Tx := set_or_keep Tx_ (Tx r);
                             Ty := set_or_keep Ty_ (Ty r);
                             Rz := set_or_keep Rz_ (Rz r) |})
                k (global_disp b);
        global_restrained :=
          alter (fun r => {| restrained_node := restrained_node r;
                             fix_Tx := fix_or_keep Tx_ (fix_Tx r);
                             fix_Ty := fix_or_keep Ty_ (fix_Ty r);
                             fix_Rz := fix_or_keep Rz_ (fix_Rz r) |})
                k (global_restrained b);
        stdout := stdout b |}, Ok tt).
Proof. intros H. unfold set_pointdisplacement. now rewrite H. Qed.

Lemma set_pointload_one (elevation : Q) (Py_ Px_ Mz_ : option Q)
    (b : Boundary) (k : nat) :
  nodes_at (nodes_coordinates b) elevation = [k] ->
  set_pointload elevation Py_ Px_ Mz_ b
  = ({| nodes_coordinates := nodes_coordinates b;
        global_forces :=
          alter (fun r => {| force_node := force_node r;
                             Px := set_or_keep Px_ (Px r);
                             Py := set_or_keep Py_ (Py r);
                             Mz := set_or_keep Mz_ (Mz r) |})
                k (global_forces b);
        global_disp := global_disp b;
        global_restrained := global_restrained b;
        stdout := stdout b |}, Ok tt).
Proof. intros H. unfold set_pointload. now rewrite H. Qed.

Lemma node_has_row {A : Type} (b : Boundary) (elevation : Q) (k : nat)
    (table : list A) :
  length table = length (nodes_coordinates b) ->
  In k (nodes_at (nodes_coordinates b) elevation) ->
  exists row, table !! k = Some row.
Proof.
  intros Hlen Hk. apply index_where_lt in Hk.
  apply lookup_lt_is_Some. lia.
Qed.

(** X18: at an elevation that selects one node, the last call of
    [set_support] wins: a call after another call at the same elevation
    leaves the model as the last call alone does, with the three flags of
    the last call in the row of the node, so a flag not passed again is
    back to [False]. *)
Theorem set_support_last_wins (elevation : Q) (Ty1 Tx1 Rz1 Ty2 Tx2 Rz2 : bool)
    (b : Boundary) (k : nat) :
  aligned b ->
  nodes_at (nodes_coordinates b) elevation = [k] ->
  let r := set_support elevation Ty2 Tx2 Rz2
             (fst (set_support elevation Ty1 Tx1 Rz1 b)) in
  r = set_support elevation Ty2 Tx2 Rz2 b
  /\ snd r = Ok tt
  /\ exists row,
       global_restrained b !! k = Some row
       /\ global_restrained (fst r) !! k
          = Some {| restrained_node := restrained_node row;
                    fix_Tx := Tx2; fix_Ty := Ty2; fix_Rz := Rz2 |}.
Proof.
  intros (_ & _ & Hlen) Hk r. subst r.
  rewrite (set_support_one _ Ty1 Tx1 Rz1 b k Hk). cbn [fst].
  match goal with
  | |- context [set_support _ _ _ _ ?s] =>
      rewrite (set_support_one elevation Ty2 Tx2 Rz2 s k Hk)
  end.
  rewrite (set_support_one _ Ty2 Tx2 Rz2 b k Hk).
  cbn [fst snd nodes_coordinates global_forces global_disp global_restrained
       stdout].
  rewrite alter_absorb by reflexivity.
  split; [reflexivity|]. split; [reflexivity|].
  destruct (node_has_row b elevation k (global_restrained b) Hlen)
    as [row Hrow]; [rewrite Hk; now left|].
  exists row. split; [exact Hrow|].
  rewrite list_lookup_alter_eq, Hrow. reflexivity.
Qed.

(** X19: [set_pointdisplacement] marks a degree of freedom as restrained
    only for a value [> 0.0]: at a node held by
    [set_support(Tx=True, Ty=True, Rz=True)], prescribing a displacement
    [Ty <= 0] stores the value in [global_disp] and clears the restraint of
    [Ty], while the two other restraints stay. *)
Theorem displacement_frees_support (elevation v : Q) (b : Boundary) (k : nat)
    (row : RestrainedRow) (d : DispRow) :
  nodes_at (nodes_coordinates b) elevation = [k] ->
  global_restrained b !! k = Some row ->
  global_disp b !! k = Some d ->
  v <= 0 ->
  let b1 := fst (set_support elevation true true true b) in
  let b2 := fst (set_pointdisplacement elevation (Some v) None None b1) in
  global_restrained b1 !! k
  = Some {| restrained_node := restrained_node row;
            fix_Tx := true; fix_Ty := true; fix_Rz := true |}
  /\ global_restrained b2 !! k
     = Some {| restrained_node := restrained_node row;
               fix_Tx := true; fix_Ty := false; fix_Rz := true |}
  /\ global_disp b2 !! k
     = Some {| disp_node := disp_node d; Tx := Tx d; Ty := v; Rz := Rz d |}.
Proof.
  intros Hk Hrow Hd Hv b1 b2. subst b2 b1.
  rewrite (set_support_one _ true true true b k Hk). cbn [fst].
  match goal with
  | |- context [set_pointdisplacement _ _ _ _ ?s] =>
      rewrite (set_pointdisplacement_one elevation (Some v) None None s k Hk)
  end.
  cbn [fst nodes_coordinates global_forces global_disp global_restrained
       stdout].
  rewrite !list_lookup_alter_eq, Hrow, Hd.
  cbn [fmap option_fmap option_map restrained_node fix_Tx fix_Ty fix_Rz
       fix_or_keep set_or_keep].
  split; [reflexivity|]. split; [|reflexivity]. do 2 f_equal.
  apply Qlt_bool_false. exact Hv.
Qed.

(** X20: point loads at two elevations that select two different nodes
    commute: the model after both calls, and what the second call returns,
    do not depend on their order, and each of the two nodes holds the load
    of its own call. *)
Theorem pointloads_commute (e1 e2 : Q) (Py1 Px1 Mz1 Py2 Px2 Mz2 : option Q)
    (b : Boundary) (k1 k2 : nat) :
  aligned b ->
  nodes_at (nodes_coordinates b) e1 = [k1] ->
  nodes_at (nodes_coordinates b) e2 = [k2] ->
  k1 <> k2 ->
  let r := set_pointload e2 Py2 Px2 Mz2
             (fst (set_pointload e1 Py1 Px1 Mz1 b)) in
  r = set_pointload e1 Py1 Px1 Mz1 (fst (set_pointload e2 Py2 Px2 Mz2 b))
  /\ exists row1 row2,
       global_forces b !! k1 = Some row1
       /\ global_forces b !! k2 = Some row2
       /\ global_forces (fst r) !! k1
          = Some {| force_node := force_node row1;
                    Px := set_or_keep Px1 (Px row1);
                    Py := set_or_keep Py1 (Py row1);
                    Mz := set_or_keep Mz1 (Mz row1) |}
       /\ global_forces (fst r) !! k2
          = Some {| force_node := force_node row2;
                    Px := set_or_keep Px2 (Px row2);
                    Py := set_or_keep Py2 (Py row2);
                    Mz := set_or_keep Mz2 (Mz row2) |}.
Proof.
  intros (Hlen & _ & _) H1 H2 Hne r. subst r.
  rewrite (set_pointload_one e1 Py1 Px1 Mz1 b k1 H1).
  rewrite (set_pointload_one e2 Py2 Px2 Mz2 b k2 H2). cbn [fst].
  repeat match goal with
  | |- context [set_pointload ?e ?py ?px ?mz ?s] =>
      first [ rewrite (set_pointload_one e py px mz s k2 H2)
            | rewrite (set_pointload_one e py px mz s k1 H1) ]
  end.
  cbn [fst nodes_coordinates global_forces global_disp global_restrained
       stdout].
  split; [rewrite list_alter_alter_ne by congruence; reflexivity|].
  destruct (node_has_row b e1 k1 (global_forces b) Hlen)
    as [row1 Hrow1]; [rewrite H1; now left|].
  destruct (node_has_row b e2 k2 (global_forces b) Hlen)
    as [row2 Hrow2]; [rewrite H2; now left|].
  exists row1, row2. split; [exact Hrow1|]. split; [exact Hrow2|]. split.
  - rewrite list_lookup_alter_ne by congruence.
    rewrite list_lookup_alter_eq, Hrow1. reflexivity.
  - rewrite list_lookup_alter_eq.
    rewrite list_lookup_alter_ne by congruence. rewrite Hrow2. reflexivity.
Qed.

Lemma example_nodes_aligned : aligned (Boundary_init example_nodes).
Proof. repeat split. Qed.

Lemma set_support_last_wins_witness :
  let b := Boundary_init example_nodes in
  let r := set_support (-1 # 2) false true false
             (fst (set_support (-1 # 2) true true true b)) in
  r = set_support (-1 # 2) false true false b /\ snd r = Ok tt.
Proof.
  intros b r.
  destruct (set_support_last_wins (-1 # 2) true true true false true false
              b 1%nat example_nodes_aligned eq_refl) as (H1 & H2 & _).
  split; [exact H1 | exact H2].
Defined.

Lemma displacement_frees_support_witness :
  let b := Boundary_init example_nodes in
  let b1 := fst (set_support (-1) true true true b) in
  let b2 := fst (set_pointdisplacement (-1) (Some 0) None None b1) in
  fix_Ty <$> global_restrained b1 !! 2%nat = Some true
  /\ fix_Ty <$> global_restrained b2 !! 2%nat = Some false.
Proof.
  intros b b1 b2.
  destruct (displacement_frees_support (-1) 0 b 2%nat _ _ eq_refl eq_refl
              eq_refl) as (H1 & H2 & _); [discriminate|].
  subst b1 b2. cbv zeta in H1, H2. rewrite H1, H2. split; reflexivity.
Defined.

Lemma pointloads_commute_witness :
  let b := Boundary_init example_nodes in
  set_pointload (-1) (Some 5) None None
    (fst (set_pointload 0 (Some 100) None None b))
  = set_pointload 0 (Some 100) None None
      (fst (set_pointload (-1) (Some 5) None None b)).
Proof.
  intros b.
  destruct (pointloads_commute 0 (-1) (Some 100) None None (Some 5) None None
              b 0%nat 2%nat example_nodes_aligned eq_refl eq_refl)
    as [H _]; [discriminate|].
  exact H.
Defined.

(** ** Elevations of the internal forces *)

Lemma repeat_inner_cons2 (a b c : Q) (l : list Q) :
  repeat_inner (a :: b :: c :: l)
  = out ← repeat_inner (b :: c :: l); Ok (a :: b :: out).
Proof.
  unfold repeat_inner.
  change (last (a :: b :: c :: l)) with (last (c :: l)).
  change (last (b :: c :: l)) with (last (c :: l)).
  destruct (last (c :: l)) as [z|] eqn:Hl; [|reflexivity].
  reflexivity.
Qed.

(** X21: for two node elevations or more, [repeat_inner] lists the
    elevations element by element: it returns twice as many values as
    there are elements, and the values at positions [2i] and [2i+1] are the
    elevations of the two nodes [i] and [i+1] of element [i]. *)
Theorem repeat_inner_by_element (arr : list Q) :
  (2 <= length arr)%nat ->
  exists out,
    repeat_inner arr = Ok out
    /\ length out = (2 * (length arr - 1))%nat
    /\ forall i, (i < length arr - 1)%nat ->
         out !! (2 * i)%nat = arr !! i
         /\ out !! (2 * i + 1)%nat = arr !! (i + 1)%nat.
Proof.
  destruct arr as [|a [|b l]]; [simpl; lia | simpl; lia |]. intros _.
  revert a b. induction l as [|c l IH]; intros a b.
  - exists [a; b]. split; [reflexivity|]. split; [reflexivity|].
    intros i Hi. simpl in Hi. assert (i = 0)%nat as -> by lia.
    split; reflexivity.
  - destruct (IH b c) as (out & Hout & Hlen & Hget).
    exists (a :: b :: out). split; [|split].
    + rewrite repeat_inner_cons2, Hout. reflexivity.
    + simpl in *. lia.
    + intros [|i] Hi; [split; reflexivity|].
      replace (2 * S i)%nat with (S (S (2 * i))) by lia.
      replace (2 * S i + 1)%nat with (S (S (2 * i + 1))) by lia.
      cbn [lookup list_lookup]. simpl in Hi.
      destruct (Hget i) as [H0 H1]; [simpl; lia|].
      split; [exact H0|].
      replace (S i + 1)%nat with (S (i + 1)) by lia. exact H1.
Qed.

Lemma repeat_inner_by_element_witness :
  exists out,
    repeat_inner [0; -1 # 2; -1] = Ok out
    /\ length out = 4%nat
    /\ out !! 2%nat = Some (-1 # 2) /\ out !! 3%nat = Some (-1).
Proof.
  destruct (repeat_inner_by_element [0; -1 # 2; -1]) as (out & H & Hl & Hi);
    [simpl; lia|].
  exists out. split; [exact H|]. split; [exact Hl|].
  apply (Hi 1%nat). simpl. lia.
Defined.
